(** * grblHAL motion control and realtime protocol: a shallow embedding

    This development embeds the foreground motion-control code of
    [GRBL/motion_control.c] (the motion gateway [mc_line], the arc
    decomposer [mc_arc], the threading cycle [mc_thread], homing, parking
    and reset) and the realtime command ingest of [protocol.c]
    ([protocol_enqueue_realtime_command]) and proves properties of them.

    Conventions.
    - C [float] is IEEE-754 binary32, evaluated with the operations of
      [SpecFloat] at precision 24; the libm routines ([atan2f], [cosf],
      [sinf], [tanf], [powf]) are parameters.
    - Global state is threaded explicitly.  Routines of other modules
      (planner, stepper, limits, HAL, state machine) are parameters that
      act on the part of the state they own.
    - Every call that leaves the embedded code is emitted as an event, in
      program order, so that "what was pushed to the planner, and when"
      is a property of the list of events of a run.
    - Busy-wait loops take fuel; a call that has not returned (fuel
      exhausted, or a collaborator that never returns) yields [Hang]
      together with the state reached and the events emitted so far. *)

From Stdlib Require Import ZArith List Bool Lia.
From Stdlib Require Import Floats.SpecFloat.
Import ListNotations.
Local Open Scope Z_scope.

(** ** Single precision arithmetic *)

Definition float := spec_float.

Module F32.

Definition prec : Z := 24.
Definition emax : Z := 128.

Definition add : float -> float -> float := SFadd prec emax.
Definition sub : float -> float -> float := SFsub prec emax.
Definition mul : float -> float -> float := SFmul prec emax.
Definition div : float -> float -> float := SFdiv prec emax.
Definition sqrtf : float -> float := SFsqrt prec emax.
Definition neg : float -> float := SFopp.
Definition fabsf : float -> float := SFabs.

(** C comparisons: every comparison with a NaN operand is false. *)
Definition lt (a b : float) : bool := SFltb a b.
Definition gt (a b : float) : bool := SFltb b a.
Definition le (a b : float) : bool := SFleb a b.
Definition ge (a b : float) : bool := SFleb b a.
Definition eq (a b : float) : bool := SFeqb a b.
Definition ne (a b : float) : bool := negb (SFeqb a b).

(** [m * 2^e] rounded to nearest even; used for literals and for the
    conversion of integers to [float]. *)
Definition lit (m e : Z) : float := binary_normalize prec emax m e false.
Definition of_Z (z : Z) : float := lit z 0.

Definition zero : float := S754_zero false.
Definition one : float := of_Z 1.
Definition two : float := of_Z 2.
Definition four : float := of_Z 4.
Definition half : float := lit 1 (-1).
(** [0.16666667f] is 0x3E2AAAAB. *)
Definition sixth : float := lit 11184811 (-26).
(** [0.01f] is 0x3C23D70A. *)
Definition hundredth : float := lit 10737418 (-30).
(** [0.0001f] is 0x38D1B717. *)
Definition tenthousandth : float := lit 13743895 (-37).

(** The integer part of a finite value, rounded towards minus infinity. *)
Definition floor_Z (x : float) : Z :=
  match x with
  | S754_finite s m e =>
      let n := if s then Z.neg m else Z.pos m in
      if 0 <=? e then n * 2 ^ e else n / 2 ^ (- e)
  | _ => 0
  end.

(** [floorf]: infinities, NaN and zeros are returned unchanged. *)
Definition floorf (x : float) : float :=
  match x with
  | S754_finite s _ _ =>
      let z := floor_Z x in
      if z =? 0 then S754_zero s else of_Z z
  | _ => x
  end.

(** The integer part of a finite value, rounded towards zero. *)
Definition trunc_Z (x : float) : Z :=
  match x with
  | S754_finite s m e =>
      let n := if s then Z.neg m else Z.pos m in
      if 0 <=? e then n * 2 ^ e else Z.quot n (2 ^ (- e))
  | _ => 0
  end.

(** [(uint16_t)x].  C leaves the conversion undefined when the integer
    part does not fit; here it wraps modulo 2^16, and NaN and infinities
    convert to 0. *)
Definition to_uint16 (x : float) : Z := trunc_Z x mod 65536.

(** Double precision, for the expressions that C evaluates in [double]
    because an operand is a [double] constant.  A [float] converts to
    [double] without change; the result is rounded back on assignment. *)
Definition dprec : Z := 53.
Definition demax : Z := 1024.
Definition dadd : spec_float -> spec_float -> spec_float := SFadd dprec demax.
Definition dsub : spec_float -> spec_float -> spec_float := SFsub dprec demax.
Definition dmul : spec_float -> spec_float -> spec_float := SFmul dprec demax.
Definition to_single (x : spec_float) : float :=
  match x with
  | S754_finite s m e => binary_round prec emax s m e
  | _ => x
  end.

End F32.

Declare Scope f32_scope.
Delimit Scope f32_scope with f32.
Infix "+" := F32.add : f32_scope.
Infix "-" := F32.sub : f32_scope.
Infix "*" := F32.mul : f32_scope.
Infix "/" := F32.div : f32_scope.
Infix "<?" := F32.lt : f32_scope.
Infix ">?" := F32.gt : f32_scope.
Infix ">=?" := F32.ge : f32_scope.
Infix "<=?" := F32.le : f32_scope.
Infix "=?" := F32.eq : f32_scope.
Notation "- x" := (F32.neg x) : f32_scope.

(** The libm routines used by the motion code. *)
Record libm := {
  atan2f : float -> float -> float;
  cosf : float -> float;
  sinf : float -> float;
  tanf : float -> float;
  powf : float -> float -> float
}.

(** ** Axis vectors *)

Definition vec := list float.

(** [v[i]]; C leaves an out-of-range read undefined, the model reads 0. *)
Definition vget (v : vec) (i : nat) : float := nth i v F32.zero.

(** [v[i] = x]; an out-of-range write (undefined in C) leaves [v] as is. *)
Fixpoint vset (i : nat) (x : float) (v : vec) : vec :=
  match v, i with
  | [], _ => []
  | _ :: t, O => x :: t
  | h :: t, S i' => h :: vset i' x t
  end.

(** [memcpy(dst, src, sizeof(float) * n)]. *)
Definition vcopy (n : nat) (src dst : vec) : vec := firstn n src ++ skipn n dst.

Definition X_AXIS : nat := 0.
Definition Y_AXIS : nat := 1.
Definition Z_AXIS : nat := 2.

Definition bit (n : nat) : Z := Z.shiftl 1 (Z.of_nat n).

(** ** Enumerations and request records *)

(** [sys.state].  In the header every state is one bit of a mask, with
    [STATE_IDLE] zero, so that [sys.state & (A|B)] tests membership. *)
Inductive state_t :=
| STATE_IDLE | STATE_ALARM | STATE_CHECK_MODE | STATE_HOMING | STATE_CYCLE
| STATE_HOLD | STATE_JOG | STATE_SAFETY_DOOR | STATE_SLEEP | STATE_ESTOP
| STATE_TOOL_CHANGE.

Definition state_code (s : state_t) : Z :=
  match s with
  | STATE_IDLE => 0
  | STATE_ALARM => bit 0
  | STATE_CHECK_MODE => bit 1
  | STATE_HOMING => bit 2
  | STATE_CYCLE => bit 3
  | STATE_HOLD => bit 4
  | STATE_JOG => bit 5
  | STATE_SAFETY_DOOR => bit 6
  | STATE_SLEEP => bit 7
  | STATE_ESTOP => bit 8
  | STATE_TOOL_CHANGE => bit 9
  end.

Definition state_eqb (a b : state_t) : bool := state_code a =? state_code b.

(** Bits of the realtime event register [sys_rt_exec_state]. *)
Definition EXEC_STATUS_REPORT : Z := bit 0.
Definition EXEC_CYCLE_START : Z := bit 1.
Definition EXEC_CYCLE_COMPLETE : Z := bit 2.
Definition EXEC_FEED_HOLD : Z := bit 3.
Definition EXEC_STOP : Z := bit 4.
Definition EXEC_RESET : Z := bit 5.
Definition EXEC_SAFETY_DOOR : Z := bit 6.
Definition EXEC_MOTION_CANCEL : Z := bit 7.
Definition EXEC_SLEEP : Z := bit 8.
Definition EXEC_TOOL_CHANGE : Z := bit 9.
Definition EXEC_PID_REPORT : Z := bit 10.
Definition EXEC_GCODE_REPORT : Z := bit 11.

(** [bit_istrue(x, mask)]. *)
Definition bit_istrue (x mask : Z) : bool := negb (Z.land x mask =? 0).
Definition bit_isfalse (x mask : Z) : bool := Z.land x mask =? 0.

Inductive alarm_code_t :=
| Alarm_None | Alarm_HardLimit | Alarm_SoftLimit | Alarm_AbortCycle
| Alarm_ProbeFailInitial | Alarm_ProbeFailContact | Alarm_HomingFailReset
| Alarm_EStop | Alarm_HomingRequried | Alarm_LimitsEngaged.

Definition alarm_is_none (a : alarm_code_t) : bool :=
  match a with Alarm_None => true | _ => false end.

Inductive status_code_t :=
| Status_OK | Status_Unhandled | Status_LimitsEngaged | Status_TravelExceeded.

(** [spindle_state_t]: the bits the motion code reads or writes. *)
Record spindle_state_t := {
  sp_on : bool;
  sp_ccw : bool;
  sp_synchronized : bool
}.

Definition spindle_off : spindle_state_t :=
  {| sp_on := false; sp_ccw := false; sp_synchronized := false |}.

(** [plan_line_data_t], the line request handed to the planner. *)
Record plan_line_data_t := {
  feed_rate : float;
  spindle_rpm : float;
  rapid_motion : bool;
  jog_motion : bool;
  backlash_motion : bool;
  no_feed_override : bool;
  inverse_time : bool;
  cond_spindle : spindle_state_t;
  feed_hold_disable : bool;
  line_number : Z
}.

(** [plane_t]: the two axes of the arc plane and the linear axis. *)
Record plane_t := {
  axis_0 : nat;
  axis_1 : nat;
  axis_linear : nat
}.

Inductive gc_taper_type := Taper_None | Taper_Entry | Taper_Exit | Taper_Both.

Definition taper_eqb (a b : gc_taper_type) : bool :=
  match a, b with
  | Taper_None, Taper_None | Taper_Entry, Taper_Entry
  | Taper_Exit, Taper_Exit | Taper_Both, Taper_Both => true
  | _, _ => false
  end.

(** [gc_thread_data]: the G76 parameters. *)
Record gc_thread_data := {
  z_final : float;
  peak : float;
  initial_depth : float;
  depth : float;
  depth_degression : float;
  infeed_angle : float;
  spring_passes : Z;
  end_taper_type : gc_taper_type;
  th_end_taper_length : float;
  th_main_taper_height : float;
  cut_direction : float
}.

Definition set_end_taper_length (x : float) (t : gc_thread_data) :=
  {| z_final := z_final t; peak := peak t; initial_depth := initial_depth t;
     depth := depth t; depth_degression := depth_degression t;
     infeed_angle := infeed_angle t; spring_passes := spring_passes t;
     end_taper_type := end_taper_type t; th_end_taper_length := x;
     th_main_taper_height := th_main_taper_height t;
     cut_direction := cut_direction t |}.

Definition set_main_taper_height (x : float) (t : gc_thread_data) :=
  {| z_final := z_final t; peak := peak t; initial_depth := initial_depth t;
     depth := depth t; depth_degression := depth_degression t;
     infeed_angle := infeed_angle t; spring_passes := spring_passes t;
     end_taper_type := end_taper_type t; th_end_taper_length := th_end_taper_length t;
     th_main_taper_height := x;
     cut_direction := cut_direction t |}.

(** [memset(&pl, 0, sizeof(plan_line_data_t))]. *)
Definition pl_zero : plan_line_data_t :=
  {| feed_rate := F32.zero; spindle_rpm := F32.zero; rapid_motion := false;
     jog_motion := false; backlash_motion := false; no_feed_override := false;
     inverse_time := false; cond_spindle := spindle_off;
     feed_hold_disable := false; line_number := 0 |}.

Definition set_feed_rate (x : float) (p : plan_line_data_t) :=
  {| feed_rate := x; spindle_rpm := spindle_rpm p; rapid_motion := rapid_motion p;
     jog_motion := jog_motion p; backlash_motion := backlash_motion p;
     no_feed_override := no_feed_override p; inverse_time := inverse_time p;
     cond_spindle := cond_spindle p; feed_hold_disable := feed_hold_disable p;
     line_number := line_number p |}.

Definition set_spindle_rpm (x : float) (p : plan_line_data_t) :=
  {| feed_rate := feed_rate p; spindle_rpm := x; rapid_motion := rapid_motion p;
     jog_motion := jog_motion p; backlash_motion := backlash_motion p;
     no_feed_override := no_feed_override p; inverse_time := inverse_time p;
     cond_spindle := cond_spindle p; feed_hold_disable := feed_hold_disable p;
     line_number := line_number p |}.

Definition set_rapid_motion (b : bool) (p : plan_line_data_t) :=
  {| feed_rate := feed_rate p; spindle_rpm := spindle_rpm p; rapid_motion := b;
     jog_motion := jog_motion p; backlash_motion := backlash_motion p;
     no_feed_override := no_feed_override p; inverse_time := inverse_time p;
     cond_spindle := cond_spindle p; feed_hold_disable := feed_hold_disable p;
     line_number := line_number p |}.

Definition set_backlash_motion (b : bool) (p : plan_line_data_t) :=
  {| feed_rate := feed_rate p; spindle_rpm := spindle_rpm p; rapid_motion := rapid_motion p;
     jog_motion := jog_motion p; backlash_motion := b;
     no_feed_override := no_feed_override p; inverse_time := inverse_time p;
     cond_spindle := cond_spindle p; feed_hold_disable := feed_hold_disable p;
     line_number := line_number p |}.

Definition set_inverse_time (b : bool) (p : plan_line_data_t) :=
  {| feed_rate := feed_rate p; spindle_rpm := spindle_rpm p; rapid_motion := rapid_motion p;
     jog_motion := jog_motion p; backlash_motion := backlash_motion p;
     no_feed_override := no_feed_override p; inverse_time := b;
     cond_spindle := cond_spindle p; feed_hold_disable := feed_hold_disable p;
     line_number := line_number p |}.

Definition set_synchronized (b : bool) (p : plan_line_data_t) :=
  {| feed_rate := feed_rate p; spindle_rpm := spindle_rpm p; rapid_motion := rapid_motion p;
     jog_motion := jog_motion p; backlash_motion := backlash_motion p;
     no_feed_override := no_feed_override p; inverse_time := inverse_time p;
     cond_spindle := {| sp_on := sp_on (cond_spindle p); sp_ccw := sp_ccw (cond_spindle p);
                        sp_synchronized := b |};
     feed_hold_disable := feed_hold_disable p; line_number := line_number p |}.

Definition set_feed_hold_disable (b : bool) (p : plan_line_data_t) :=
  {| feed_rate := feed_rate p; spindle_rpm := spindle_rpm p; rapid_motion := rapid_motion p;
     jog_motion := jog_motion p; backlash_motion := backlash_motion p;
     no_feed_override := no_feed_override p; inverse_time := inverse_time p;
     cond_spindle := cond_spindle p; feed_hold_disable := b;
     line_number := line_number p |}.

Definition set_line_number (n : Z) (p : plan_line_data_t) :=
  {| feed_rate := feed_rate p; spindle_rpm := spindle_rpm p; rapid_motion := rapid_motion p;
     jog_motion := jog_motion p; backlash_motion := backlash_motion p;
     no_feed_override := no_feed_override p; inverse_time := inverse_time p;
     cond_spindle := cond_spindle p; feed_hold_disable := feed_hold_disable p;
     line_number := n |}.

(** ** Compile-time configuration and settings *)

(** The realtime command codes of [config.h]: the case labels of the
    two switches of the command ingest. *)
Record rt_commands := {
  CMD_STOP : Z;
  CMD_RESET : Z;
  CMD_EXIT : Z;
  CMD_STATUS_REPORT_ALL : Z;
  CMD_STATUS_REPORT : Z;
  CMD_CYCLE_START : Z;
  CMD_FEED_HOLD : Z;
  CMD_SAFETY_DOOR : Z;
  CMD_JOG_CANCEL : Z;
  CMD_GCODE_REPORT : Z;
  CMD_OPTIONAL_STOP_TOGGLE : Z;
  CMD_PID_REPORT : Z;
  (** [CMD_OVERRIDE_FEED_RESET] ... [CMD_OVERRIDE_RAPID_LOW] *)
  CMD_OVERRIDE_FEED : list Z;
  (** [CMD_OVERRIDE_SPINDLE_RESET] ... [CMD_OVERRIDE_COOLANT_MIST_TOGGLE] *)
  CMD_OVERRIDE_ACCESSORY : list Z;
  CMD_STATUS_REPORT_LEGACY : Z;
  CMD_CYCLE_START_LEGACY : Z;
  CMD_FEED_HOLD_LEGACY : Z
}.

(** Constants of [config.h], [nuts_bolts.h] and [system.h], and the
    properties of the C implementation the code depends on. *)
Record config := {
  N_AXIS : nat;
  N_ARC_CORRECTION : Z;
  (** A [double] literal: the comparison with it is made in [double]. *)
  ARC_ANGULAR_TRAVEL_EPSILON : spec_float;
  (** The [double] constant of [math.h]. *)
  M_PI : spec_float;
  RADDEG : float;
  (** Width in bits of [uint_fast16_t]. *)
  uint_fast16_bits : Z;
  (** Whether plain [char] is signed. *)
  char_signed : bool;
  (** Whether [KINEMATICS_API] is defined. *)
  KINEMATICS_API : bool;
  cmds : rt_commands
}.

(** The fields of [settings] read by the embedded code. *)
Record settings_t := {
  backlash : vec;
  homing_dir_mask : Z;
  homing_cycle : list Z;
  soft_enabled : bool;
  hard_enabled : bool;
  check_at_init : bool;
  two_switches : bool;
  laser_mode : bool;
  legacy_rt_commands : bool;
  arc_tolerance : float
}.

(** ** The system record and the machine state *)

Record sys_t := {
  sys_state : state_t;
  sys_abort : bool;
  sys_cancel : bool;
  sys_suspend : bool;
  sys_exit : bool;
  sys_optional_stop_disable : bool;
  sys_execute_hold : bool;
  sys_execute_sys_motion : bool;
  sys_end_motion : bool;
  sys_homed_mask : Z;
  (** [sys.report]: the [homed] bit, and whether all bits were set by
      [sys.report.value = (uint16_t)-1]. *)
  sys_report_homed : bool;
  sys_report_all : bool
}.

(** What the state machine, the limits module and the realtime service
    may read and write: the system record, the realtime event register,
    the parser's tool-change flag and the state [E] of planner, stepper
    and drivers. *)
Record machine (E : Type) := {
  sys : sys_t;
  sys_rt_exec_state : Z;
  sys_rt_exec_alarm : alarm_code_t;
  gc_tool_change : bool;
  env : E
}.
Arguments sys {E}.
Arguments sys_rt_exec_state {E}.
Arguments sys_rt_exec_alarm {E}.
Arguments gc_tool_change {E}.
Arguments env {E}.

(** Calls that leave the embedded code, in program order; [EvMcLine]
    and [EvMcLineRet] mark the entry of [mc_line] itself and its
    return. *)
Inductive event :=
| EvMcLine (target : vec) (pl : plan_line_data_t)
| EvMcLineRet (ok : bool)
| EvLimitsSoftCheck (target : vec)
| EvRealtime
| EvPlanBufferLine (target : vec) (pl : plan_line_data_t) (accepted : bool)
| EvPlanSyncPosition
| EvGcSyncPosition
| EvSpindleSetState (s : spindle_state_t) (rpm : float)
| EvCoolantOff
| EvDriverReset
| EvSuspendRead (flag : bool)
| EvCancelReadBuffer
| EvDelay (seconds : float)
| EvLimitsEnable (hard probe : bool)
| EvLimitsGoHome (cycle : Z) (ok : bool)
| EvStGoIdle
| EvStParkingSetupBuffer
| EvStPrepBuffer
| EvStWakeUp
| EvEnqueueFeedOverride (c : Z)
| EvEnqueueAccessoryOverride (c : Z).

(** The whole state: the machine and the file-local statics of
    [motion_control.c] (backlash tracker) and of [protocol.c] (line
    assembly). *)
Record world (E : Type) := {
  mach : machine E;
  target_prev : vec;
  dir_negative : Z;
  backlash_enabled : Z;
  char_counter : Z;
  keep_rt_commands : bool
}.
Arguments mach {E}.
Arguments target_prev {E}.
Arguments dir_negative {E}.
Arguments backlash_enabled {E}.
Arguments char_counter {E}.
Arguments keep_rt_commands {E}.

(** The [hal] function table. *)
Record hal_t (E : Type) := {
  hal_spindle_set_state : spindle_state_t -> float -> E -> E;
  hal_coolant_set_state : E -> E;
  hal_driver_reset : option (E -> E);
  hal_stream_suspend_read : option (bool -> E -> bool * E);
  hal_stream_cancel_read_buffer : E -> E;
  hal_limits_get_state : E -> Z;
  hal_limits_enable : bool -> bool -> E -> E;
  hal_e_stop : E -> bool;
  hal_execute_realtime : option (state_t -> machine E -> option (machine E));
  hal_cap_safety_door : bool;
  hal_cap_program_stop : bool
}.
Arguments hal_spindle_set_state {E}.
Arguments hal_coolant_set_state {E}.
Arguments hal_driver_reset {E}.
Arguments hal_stream_suspend_read {E}.
Arguments hal_stream_cancel_read_buffer {E}.
Arguments hal_limits_get_state {E}.
Arguments hal_limits_enable {E}.
Arguments hal_e_stop {E}.
Arguments hal_execute_realtime {E}.
Arguments hal_cap_safety_door {E}.
Arguments hal_cap_program_stop {E}.

(** Routines of the other firmware modules.  Planner, stepper and
    override queue routines act on [E]; the routines that run the state
    machine act on the machine and may not return ([None]). *)
Record firmware (E : Type) := {
  ABORTED : sys_t -> bool;
  plan_check_full_buffer : E -> bool;
  plan_buffer_line : vec -> plan_line_data_t -> E -> bool * E;
  plan_get_current_block : E -> bool;
  plan_sync_position : E -> E;
  st_go_idle : E -> E;
  st_parking_setup_buffer : E -> E;
  st_prep_buffer : E -> E;
  st_wake_up : E -> E;
  enqueue_feed_override : Z -> E -> E;
  enqueue_accessory_override : Z -> E -> E;
  protocol_exec_rt_system : machine E -> option (bool * machine E);
  protocol_exec_rt_suspend : machine E -> option (machine E);
  limits_soft_check : vec -> machine E -> option (machine E);
  limits_go_home : Z -> machine E -> option (bool * machine E);
  gc_sync_position : machine E -> machine E;
  delay_sec : float -> machine E -> option (machine E)
}.
Arguments ABORTED {E}.
Arguments plan_check_full_buffer {E}.
Arguments plan_buffer_line {E}.
Arguments plan_get_current_block {E}.
Arguments plan_sync_position {E}.
Arguments st_go_idle {E}.
Arguments st_parking_setup_buffer {E}.
Arguments st_prep_buffer {E}.
Arguments st_wake_up {E}.
Arguments enqueue_feed_override {E}.
Arguments enqueue_accessory_override {E}.
Arguments protocol_exec_rt_system {E}.
Arguments protocol_exec_rt_suspend {E}.
Arguments limits_soft_check {E}.
Arguments limits_go_home {E}.
Arguments gc_sync_position {E}.
Arguments delay_sec {E}.

(** ** The state monad of the embedding *)

Section Monad.
Context {E : Type}.

(** A call either returns a value in a new state, or has not returned. *)
Inductive outcome (A : Type) : Type :=
| Done (a : A) (w : world E)
| Hang (w : world E).
Arguments Done {A}.
Arguments Hang {A}.

(** A computation maps a state to the events it emits, oldest first,
    and its outcome. *)
Definition M (A : Type) : Type := world E -> list event * outcome A.

Definition ret {A} (a : A) : M A := fun w => ([], Done a w).

Definition bind {A B} (c : M A) (k : A -> M B) : M B :=
  fun w => match c w with
           | (evs, Done a w') => let (evs', o) := k a w' in (evs ++ evs', o)
           | (evs, Hang w') => (evs, Hang w')
           end.

Definition hang {A} : M A := fun w => ([], Hang w).

Definition events {A} (r : list event * outcome A) : list event := fst r.
Definition result {A} (r : list event * outcome A) : outcome A := snd r.

(** The state in which an outcome leaves the system. *)
Definition final {A} (o : outcome A) : world E :=
  match o with Done _ w => w | Hang w => w end.

Definition set_mach (m : machine E) (w : world E) : world E :=
  {| mach := m; target_prev := target_prev w; dir_negative := dir_negative w;
     backlash_enabled := backlash_enabled w; char_counter := char_counter w;
     keep_rt_commands := keep_rt_commands w |}.

Definition set_env (e : E) (m : machine E) : machine E :=
  {| sys := sys m; sys_rt_exec_state := sys_rt_exec_state m;
     sys_rt_exec_alarm := sys_rt_exec_alarm m;
     gc_tool_change := gc_tool_change m; env := e |}.

Definition set_sys (s : sys_t) (m : machine E) : machine E :=
  {| sys := s; sys_rt_exec_state := sys_rt_exec_state m;
     sys_rt_exec_alarm := sys_rt_exec_alarm m;
     gc_tool_change := gc_tool_change m; env := env m |}.

Definition set_exec_state (x : Z) (m : machine E) : machine E :=
  {| sys := sys m; sys_rt_exec_state := x;
     sys_rt_exec_alarm := sys_rt_exec_alarm m;
     gc_tool_change := gc_tool_change m; env := env m |}.

Definition set_exec_alarm (a : alarm_code_t) (m : machine E) : machine E :=
  {| sys := sys m; sys_rt_exec_state := sys_rt_exec_state m;
     sys_rt_exec_alarm := a;
     gc_tool_change := gc_tool_change m; env := env m |}.

Definition set_tool_change (b : bool) (m : machine E) : machine E :=
  {| sys := sys m; sys_rt_exec_state := sys_rt_exec_state m;
     sys_rt_exec_alarm := sys_rt_exec_alarm m;
     gc_tool_change := b; env := env m |}.

Definition set_backlash (tp : vec) (dn : Z) (w : world E) : world E :=
  {| mach := mach w; target_prev := tp; dir_negative := dn;
     backlash_enabled := backlash_enabled w; char_counter := char_counter w;
     keep_rt_commands := keep_rt_commands w |}.

Definition set_char_counter (n : Z) (w : world E) : world E :=
  {| mach := mach w; target_prev := target_prev w; dir_negative := dir_negative w;
     backlash_enabled := backlash_enabled w; char_counter := n;
     keep_rt_commands := keep_rt_commands w |}.

(** Reading and writing the state. *)
Definition get : M (world E) := fun w => ([], Done w w).
Definition gets {A} (f : world E -> A) : M A := fun w => ([], Done (f w) w).
Definition modify (f : world E -> world E) : M unit := fun w => ([], Done tt (f w)).
Definition modify_mach (f : machine E -> machine E) : M unit :=
  modify (fun w => set_mach (f (mach w)) w).
Definition modify_sys (f : sys_t -> sys_t) : M unit :=
  modify_mach (fun m => set_sys (f (sys m)) m).
Definition emit (ev : event) : M unit := fun w => ([ev], Done tt w).

(** A driver, planner or stepper routine that only reads its state. *)
Definition ask {A} (f : E -> A) : M A := gets (fun w => f (env (mach w))).
(** A driver, planner or stepper routine that updates its state. *)
Definition drive (f : E -> E) : M unit :=
  modify_mach (fun m => set_env (f (env m)) m).
Definition drive_ret {A} (f : E -> A * E) : M A :=
  fun w => let (a, e) := f (env (mach w)) in
           ([], Done a (set_mach (set_env e (mach w)) w)).
(** A routine that runs the state machine and may never return. *)
Definition service {A} (f : machine E -> option (A * machine E)) : M A :=
  fun w => match f (mach w) with
           | Some (a, m) => ([], Done a (set_mach m w))
           | None => ([], Hang w)
           end.
Definition service_ (f : machine E -> option (machine E)) : M unit :=
  fun w => match f (mach w) with
           | Some m => ([], Done tt (set_mach m w))
           | None => ([], Hang w)
           end.

End Monad.

Arguments Done {E A}.
Arguments Hang {E A}.

Declare Scope monad_scope.
Delimit Scope monad_scope with monad.
Notation "x <- c ;; k" := (bind c (fun x => k))
  (at level 61, c at next level, right associativity) : monad_scope.
Notation "c ;; k" := (bind c (fun _ => k))
  (at level 61, right associativity) : monad_scope.
Notation "'when' b 'then' c" := (if b then c else ret tt)
  (at level 60, b at level 9, c at level 60) : monad_scope.

Local Open Scope monad_scope.

(** ** The embedded code *)

(** Everything the embedded code is compiled and linked against. *)
Class platform (E : Type) := {
  cfg : config;
  settings : settings_t;
  lm : libm;
  hal : hal_t E;
  fw : firmware E
}.

Section Firmware.
Context {E : Type} {P : platform E}.

Local Abbreviation M := (@M E).

(** *** Realtime event register (macros of [system.h]) *)

(** Modelled from the spec: [system_set_exec_state_flag(mask)], missing
    from the sources; "writers OR-in" the mask. *)
Definition system_set_exec_state_flag (mask : Z) : M unit :=
  modify_mach (fun m => set_exec_state (Z.lor (sys_rt_exec_state m) mask) m).

(** Modelled from the spec: [system_set_exec_alarm(code)], missing from
    the sources; it posts an alarm code.  The register holds one code
    (the code compares it with [alarm_code_t] values and tests it for
    zero), so posting replaces the code. *)
Definition system_set_exec_alarm (code : alarm_code_t) : M unit :=
  modify_mach (set_exec_alarm code).

(** [return !ABORTED;] *)
Definition not_aborted : M bool :=
  gets (fun w => negb (ABORTED fw (sys (mach w)))).

(** *** [protocol.c]: realtime checkpoint *)

(** [protocol_auto_cycle_start] *)
Definition protocol_auto_cycle_start : M unit :=
  blk <- ask (plan_get_current_block fw) ;;
  when blk then system_set_exec_state_flag EXEC_CYCLE_START.

(** [protocol_execute_realtime]; the bodies of [protocol_exec_rt_system]
    and [protocol_exec_rt_suspend] are parameters. *)
Definition protocol_execute_realtime : M bool :=
  emit EvRealtime ;;
  ok <- service (protocol_exec_rt_system fw) ;;
  (when ok then
     ((match hal_execute_realtime hal with
       | Some f => st <- gets (fun w => sys_state (sys (mach w))) ;; service_ (f st)
       | None => ret tt
       end) ;;
      susp <- gets (fun w => sys_suspend (sys (mach w))) ;;
      when susp then service_ (protocol_exec_rt_suspend fw))) ;;
  not_aborted.

(** [while ((ok = protocol_execute_realtime()) &&
            (plan_get_current_block() || sys.state == STATE_CYCLE));] *)
Fixpoint protocol_buffer_synchronize_loop (fuel : nat) : M bool :=
  match fuel with
  | O => hang
  | S fuel' =>
      ok <- protocol_execute_realtime ;;
      if ok then
        blk <- ask (plan_get_current_block fw) ;;
        st <- gets (fun w => sys_state (sys (mach w))) ;;
        if blk || state_eqb st STATE_CYCLE
        then protocol_buffer_synchronize_loop fuel'
        else ret ok
      else ret ok
  end.

(** [protocol_buffer_synchronize] *)
Definition protocol_buffer_synchronize (fuel : nat) : M bool :=
  protocol_auto_cycle_start ;;
  protocol_buffer_synchronize_loop fuel.

(** *** [motion_control.c]: the motion gateway *)

(** [plan_buffer_line(target, pl_data)], emitted as an event. *)
Definition push_line (target : vec) (pl : plan_line_data_t) : M bool :=
  accepted <- drive_ret (plan_buffer_line fw target pl) ;;
  emit (EvPlanBufferLine target pl accepted) ;;
  ret accepted.

(** The backpressure loop:
    [while(plan_check_full_buffer()) {
         protocol_auto_cycle_start();
         if(!protocol_execute_realtime()) return false; }]
    The result is [false] when the loop leaves through [return false]. *)
Fixpoint wait_for_buffer (fuel : nat) : M bool :=
  match fuel with
  | O => hang
  | S fuel' =>
      full <- ask (plan_check_full_buffer fw) ;;
      if full then
        protocol_auto_cycle_start ;;
        ok <- protocol_execute_realtime ;;
        if ok then wait_for_buffer fuel' else ret false
      else ret true
  end.

(** State of the per-axis scan of the backlash block. *)
Record backlash_scan_t := {
  bs_dir_negative : Z;
  bs_target_prev : vec;
  bs_backlash_comp : bool
}.

(** One axis [idx] of the [do { idx--; ... axismask >>= 1; } while(idx)]
    loop. *)
Definition backlash_axis (enabled : Z) (target : vec) (idx : nat) (axismask : Z)
    (a : backlash_scan_t) : backlash_scan_t :=
  if bit_istrue enabled axismask then
    if (vget target idx >? vget (bs_target_prev a) idx)%f32 then
      if bit_istrue (bs_dir_negative a) axismask then
        {| bs_dir_negative := Z.land (bs_dir_negative a) (Z.lnot axismask);
           bs_target_prev := vset idx (vget (bs_target_prev a) idx + vget (backlash settings) idx)%f32
                                  (bs_target_prev a);
           bs_backlash_comp := true |}
      else a
    else if (vget target idx <? vget (bs_target_prev a) idx)%f32
            && negb (bit_istrue (bs_dir_negative a) axismask) then
      {| bs_dir_negative := Z.lor (bs_dir_negative a) axismask;
         bs_target_prev := vset idx (vget (bs_target_prev a) idx - vget (backlash settings) idx)%f32
                                (bs_target_prev a);
         bs_backlash_comp := true |}
    else a
  else a.

(** The scan from axis [n - 1] down to axis 0. *)
Fixpoint backlash_scan (enabled : Z) (target : vec) (n : nat) (axismask : Z)
    (a : backlash_scan_t) : backlash_scan_t :=
  match n with
  | O => a
  | S idx => backlash_scan enabled target idx (Z.shiftr axismask 1)
               (backlash_axis enabled target idx axismask a)
  end.

(** The request of a backlash move. *)
Definition backlash_request (pl : plan_line_data_t) : plan_line_data_t :=
  set_spindle_rpm (spindle_rpm pl)
    (set_line_number (line_number pl)
       (set_backlash_motion true (set_rapid_motion true pl_zero))).

(** The backlash block of [mc_line] ([ENABLE_BACKLASH_COMPENSATION]);
    the result is [false] when it leaves [mc_line] through
    [return false]. *)
Definition mc_line_backlash (fuel : nat) (target : vec) (pl : plan_line_data_t) : M bool :=
  enabled <- gets backlash_enabled ;;
  if negb (enabled =? 0) then
    w <- get ;;
    let a := backlash_scan enabled target (N_AXIS cfg) (bit (N_AXIS cfg - 1))
               {| bs_dir_negative := dir_negative w;
                  bs_target_prev := target_prev w;
                  bs_backlash_comp := false |} in
    modify (set_backlash (bs_target_prev a) (bs_dir_negative a)) ;;
    go <- (if bs_backlash_comp a then
             room <- wait_for_buffer fuel ;;
             if room then
               tp <- gets target_prev ;;
               push_line tp (backlash_request pl) ;;
               ret true
             else ret false
           else ret true) ;;
    if go then
      modify (fun w => set_backlash (vcopy (N_AXIS cfg) target (target_prev w))
                                    (dir_negative w) w) ;;
      ret true
    else ret false
  else ret true.

(** The body of [mc_line]. *)
Definition mc_line_body (fuel : nat) (target : vec) (pl : plan_line_data_t) : M bool :=
  (when (negb (jog_motion pl) && soft_enabled settings) then
     (emit (EvLimitsSoftCheck target) ;;
      service_ (limits_soft_check fw target))) ;;
  st <- gets (fun w => sys_state (sys (mach w))) ;;
  go <- (if negb (state_eqb st STATE_CHECK_MODE)
         then protocol_execute_realtime else ret false) ;;
  if go then
    cont <- mc_line_backlash fuel target pl ;;
    if cont then
      room <- wait_for_buffer fuel ;;
      if room then
        accepted <- push_line target pl ;;
        (when (negb accepted && laser_mode settings
               && sp_on (cond_spindle pl) && negb (sp_ccw (cond_spindle pl))) then
           (drive (hal_spindle_set_state hal (cond_spindle pl) (spindle_rpm pl)) ;;
            emit (EvSpindleSetState (cond_spindle pl) (spindle_rpm pl)))) ;;
        not_aborted
      else ret false
    else ret false
  else not_aborted.

(** [mc_line], with its entry and its return marked by events. *)
Definition mc_line (fuel : nat) (target : vec) (pl : plan_line_data_t) : M bool :=
  emit (EvMcLine target pl) ;;
  ok <- mc_line_body fuel target pl ;;
  emit (EvMcLineRet ok) ;;
  ret ok.

(** *** [motion_control.c]: arcs *)

(** The arc working set that the segment loop updates. *)
Record arc_state := {
  arc_r_axis0 : float;
  arc_r_axis1 : float;
  arc_count : Z;
  arc_position : vec
}.

(** The angular travel: one [atan2f], corrected per direction. *)
Definition arc_angular_travel (target position offset : vec) (plane : plane_t)
    (is_clockwise_arc : bool) : float :=
  let center_axis0 := (vget position (axis_0 plane) + vget offset (axis_0 plane))%f32 in
  let center_axis1 := (vget position (axis_1 plane) + vget offset (axis_1 plane))%f32 in
  let r_axis0 := (- vget offset (axis_0 plane))%f32 in
  let r_axis1 := (- vget offset (axis_1 plane))%f32 in
  let rt_axis0 := (vget target (axis_0 plane) - center_axis0)%f32 in
  let rt_axis1 := (vget target (axis_1 plane) - center_axis1)%f32 in
  let angular_travel :=
    atan2f lm (r_axis0 * rt_axis1 - r_axis1 * rt_axis0)%f32
              (r_axis0 * rt_axis0 + r_axis1 * rt_axis1)%f32 in
  if is_clockwise_arc then
    if SFleb (SFopp (ARC_ANGULAR_TRAVEL_EPSILON cfg)) angular_travel
    then F32.to_single (F32.dsub angular_travel (F32.dmul F32.two (M_PI cfg)))
    else angular_travel
  else
    if SFleb angular_travel (ARC_ANGULAR_TRAVEL_EPSILON cfg)
    then F32.to_single (F32.dadd angular_travel (F32.dmul F32.two (M_PI cfg)))
    else angular_travel.

(** [(uint16_t)floorf(fabsf(0.5f * angular_travel * radius) /
       sqrtf(settings.arc_tolerance * (2.0f * radius - settings.arc_tolerance)))] *)
Definition arc_segments (angular_travel radius : float) : Z :=
  F32.to_uint16
    (F32.floorf
       (F32.fabsf (F32.half * angular_travel * radius) /
        F32.sqrtf (arc_tolerance settings *
                   (F32.two * radius - arc_tolerance settings)))%f32).

(** [cos_T] and [sin_T] as the loop uses them:
    [cos_T = 2.0f - theta * theta;
     sin_T = theta * 0.16666667f * (cos_T + 4.0f);
     cos_T *= 0.5f;] *)
Definition arc_cos_T (theta_per_segment : float) : float :=
  ((F32.two - theta_per_segment * theta_per_segment) * F32.half)%f32.

Definition arc_sin_T (theta_per_segment : float) : float :=
  (theta_per_segment * F32.sixth *
   ((F32.two - theta_per_segment * theta_per_segment) + F32.four))%f32.

(** The body of the segment loop up to the call of [mc_line], for
    segment [i]. *)
Definition arc_step (offset : vec) (plane : plane_t)
    (center_axis0 center_axis1 theta_per_segment linear_per_segment : float)
    (i : Z) (s : arc_state) : arc_state :=
  let cos_T := arc_cos_T theta_per_segment in
  let sin_T := arc_sin_T theta_per_segment in
  let '(r_axis0, r_axis1, count) :=
    if arc_count s <? N_ARC_CORRECTION cfg then
      let r_axisi := (arc_r_axis0 s * sin_T + arc_r_axis1 s * cos_T)%f32 in
      let r_axis0 := (arc_r_axis0 s * cos_T - arc_r_axis1 s * sin_T)%f32 in
      (r_axis0, r_axisi, arc_count s + 1)
    else
      let cos_Ti := cosf lm (F32.of_Z i * theta_per_segment)%f32 in
      let sin_Ti := sinf lm (F32.of_Z i * theta_per_segment)%f32 in
      ((- vget offset (axis_0 plane) * cos_Ti + vget offset (axis_1 plane) * sin_Ti)%f32,
       (- vget offset (axis_0 plane) * sin_Ti - vget offset (axis_1 plane) * cos_Ti)%f32,
       0) in
  let position := vset (axis_0 plane) (center_axis0 + r_axis0)%f32 (arc_position s) in
  let position := vset (axis_1 plane) (center_axis1 + r_axis1)%f32 position in
  let position := vset (axis_linear plane)
                       (vget position (axis_linear plane) + linear_per_segment)%f32 position in
  {| arc_r_axis0 := r_axis0; arc_r_axis1 := r_axis1; arc_count := count;
     arc_position := position |}.

(** [for (i = 1; i < segments; i++) { ...; if(!mc_line(position, pl_data)) return; }]
    with [n] segments left; the flag tells whether the loop ran to its
    end ([true]) or left [mc_arc] through [return] ([false]). *)
Fixpoint arc_loop (fuel : nat) (step : Z -> arc_state -> arc_state)
    (pl : plan_line_data_t) (n : nat) (i : Z) (s : arc_state) : M (bool * arc_state) :=
  match n with
  | O => ret (true, s)
  | S n' =>
      let s' := step i s in
      ok <- mc_line fuel (arc_position s') pl ;;
      if ok then arc_loop fuel step pl n' (i + 1) s' else ret (false, s')
  end.

(** [mc_arc].  [target], [position] and [offset] are distinct arrays;
    the result is the final content of [*pl_data] and of [position]. *)
Definition mc_arc (fuel : nat) (target : vec) (pl : plan_line_data_t)
    (position offset : vec) (radius : float) (plane : plane_t)
    (is_clockwise_arc : bool) : M (plan_line_data_t * vec) :=
  let center_axis0 := (vget position (axis_0 plane) + vget offset (axis_0 plane))%f32 in
  let center_axis1 := (vget position (axis_1 plane) + vget offset (axis_1 plane))%f32 in
  let r_axis0 := (- vget offset (axis_0 plane))%f32 in
  let r_axis1 := (- vget offset (axis_1 plane))%f32 in
  let angular_travel := arc_angular_travel target position offset plane is_clockwise_arc in
  let segments := arc_segments angular_travel radius in
  if negb (segments =? 0) then
    let pl :=
      if inverse_time pl
      then set_inverse_time false (set_feed_rate (feed_rate pl * F32.of_Z segments)%f32 pl)
      else pl in
    let theta_per_segment := (angular_travel / F32.of_Z segments)%f32 in
    let linear_per_segment :=
      ((vget target (axis_linear plane) - vget position (axis_linear plane))
       / F32.of_Z segments)%f32 in
    r <- arc_loop fuel
           (arc_step offset plane center_axis0 center_axis1
                     theta_per_segment linear_per_segment)
           pl (Z.to_nat (segments - 1)) 1
           {| arc_r_axis0 := r_axis0; arc_r_axis1 := r_axis1; arc_count := 0;
              arc_position := position |} ;;
    let '(completed, s) := r in
    if completed then
      mc_line fuel target pl ;;
      ret (pl, arc_position s)
    else ret (pl, arc_position s)
  else
    mc_line fuel target pl ;;
    ret (pl, position).

(** *** [motion_control.c]: dwell and threading *)

(** [mc_dwell] *)
Definition mc_dwell (fuel : nat) (seconds : float) : M unit :=
  st <- gets (fun w => sys_state (sys (mach w))) ;;
  when (negb (state_eqb st STATE_CHECK_MODE)) then
    (protocol_buffer_synchronize fuel ;;
     emit (EvDelay seconds) ;;
     service_ (delay_sec fw seconds)).

(** [calc_thread_doc] *)
Definition calc_thread_doc (pass : Z) (cut_depth inv_degression : float) : float :=
  (cut_depth * powf lm (F32.of_Z pass) inv_degression)%f32.

(** [min(a, b)], the macro [(((a) < (b)) ? (a) : (b))]. *)
Definition min_f (a b : float) : float := if (a <? b)%f32 then a else b.

(** [++x] and [--x] on a [uint_fast16_t]. *)
Definition fast16 (x : Z) : Z := x mod 2 ^ uint_fast16_bits cfg.

(** [while(calc_thread_doc(++passes, doc, inv_degression) < thread->depth);]
    The result is the value of [passes] when the loop ends. *)
Fixpoint thread_count_passes (fuel : nat) (thread : gc_thread_data)
    (doc inv_degression : float) (passes : Z) : option Z :=
  match fuel with
  | O => None
  | S fuel' =>
      let passes := fast16 (passes + 1) in
      if (calc_thread_doc passes doc inv_degression <? depth thread)%f32
      then thread_count_passes fuel' thread doc inv_degression passes
      else Some passes
  end.

(** The locals of [mc_thread] that a pass reads and writes. *)
Record thread_state := {
  ts_pass : Z;
  ts_doc : float;
  ts_target : vec;
  ts_pl : plan_line_data_t
}.

Definition ts_line (fuel : nat) (s : thread_state) : M bool :=
  mc_line fuel (ts_target s) (ts_pl s).

Definition ts_upd (axis : nat) (f : float -> float) (s : thread_state) : thread_state :=
  {| ts_pass := ts_pass s; ts_doc := ts_doc s;
     ts_target := vset axis (f (vget (ts_target s) axis)) (ts_target s);
     ts_pl := ts_pl s |}.

Definition ts_with_pl (f : plan_line_data_t -> plan_line_data_t) (s : thread_state)
    : thread_state :=
  {| ts_pass := ts_pass s; ts_doc := ts_doc s; ts_target := ts_target s;
     ts_pl := f (ts_pl s) |}.

(** A step of a pass that ends in [if(!mc_line(target, pl_data)) return;]:
    the flag is [false] when the step leaves [mc_thread]. *)
Definition ts_emit (fuel : nat) (s : thread_state) : M (bool * thread_state) :=
  ok <- ts_line fuel s ;;
  ret (ok, s).

Definition ts_skip (s : thread_state) : M (bool * thread_state) := ret (true, s).

(** Sequencing of steps that may leave [mc_thread]. *)
Definition andthen (c : M (bool * thread_state))
    (k : thread_state -> M (bool * thread_state)) : M (bool * thread_state) :=
  r <- c ;;
  if fst r then k (snd r) else ret r.

(** The body of [while(--passes) { ... }], with [passes] the value after
    the decrement. *)
Definition thread_pass (fuel : nat) (position : vec) (thread : gc_thread_data)
    (thread_length infeed_factor inv_degression : float) (feed_hold_disabled : bool)
    (passes : Z) (s : thread_state) : M (bool * thread_state) :=
  let doc := ts_doc s in
  let end_taper_factor := (doc / depth thread)%f32 in
  let end_taper_depth := (depth thread * end_taper_factor)%f32 in
  let end_taper_length := (th_end_taper_length thread * end_taper_factor)%f32 in
  let dir := cut_direction thread in
  andthen
    (if taper_eqb (end_taper_type thread) Taper_None
     then ts_emit fuel (ts_upd X_AXIS (fun x => x + (peak thread + doc) * dir)%f32 s)
     else ts_skip s)
    (fun s =>
  let s := ts_with_pl (fun p => set_feed_hold_disable true
                                  (set_synchronized true (set_rapid_motion false p))) s in
  mc_dwell fuel F32.hundredth ;;
  andthen
    (if taper_eqb (end_taper_type thread) Taper_Entry
        || taper_eqb (end_taper_type thread) Taper_Both
     then
       andthen
         (ts_emit fuel
            (ts_upd X_AXIS (fun x => x + (peak thread + doc - end_taper_depth) * dir)%f32 s))
         (fun s =>
            ts_emit fuel (ts_upd Z_AXIS (fun z => z - end_taper_length)%f32
                            (ts_upd X_AXIS (fun x => x + end_taper_depth * dir)%f32 s)))
     else ts_skip s)
    (fun s =>
  andthen
    (if (F32.ne thread_length F32.zero)
     then ts_emit fuel (ts_upd Z_AXIS (fun z => z + thread_length)%f32
                          (ts_upd X_AXIS (fun x => x + th_main_taper_height thread * dir)%f32 s))
     else ts_skip s)
    (fun s =>
  andthen
    (if taper_eqb (end_taper_type thread) Taper_Exit
        || taper_eqb (end_taper_type thread) Taper_Both
     then ts_emit fuel (ts_upd Z_AXIS (fun z => z - end_taper_length)%f32
                          (ts_upd X_AXIS (fun x => x + end_taper_depth * dir)%f32 s))
     else ts_skip s)
    (fun s =>
  let s := ts_with_pl (fun p => set_synchronized false (set_rapid_motion true p)) s in
  andthen
    (ts_emit fuel (ts_upd X_AXIS (fun _ => vget position X_AXIS) s))
    (fun s =>
  if 1 <? passes then
    let pass := fast16 (ts_pass s + 1) in
    let doc := min_f (calc_thread_doc pass (initial_depth thread) inv_degression)
                     (depth thread) in
    let s := {| ts_pass := pass; ts_doc := doc; ts_target := ts_target s;
                ts_pl := set_feed_hold_disable feed_hold_disabled (ts_pl s) |} in
    ts_emit fuel
      (ts_upd Z_AXIS
         (fun _ => vget position Z_AXIS +
                   (if F32.ne infeed_factor F32.zero
                    then (depth thread - doc) * infeed_factor
                    else F32.zero))%f32 s)
  else
    ts_skip {| ts_pass := ts_pass s; ts_doc := depth thread;
               ts_target := ts_target s; ts_pl := ts_pl s |}))))).

(** [while(--passes) { ... }]: [n] is the value of [passes] after the
    first decrement. *)
Fixpoint thread_loop (pass : Z -> thread_state -> M (bool * thread_state))
    (n : nat) (s : thread_state) : M (bool * thread_state) :=
  match n with
  | O => ts_skip s
  | S n' => andthen (pass (Z.of_nat n) s) (thread_loop pass n')
  end.

(** What [mc_thread] computes before the first move: the pass counter,
    the thread length and the adjusted taper data. *)
Record thread_setup := {
  su_passes : Z;
  su_thread_length : float;
  su_thread : gc_thread_data;
  su_infeed_factor : float;
  su_inv_degression : float
}.

Definition mc_thread_setup (fuel : nat) (position : vec) (thread : gc_thread_data)
    : option thread_setup :=
  let doc := initial_depth thread in
  let inv_degression := (F32.one / depth_degression thread)%f32 in
  let end_taper_factor :=
    match end_taper_type thread with
    | Taper_None => F32.zero
    | Taper_Both => F32.two
    | _ => F32.one
    end in
  let infeed_factor := tanf lm (infeed_angle thread * RADDEG cfg)%f32 in
  match thread_count_passes fuel thread doc inv_degression 0 with
  | None => None
  | Some passes =>
      let passes := fast16 (passes + (spring_passes thread + 1)) in
      let thread_length := (z_final thread - vget position Z_AXIS)%f32 in
      let thread :=
        if (thread_length >? F32.zero)%f32
        then set_end_taper_length (- th_end_taper_length thread)%f32 thread
        else thread in
      let thread_length :=
        (thread_length + th_end_taper_length thread * end_taper_factor)%f32 in
      let thread :=
        if F32.ne (th_main_taper_height thread) F32.zero
        then set_main_taper_height
               (th_main_taper_height thread * thread_length /
                (thread_length - th_end_taper_length thread * end_taper_factor))%f32
               thread
        else thread in
      Some {| su_passes := passes; su_thread_length := thread_length;
              su_thread := thread; su_infeed_factor := infeed_factor;
              su_inv_degression := inv_degression |}
  end.

(** [mc_thread].  The result is the final content of [*pl_data] and of
    [*thread]. *)
Definition mc_thread (fuel : nat) (pl : plan_line_data_t) (position : vec)
    (thread : gc_thread_data) (feed_hold_disabled : bool)
    : M (plan_line_data_t * gc_thread_data) :=
  match mc_thread_setup fuel position thread with
  | None => hang
  | Some su =>
      let thread := su_thread su in
      let s := {| ts_pass := 1; ts_doc := initial_depth thread;
                  ts_target := vcopy (N_AXIS cfg) position [];
                  ts_pl := set_rapid_motion true pl |} in
      r <- andthen
             (if F32.ne (su_infeed_factor su) F32.zero
              then ts_emit fuel
                     (ts_upd Z_AXIS (fun z => z + depth thread * su_infeed_factor su)%f32 s)
              else ts_skip s)
             (thread_loop
                (thread_pass fuel position thread (su_thread_length su)
                   (su_infeed_factor su) (su_inv_degression su) feed_hold_disabled)
                (Z.to_nat (fast16 (su_passes su - 1)))) ;;
      ret (ts_pl (snd r), thread)
  end.

(** *** [motion_control.c]: reset, homing and parking *)

Definition set_sys_exit (b : bool) (s : sys_t) : sys_t :=
  {| sys_state := sys_state s; sys_abort := sys_abort s; sys_cancel := sys_cancel s;
     sys_suspend := sys_suspend s; sys_exit := b;
     sys_optional_stop_disable := sys_optional_stop_disable s;
     sys_execute_hold := sys_execute_hold s;
     sys_execute_sys_motion := sys_execute_sys_motion s;
     sys_end_motion := sys_end_motion s; sys_homed_mask := sys_homed_mask s;
     sys_report_homed := sys_report_homed s; sys_report_all := sys_report_all s |}.

Definition set_sys_optional_stop_disable (b : bool) (s : sys_t) : sys_t :=
  {| sys_state := sys_state s; sys_abort := sys_abort s; sys_cancel := sys_cancel s;
     sys_suspend := sys_suspend s; sys_exit := sys_exit s;
     sys_optional_stop_disable := b;
     sys_execute_hold := sys_execute_hold s;
     sys_execute_sys_motion := sys_execute_sys_motion s;
     sys_end_motion := sys_end_motion s; sys_homed_mask := sys_homed_mask s;
     sys_report_homed := sys_report_homed s; sys_report_all := sys_report_all s |}.

Definition set_sys_motion (execute_sys_motion end_motion : bool) (s : sys_t) : sys_t :=
  {| sys_state := sys_state s; sys_abort := sys_abort s; sys_cancel := sys_cancel s;
     sys_suspend := sys_suspend s; sys_exit := sys_exit s;
     sys_optional_stop_disable := sys_optional_stop_disable s;
     sys_execute_hold := sys_execute_hold s;
     sys_execute_sys_motion := execute_sys_motion;
     sys_end_motion := end_motion; sys_homed_mask := sys_homed_mask s;
     sys_report_homed := sys_report_homed s; sys_report_all := sys_report_all s |}.

Definition set_sys_homed_mask (m : Z) (s : sys_t) : sys_t :=
  {| sys_state := sys_state s; sys_abort := sys_abort s; sys_cancel := sys_cancel s;
     sys_suspend := sys_suspend s; sys_exit := sys_exit s;
     sys_optional_stop_disable := sys_optional_stop_disable s;
     sys_execute_hold := sys_execute_hold s;
     sys_execute_sys_motion := sys_execute_sys_motion s;
     sys_end_motion := sys_end_motion s; sys_homed_mask := m;
     sys_report_homed := sys_report_homed s; sys_report_all := sys_report_all s |}.

Definition set_sys_report (homed all : bool) (s : sys_t) : sys_t :=
  {| sys_state := sys_state s; sys_abort := sys_abort s; sys_cancel := sys_cancel s;
     sys_suspend := sys_suspend s; sys_exit := sys_exit s;
     sys_optional_stop_disable := sys_optional_stop_disable s;
     sys_execute_hold := sys_execute_hold s;
     sys_execute_sys_motion := sys_execute_sys_motion s;
     sys_end_motion := sys_end_motion s; sys_homed_mask := sys_homed_mask s;
     sys_report_homed := homed; sys_report_all := all |}.

(** [mc_reset] *)
Definition mc_reset : M unit :=
  pending <- gets (fun w => sys_rt_exec_state (mach w)) ;;
  when (bit_isfalse pending EXEC_RESET) then
    (system_set_exec_state_flag EXEC_RESET ;;
     drive (hal_spindle_set_state hal spindle_off F32.zero) ;;
     emit (EvSpindleSetState spindle_off F32.zero) ;;
     drive (hal_coolant_set_state hal) ;;
     emit EvCoolantOff ;;
     (match hal_driver_reset hal with
      | Some f => drive f ;; emit EvDriverReset
      | None => ret tt
      end) ;;
     (match hal_stream_suspend_read hal with
      | Some f => drive_ret (f false) ;; emit (EvSuspendRead false)
      | None => ret tt
      end) ;;
     s <- gets (fun w => sys (mach w)) ;;
     (when (negb (Z.land (state_code (sys_state s))
                         (Z.lor (Z.lor (state_code STATE_CYCLE) (state_code STATE_HOMING))
                                (state_code STATE_JOG)) =? 0)
            || sys_execute_hold s || sys_execute_sys_motion s) then
        ((if negb (state_eqb (sys_state s) STATE_HOMING)
          then system_set_exec_alarm Alarm_AbortCycle
          else
            alarm <- gets (fun w => sys_rt_exec_alarm (mach w)) ;;
            when (alarm_is_none alarm) then system_set_exec_alarm Alarm_HomingFailReset) ;;
         drive (st_go_idle fw) ;;
         emit EvStGoIdle)) ;;
     e_stop <- ask (hal_e_stop hal) ;;
     when e_stop then system_set_exec_alarm Alarm_EStop).

(** [limits_go_home(cycle)], emitted as an event. *)
Definition go_home (cycle : Z) : M bool :=
  ok <- service (limits_go_home fw cycle) ;;
  emit (EvLimitsGoHome cycle ok) ;;
  ret ok.

(** The [do { ... } while(++idx < N_AXIS)] loop of [mc_homing_cycle]
    over the configured cycles, with [n] indices left; the result is the
    last value of [cycle.mask]. *)
Fixpoint homing_cycles (n : nat) (idx : nat) (cycle : Z) : M Z :=
  match n with
  | O => ret cycle
  | S n' =>
      let mask := nth idx (homing_cycle settings) 0 in
      if negb (mask =? 0) then
        ok <- go_home mask ;;
        if ok then homing_cycles n' (S idx) mask else ret mask
      else homing_cycles n' (S idx) cycle
  end.

(** [mc_homing_cycle] *)
Definition mc_homing_cycle (cycle : Z) : M status_code_t :=
  limits <- ask (hal_limits_get_state hal) ;;
  if two_switches settings && negb (limits =? 0) then
    mc_reset ;;
    system_set_exec_alarm Alarm_HardLimit ;;
    ret Status_Unhandled
  else
    drive (hal_limits_enable hal false true) ;;
    emit (EvLimitsEnable false true) ;;
    cycle <- (if negb (cycle =? 0)
              then go_home cycle ;; ret cycle
              else
                modify_sys (set_sys_homed_mask 0) ;;
                homing_cycles (Nat.max 1 (N_AXIS cfg)) 0 cycle) ;;
    go <- (if negb (cycle =? 0) then
             ok <- protocol_execute_realtime ;;
             if ok then
               modify_mach (gc_sync_position fw) ;;
               emit EvGcSyncPosition ;;
               drive (plan_sync_position fw) ;;
               emit EvPlanSyncPosition ;;
               ret true
             else ret false
           else ret true) ;;
    if go then
      modify_sys (fun s => set_sys_report true (sys_report_all s) s) ;;
      drive (hal_limits_enable hal (hard_enabled settings) false) ;;
      emit (EvLimitsEnable (hard_enabled settings) false) ;;
      limits <- ask (hal_limits_get_state hal) ;;
      ret (if hard_enabled settings && check_at_init settings && negb (limits =? 0)
           then Status_LimitsEngaged else Status_OK)
    else ret Status_Unhandled.

(** [mc_parking_motion] *)
Definition mc_parking_motion (parking_target : vec) (pl : plan_line_data_t) : M bool :=
  abort <- gets (fun w => sys_abort (sys (mach w))) ;;
  if abort then ret false
  else
    accepted <- push_line parking_target pl ;;
    if accepted then
      modify_sys (set_sys_motion true false) ;;
      drive (st_parking_setup_buffer fw) ;;
      emit EvStParkingSetupBuffer ;;
      drive (st_prep_buffer fw) ;;
      emit EvStPrepBuffer ;;
      drive (st_wake_up fw) ;;
      emit EvStWakeUp ;;
      ret true
    else
      system_set_exec_state_flag EXEC_CYCLE_COMPLETE ;;
      ret false.

(** *** [protocol.c]: realtime command ingest *)

(** The value of [char c] for the byte [b]: with a signed [char] the
    bytes from 0x80 are negative. *)
Definition char_value (b : Z) : Z :=
  if char_signed cfg && (128 <=? b) then b - 256 else b.

Definition set_report_all : M unit :=
  modify_sys (set_sys_report true true).

(** The first [switch] of [protocol_enqueue_realtime_command]; [b] is
    [(unsigned char)c].  The result is [drop]. *)
Definition rt_command_switch (b : Z) : M bool :=
  let k := cmds cfg in
  if (b =? 10) || (b =? 13) then ret false
  else if b =? CMD_STOP k then
    system_set_exec_state_flag EXEC_STOP ;;
    modify (set_char_counter 0) ;;
    drive (hal_stream_cancel_read_buffer hal) ;;
    emit EvCancelReadBuffer ;;
    ret true
  else if b =? CMD_RESET k then
    e_stop <- ask (hal_e_stop hal) ;;
    (when (negb e_stop) then mc_reset) ;;
    ret true
  else if b =? CMD_EXIT k then
    mc_reset ;;
    modify_sys (set_sys_exit true) ;;
    ret true
  else if (b =? CMD_STATUS_REPORT_ALL k) || (b =? CMD_STATUS_REPORT k) || (b =? 5) then
    (when (b =? CMD_STATUS_REPORT_ALL k) then set_report_all) ;;
    system_set_exec_state_flag EXEC_STATUS_REPORT ;;
    ret true
  else if b =? CMD_CYCLE_START k then
    system_set_exec_state_flag EXEC_CYCLE_START ;;
    modify_mach (set_tool_change false) ;;
    ret true
  else if b =? CMD_FEED_HOLD k then
    system_set_exec_state_flag EXEC_FEED_HOLD ;;
    ret true
  else if b =? CMD_SAFETY_DOOR k then
    if negb (hal_cap_safety_door hal) then
      system_set_exec_state_flag EXEC_SAFETY_DOOR ;;
      ret true
    else ret false
  else if b =? CMD_JOG_CANCEL k then
    modify (set_char_counter 0) ;;
    drive (hal_stream_cancel_read_buffer hal) ;;
    emit EvCancelReadBuffer ;;
    (when (KINEMATICS_API cfg) then
       (st <- gets (fun w => sys_state (sys (mach w))) ;;
        when (negb (Z.land (state_code st) (state_code STATE_JOG) =? 0)) then
          system_set_exec_state_flag EXEC_MOTION_CANCEL)) ;;
    ret true
  else if b =? CMD_GCODE_REPORT k then
    system_set_exec_state_flag EXEC_GCODE_REPORT ;;
    ret true
  else if b =? CMD_OPTIONAL_STOP_TOGGLE k then
    (when (negb (hal_cap_program_stop hal)) then
       modify_sys (fun s => set_sys_optional_stop_disable
                              (negb (sys_optional_stop_disable s)) s)) ;;
    ret false
  else if b =? CMD_PID_REPORT k then
    system_set_exec_state_flag EXEC_PID_REPORT ;;
    ret true
  else if existsb (Z.eqb b) (CMD_OVERRIDE_FEED k) then
    drive (enqueue_feed_override fw b) ;;
    emit (EvEnqueueFeedOverride b) ;;
    ret true
  else if existsb (Z.eqb b) (CMD_OVERRIDE_ACCESSORY k) then
    drive (enqueue_accessory_override fw b) ;;
    emit (EvEnqueueAccessoryOverride b) ;;
    ret true
  else
    let c := char_value b in
    ret ((c <? 32) || ((127 <=? c) && (c <=? 191))).

(** The second [switch]: legacy commands and top-bit-set characters. *)
Definition rt_command_legacy (b : Z) : M bool :=
  let k := cmds cfg in
  keep <- gets keep_rt_commands ;;
  let allowed := negb keep || legacy_rt_commands settings in
  if b =? CMD_STATUS_REPORT_LEGACY k then
    if allowed then system_set_exec_state_flag EXEC_STATUS_REPORT ;; ret true
    else ret false
  else if b =? CMD_CYCLE_START_LEGACY k then
    if allowed then
      system_set_exec_state_flag EXEC_CYCLE_START ;;
      modify_mach (set_tool_change false) ;;
      ret true
    else ret false
  else if b =? CMD_FEED_HOLD_LEGACY k then
    if allowed then system_set_exec_state_flag EXEC_FEED_HOLD ;; ret true
    else ret false
  else ret (negb (keep || (b <? 127))).

(** [protocol_enqueue_realtime_command]; the argument is the input byte,
    [0 <= b < 256]. *)
Definition protocol_enqueue_realtime_command (b : Z) : M bool :=
  drop <- rt_command_switch b ;;
  if negb drop then rt_command_legacy b else ret drop.

End Firmware.

(** ** The trajectory of an arc

    What the segment loop of [mc_arc] goes through when no call of
    [mc_line] stops it: the working sets after each segment, and the
    line requests of the whole arc. *)


Section ArcPlan.
Context {E : Type} {P : platform E}.
Variables (target : vec) (pl : plan_line_data_t) (position offset : vec)
  (radius : float) (plane : plane_t) (is_clockwise_arc : bool).









End ArcPlan.




(** ** The requests of a threading pass *)











(** ** Observations on runs *)

(** The planner pushes of a run, oldest first. *)
Fixpoint pushes (evs : list event) : list (vec * plan_line_data_t) :=
  match evs with
  | [] => []
  | EvPlanBufferLine t p _ :: r => (t, p) :: pushes r
  | _ :: r => pushes r
  end.

(** The calls of [mc_line] of a run, oldest first. *)
Fixpoint mc_line_calls (evs : list event) : list (vec * plan_line_data_t) :=
  match evs with
  | [] => []
  | EvMcLine t p :: r => (t, p) :: mc_line_calls r
  | _ :: r => mc_line_calls r
  end.

(** The returns of [mc_line] of a run, oldest first. *)
Fixpoint mc_line_returns (evs : list event) : list bool :=
  match evs with
  | [] => []
  | EvMcLineRet ok :: r => ok :: mc_line_returns r
  | _ :: r => mc_line_returns r
  end.

(** The homing moves of a run, oldest first. *)
Fixpoint homing_calls (evs : list event) : list Z :=
  match evs with
  | [] => []
  | EvLimitsGoHome cycle _ :: r => cycle :: homing_calls r
  | _ :: r => homing_calls r
  end.

(** The state in which [mc_line] tests for check mode: the state of the
    call, or the state in which the soft-limit check returned. *)
Definition after_soft_check {E} {P : platform E}
    (target : vec) (pl : plan_line_data_t) (w : world E) : option (world E) :=
  if negb (jog_motion pl) && soft_enabled settings
  then match limits_soft_check fw target (mach w) with
       | Some m => Some (set_mach m w)
       | None => None
       end
  else Some w.

(** The new target equals the remembered target on every axis. *)
Definition same_target (n : nat) (target prev : vec) : Prop :=
  forall idx, (idx < n)%nat -> (vget target idx =? vget prev idx)%f32 = true.

(** The backlash tracker: the statics of [motion_control.c]. *)
Definition tracker {E} (w : world E) : vec * Z * Z :=
  (target_prev w, dir_negative w, backlash_enabled w).

(** A computation is quiet when it pushes nothing to the planner, does
    not enter [mc_line] and leaves the backlash tracker alone. *)
Definition quiet {E A} (c : @M E A) : Prop :=
  forall w, pushes (events (c w)) = [] /\
            mc_line_calls (events (c w)) = [] /\
            tracker (final (result (c w))) = tracker w.

(** What a run of [mc_reset] guarantees: it returns, the reset flag is
    pending afterwards, and it commands no motion. *)
Definition reset_post {E} (w : world E) (evs : list event) (o : @outcome E unit) : Prop :=
  exists w', o = Done tt w' /\
    bit_istrue (sys_rt_exec_state (mach w')) EXEC_RESET = true /\
    sys (mach w') = sys (mach w) /\
    (forall mask, bit_istrue (sys_rt_exec_state (mach w)) mask = true ->
                  bit_istrue (sys_rt_exec_state (mach w')) mask = true) /\
    pushes evs = [] /\ mc_line_calls evs = [] /\ homing_calls evs = [].

(** The bytes with a function assigned in the first switch of the
    command ingest: its case labels. *)
Definition assigned_code (k : rt_commands) (b : Z) : bool :=
  (b =? 10) || (b =? 13) || (b =? CMD_STOP k) || (b =? CMD_RESET k)
  || (b =? CMD_EXIT k) || (b =? CMD_STATUS_REPORT_ALL k)
  || (b =? CMD_STATUS_REPORT k) || (b =? 5) || (b =? CMD_CYCLE_START k)
  || (b =? CMD_FEED_HOLD k) || (b =? CMD_SAFETY_DOOR k)
  || (b =? CMD_JOG_CANCEL k) || (b =? CMD_GCODE_REPORT k)
  || (b =? CMD_OPTIONAL_STOP_TOGGLE k) || (b =? CMD_PID_REPORT k)
  || existsb (Z.eqb b) (CMD_OVERRIDE_FEED k)
  || existsb (Z.eqb b) (CMD_OVERRIDE_ACCESSORY k).

(** The legacy command codes are printable characters. *)
Definition legacy_printable (k : rt_commands) : Prop :=
  32 <= CMD_STATUS_REPORT_LEGACY k /\ 32 <= CMD_CYCLE_START_LEGACY k /\
  32 <= CMD_FEED_HOLD_LEGACY k.

(** Events other than the entry and the return of [mc_line]. *)
Definition not_line (ev : event) : bool :=
  match ev with
  | EvMcLine _ _ | EvMcLineRet _ => false
  | _ => true
  end.

(** A computation all of whose events satisfy [p]. *)
Definition emits_only {E A} (p : event -> bool) (c : @M E A) : Prop :=
  forall w, forallb p (events (c w)) = true.

(** [wp c Q w]: the run of [c] from [w] emits events and ends in an
    outcome related by [Q]. *)
Definition wp {E A} (c : @M E A) (Q : list event -> outcome A -> Prop)
    (w : world E) : Prop :=
  Q (events (c w)) (result (c w)).

(** ** A reference platform

    A small concrete platform on which the embedded code can be run: the
    default configuration of the firmware, a planner that queues what it
    is given, drivers without effect and a realtime service with nothing
    pending.  It serves to evaluate the code on concrete inputs. *)

Module Bench.

(** Double precision helpers for the reference libm. *)
Definition dlit (z : Z) : spec_float := binary_normalize F32.dprec F32.demax z 0 false.
Definition ddiv : spec_float -> spec_float -> spec_float := SFdiv F32.dprec F32.demax.

(** Partial sums of an alternating power series: from the term [t] of
    degree [k], the next term is [- t * x2 / ((k + 1) * (k + 2))]. *)
Fixpoint series (n : nat) (k : Z) (x2 t acc : spec_float) : spec_float :=
  match n with
  | O => acc
  | S n' =>
      let t' := ddiv (F32.dmul (SFopp t) x2) (dlit ((k + 1) * (k + 2))) in
      series n' (k + 2) x2 t' (F32.dadd acc t')
  end.

(** Sine and cosine by their Taylor series, evaluated in double
    precision and rounded; accurate for arguments up to pi in size. *)
Definition ref_sinf (x : float) : float :=
  match x with
  | S754_finite _ _ _ => F32.to_single (series 14 1 (F32.dmul x x) x x)
  | S754_zero _ => x
  | _ => S754_nan
  end.

Definition ref_cosf (x : float) : float :=
  match x with
  | S754_finite _ _ _ => F32.to_single (series 14 0 (F32.dmul x x) (dlit 1) (dlit 1))
  | S754_zero _ => F32.one
  | _ => S754_nan
  end.

(** The [float] nearest to pi/2, 0x3FC90FDB. *)
Definition pio2 : float := F32.lit 13176795 (-23).

(** [atan2f] where the C standard (Annex F) gives the result outright:
    on the axes.  Elsewhere this reference returns NaN. *)
Definition ref_atan2f (y x : float) : float :=
  match y, x with
  | S754_finite sy _ _, S754_zero _ => if sy then F32.neg pio2 else pio2
  | S754_zero sy, S754_finite false _ _ => S754_zero sy
  | S754_zero sy, S754_zero false => S754_zero sy
  | S754_zero sy, S754_finite true _ _ =>
      if sy then F32.neg (F32.add pio2 pio2) else F32.add pio2 pio2
  | _, _ => S754_nan
  end.

(** [powf] where the result is an IEEE operation: exponents 1 and 0.5,
    and base 1.  Elsewhere this reference returns NaN. *)
Definition ref_powf (x y : float) : float :=
  if F32.eq x F32.one then F32.one
  else if F32.eq y F32.one then x
  else if F32.eq y F32.half then F32.sqrtf x
  else S754_nan.

Definition ref_tanf (x : float) : float := F32.div (ref_sinf x) (ref_cosf x).

Definition libm0 : libm :=
  {| atan2f := ref_atan2f; cosf := ref_cosf; sinf := ref_sinf;
     tanf := ref_tanf; powf := ref_powf |}.

(** The default command codes of [config.h]. *)
Definition commands0 : rt_commands :=
  {| CMD_STOP := 0x19; CMD_RESET := 0x18; CMD_EXIT := 0x03;
     CMD_STATUS_REPORT_ALL := 0x87; CMD_STATUS_REPORT := 0x80;
     CMD_CYCLE_START := 0x81; CMD_FEED_HOLD := 0x82; CMD_SAFETY_DOOR := 0x84;
     CMD_JOG_CANCEL := 0x85; CMD_GCODE_REPORT := 0x83;
     CMD_OPTIONAL_STOP_TOGGLE := 0x88; CMD_PID_REPORT := 0xA2;
     CMD_OVERRIDE_FEED := [0x90; 0x91; 0x92; 0x93; 0x94; 0x95; 0x96; 0x97];
     CMD_OVERRIDE_ACCESSORY := [0x99; 0x9A; 0x9B; 0x9C; 0x9D; 0x9E; 0xA0; 0xA1];
     CMD_STATUS_REPORT_LEGACY := 63;
     CMD_CYCLE_START_LEGACY := 126;
     CMD_FEED_HOLD_LEGACY := 33 |}.

Definition config0 : config :=
  {| N_AXIS := 3;
     N_ARC_CORRECTION := 12;
     ARC_ANGULAR_TRAVEL_EPSILON := ddiv (dlit 5) (dlit 10000000);
     M_PI := binary_normalize F32.dprec F32.demax 7074237752028440 (-51) false;
     RADDEG := F32.lit 9370165 (-29);
     uint_fast16_bits := 32;
     char_signed := false;
     KINEMATICS_API := false;
     cmds := commands0 |}.

(** Settings: 0.1 mm of backlash on X, arc tolerance 0.002 mm. *)
Definition settings0 : settings_t :=
  {| backlash := [F32.lit 13421773 (-27); F32.zero; F32.zero];
     homing_dir_mask := 0;
     homing_cycle := [4; 3; 0];
     soft_enabled := false;
     hard_enabled := false;
     check_at_init := false;
     two_switches := true;
     laser_mode := false;
     legacy_rt_commands := true;
     arc_tolerance := F32.lit 8589935 (-32) |}.

(** Planner, stepper and driver state: the planner queue, the blocks
    already executed and the input pins. *)
Record plant := {
  queue : list (vec * plan_line_data_t);
  executed : list (vec * plan_line_data_t);
  capacity : nat;
  limit_pins : Z;
  e_stop_pin : bool
}.

Definition enqueue (target : vec) (pl : plan_line_data_t) (e : plant) : bool * plant :=
  (true, {| queue := queue e ++ [(target, pl)]; executed := executed e;
            capacity := capacity e;
            limit_pins := limit_pins e; e_stop_pin := e_stop_pin e |}).

(** A cycle: the stepper executes every queued block. *)
Definition run_queue (e : plant) : plant :=
  {| queue := []; executed := executed e ++ queue e; capacity := capacity e;
     limit_pins := limit_pins e; e_stop_pin := e_stop_pin e |}.

(** The realtime service of the reference platform: a pending cycle
    start runs the queue; nothing else is ever pending. *)
Definition rt_system (m : machine plant) : option (bool * machine plant) :=
  if bit_istrue (sys_rt_exec_state m) EXEC_CYCLE_START
  then Some (true, set_env (run_queue (env m)) (set_exec_state 0 m))
  else Some (true, m).

Definition hal0 : hal_t plant :=
  {| hal_spindle_set_state := fun _ _ e => e;
     hal_coolant_set_state := fun e => e;
     hal_driver_reset := None;
     hal_stream_suspend_read := None;
     hal_stream_cancel_read_buffer := fun e => e;
     hal_limits_get_state := limit_pins;
     hal_limits_enable := fun _ _ e => e;
     hal_e_stop := e_stop_pin;
     hal_execute_realtime := None;
     hal_cap_safety_door := false;
     hal_cap_program_stop := false |}.

Definition firmware0 : firmware plant :=
  {| ABORTED := fun s => sys_abort s || sys_cancel s;
     plan_check_full_buffer := fun e => (capacity e <=? length (queue e))%nat;
     plan_buffer_line := enqueue;
     plan_get_current_block := fun e => negb (length (queue e) =? 0)%nat;
     plan_sync_position := fun e => e;
     st_go_idle := fun e => e;
     st_parking_setup_buffer := fun e => e;
     st_prep_buffer := fun e => e;
     st_wake_up := fun e => e;
     enqueue_feed_override := fun _ e => e;
     enqueue_accessory_override := fun _ e => e;
     protocol_exec_rt_system := rt_system;
     protocol_exec_rt_suspend := fun m => Some m;
     limits_soft_check := fun _ m => Some m;
     limits_go_home := fun _ m => Some (true, m);
     gc_sync_position := fun m => m;
     delay_sec := fun _ m => Some m |}.

Definition platform0 : platform plant :=
  {| cfg := config0; settings := settings0; lm := libm0; hal := hal0; fw := firmware0 |}.

Definition sys0 (st : state_t) (abort : bool) : sys_t :=
  {| sys_state := st; sys_abort := abort; sys_cancel := false; sys_suspend := false;
     sys_exit := false; sys_optional_stop_disable := false;
     sys_execute_hold := false; sys_execute_sys_motion := false;
     sys_end_motion := false; sys_homed_mask := 0;
     sys_report_homed := false; sys_report_all := false |}.

(** A world at rest at the origin: empty planner queue of the given
    capacity, X backlash enabled with the X direction negative. *)
Definition world0 (st : state_t) (abort : bool) (cap : nat) (pins : Z) : world plant :=
  {| mach := {| sys := sys0 st abort; sys_rt_exec_state := 0;
                sys_rt_exec_alarm := Alarm_None; gc_tool_change := false;
                env := {| queue := []; executed := []; capacity := cap; limit_pins := pins;
                          e_stop_pin := false |} |};
     target_prev := [F32.zero; F32.zero; F32.zero];
     dir_negative := 1;
     backlash_enabled := 1;
     char_counter := 0;
     keep_rt_commands := false |}.

Definition v3 (x y z : Z) : vec := [F32.of_Z x; F32.of_Z y; F32.of_Z z].

Definition plane_xy : plane_t := {| axis_0 := X_AXIS; axis_1 := Y_AXIS; axis_linear := Z_AXIS |}.

(** A feed move at 600 mm/min. *)
Definition feed600 : plan_line_data_t := set_feed_rate (F32.of_Z 600) pl_zero.

End Bench.

Module Examples.

(** S2: the quarter circle from (10,0,0) to (0,10,0) about the origin,
    counter-clockwise in the XY plane. *)
Definition s2_position : vec := Bench.v3 10 0 0.
Definition s2_target : vec := Bench.v3 0 10 0.
Definition s2_offset : vec := Bench.v3 (-10) 0 0.
Definition s2_radius : float := F32.of_Z 10.


(** A thread whose initial depth 2.0 exceeds its full depth 1.0. *)
Definition deep_thread : gc_thread_data :=
  {| z_final := F32.of_Z (-10);
     peak := F32.zero;
     initial_depth := F32.two;
     depth := F32.one;
     depth_degression := F32.two;
     infeed_angle := F32.zero;
     spring_passes := 0;
     end_taper_type := Taper_None;
     th_end_taper_length := F32.zero;
     th_main_taper_height := F32.zero;
     cut_direction := F32.one |}.


Definition origin : vec := Bench.v3 0 0 0.

(** The machine idle at the origin, with room for 200 blocks. *)
Definition idle : world Bench.plant := Bench.world0 STATE_IDLE false 200 0.


(** The machine in check mode with [sys.abort] set. *)
Definition checking_aborted : world Bench.plant :=
  Bench.world0 STATE_CHECK_MODE true 200 0.

(** The machine idle with the X limit input active. *)
Definition on_limit : world Bench.plant := Bench.world0 STATE_IDLE false 200 1.


End Examples.

(** * Further observations on runs *)

(** The targets handed to [limits_soft_check], oldest first. *)
Fixpoint soft_checks (evs : list event) : list vec :=
  match evs with
  | [] => []
  | EvLimitsSoftCheck t :: r => t :: soft_checks r
  | _ :: r => soft_checks r
  end.

(** The calls of [hal.limits_enable], oldest first. *)
Fixpoint limit_enables (evs : list event) : list (bool * bool) :=
  match evs with
  | [] => []
  | EvLimitsEnable h p :: r => (h, p) :: limit_enables r
  | _ :: r => limit_enables r
  end.

(** The delays requested from [delay_sec], oldest first. *)
Fixpoint delays (evs : list event) : list float :=
  match evs with
  | [] => []
  | EvDelay s :: r => s :: delays r
  | _ :: r => delays r
  end.

(** Every call of [plan_buffer_line] of the run comes after a realtime
    checkpoint of the same run. *)
Definition checkpoint_before_push (evs : list event) : Prop :=
  forall pre t p a post,
    evs = pre ++ EvPlanBufferLine t p a :: post -> In EvRealtime pre.

(** No call of [mc_line] follows a call of [mc_line] that returned
    [false]. *)
Definition stops_at_failure (evs : list event) : Prop :=
  forall pre post, evs = pre ++ EvMcLineRet false :: post -> mc_line_calls post = [].

(** On none of the first [n] axes does the target lie above or below
    the remembered target. *)
Definition unmoved (n : nat) (target prev : vec) : Prop :=
  forall idx, (idx < n)%nat ->
    (vget target idx >? vget prev idx)%f32 = false /\
    (vget target idx <? vget prev idx)%f32 = false.

(** The condition under which [mc_reset] kills the steppers: a motion
    state (cycle, homing or jog), an executing feed hold or an executing
    system motion. *)
Definition in_motion (s : sys_t) : bool :=
  match sys_state s with
  | STATE_CYCLE | STATE_HOMING | STATE_JOG => true
  | _ => false
  end || sys_execute_hold s || sys_execute_sys_motion s.

(** The alarm that a reset leaves posted, from the alarm pending before
    it: an e-stop comes first, then the loss of position in a motion
    state (during homing only when no alarm is pending yet). *)
Definition reset_alarm (e_stop : bool) (s : sys_t) (pending : alarm_code_t)
    : alarm_code_t :=
  if e_stop then Alarm_EStop
  else if in_motion s then
    match sys_state s with
    | STATE_HOMING => if alarm_is_none pending then Alarm_HomingFailReset else pending
    | _ => Alarm_AbortCycle
    end
  else pending.

(** Whether the steppers were forced idle during a run. *)
Definition stepper_killed (evs : list event) : bool :=
  existsb (fun ev => match ev with EvStGoIdle => true | _ => false end) evs.

(** The homing moves of a run with their results, oldest first. *)
Fixpoint homing_moves (evs : list event) : list (Z * bool) :=
  match evs with
  | [] => []
  | EvLimitsGoHome cycle ok :: r => (cycle, ok) :: homing_moves r
  | _ :: r => homing_moves r
  end.

Definition go_home_event (m : Z * bool) : event := EvLimitsGoHome (fst m) (snd m).

(** The homing cycles configured in [settings.homing.cycle] at the [n]
    indices from [idx] on, without the empty ones. *)
Definition configured_cycles {E} {P : platform E} (idx n : nat) : list Z :=
  filter (fun mask => negb (mask =? 0))
         (map (fun i => nth i (homing_cycle settings) 0) (seq idx n)).

(** What follows the homing moves in [mc_homing_cycle]: the checkpoint
    and the position synchronization when a cycle was run, and the
    re-enabling of the hard limits unless the checkpoint reported an
    abort. *)
Definition homing_epilogue {E} {P : platform E} (ran : bool) (st : status_code_t)
    : list event :=
  if ran then
    EvRealtime ::
    match st with
    | Status_Unhandled => []
    | _ => [EvGcSyncPosition; EvPlanSyncPosition;
            EvLimitsEnable (hard_enabled settings) false]
    end
  else [EvLimitsEnable (hard_enabled settings) false].

(** The legacy realtime commands, the case labels of the second switch
    of the command ingest, and the flag that each of them raises. *)
Definition legacy_code (k : rt_commands) (b : Z) : bool :=
  (b =? CMD_STATUS_REPORT_LEGACY k) || (b =? CMD_CYCLE_START_LEGACY k)
  || (b =? CMD_FEED_HOLD_LEGACY k).

Definition legacy_flag (k : rt_commands) (b : Z) : Z :=
  if b =? CMD_STATUS_REPORT_LEGACY k then EXEC_STATUS_REPORT
  else if b =? CMD_CYCLE_START_LEGACY k then EXEC_CYCLE_START
  else EXEC_FEED_HOLD.

(** A run of steps that leaves its function after a failed [mc_line]:
    no call of [mc_line] follows a failed one, and a run that ends with
    the flag [true] has seen no failed call. *)
Definition halts_on_failure {E X} (evs : list event) (o : @outcome E (bool * X)) : Prop :=
  stops_at_failure evs /\
  (In (EvMcLineRet false) evs ->
   match o with Done (true, _) _ => False | _ => True end).

(** * The rest of [motion_control.c] and of [protocol.c]

    The routines below use globals and routines that the routines above
    do not touch.  The globals are kept in the state of the environment,
    next to the state of planner, stepper and drivers, so that the
    realtime service and the interrupt handlers it stands for may change
    them as well. *)

Inductive probe_state_t := Probe_Off | Probe_Active.

Inductive gc_probe_t :=
| GCProbe_Found | GCProbe_Abort | GCProbe_FailInit | GCProbe_FailEnd | GCProbe_CheckMode.

(** [motion_mode_t]: the code tells the chip-breaking cycle from the
    other canned cycles. *)
Inductive motion_mode_t := MotionMode_DrillChipBreak | MotionMode_CannedCycle (code : Z).

Definition is_chip_break (m : motion_mode_t) : bool :=
  match m with MotionMode_DrillChipBreak => true | _ => false end.

Inductive cc_retract_mode_t := CCRetractMode_Previous | CCRetractMode_RPos.

(** [gc_canned_t]: the parameters of a canned cycle. *)
Record gc_canned_t := {
  cn_xyz : vec;
  cn_delta : float;
  cn_dwell : float;
  cn_prev_position : float;
  cn_retract_position : float;
  cn_rapid_retract : bool;
  cn_spindle_off : bool;
  cn_retract_mode : cc_retract_mode_t
}.

Definition set_prev_position (x : float) (c : gc_canned_t) : gc_canned_t :=
  {| cn_xyz := cn_xyz c; cn_delta := cn_delta c; cn_dwell := cn_dwell c;
     cn_prev_position := x; cn_retract_position := cn_retract_position c;
     cn_rapid_retract := cn_rapid_retract c; cn_spindle_off := cn_spindle_off c;
     cn_retract_mode := cn_retract_mode c |}.

(** [gc_state.modal.program_flow]: running, or any other value. *)
Inductive program_flow_t := ProgramFlow_Running | ProgramFlow_Other (code : Z).

(** The fields of the parser state [gc_state] that are read. *)
Record gc_state_t := {
  gc_distance_incremental : bool;
  gc_modal_spindle : spindle_state_t;
  gc_file_run : bool;
  gc_program_flow : program_flow_t
}.

(** The probing globals of [system.c]: [sys_probe_state],
    [sys.flags.probe_succeeded], [sys_position] and
    [sys_probe_position]. *)
Record probe_t := {
  sys_probe_state : probe_state_t;
  sys_probe_succeeded : bool;
  sys_position : list Z;
  sys_probe_position : list Z
}.

Record globals := {
  g_probe : probe_t;
  g_gc_state : gc_state_t;
  (** [sys.override.control] *)
  g_override_control : Z;
  (** [xcommand] of [protocol.c], up to its terminating zero. *)
  g_xcommand : list Z
}.

Definition set_probe (p : probe_t) (g : globals) : globals :=
  {| g_probe := p; g_gc_state := g_gc_state g;
     g_override_control := g_override_control g; g_xcommand := g_xcommand g |}.

Definition set_override_control (x : Z) (g : globals) : globals :=
  {| g_probe := g_probe g; g_gc_state := g_gc_state g;
     g_override_control := x; g_xcommand := g_xcommand g |}.

Definition set_xcommand (x : list Z) (g : globals) : globals :=
  {| g_probe := g_probe g; g_gc_state := g_gc_state g;
     g_override_control := g_override_control g; g_xcommand := x |}.

Definition set_sys_probe_state (s : probe_state_t) (p : probe_t) : probe_t :=
  {| sys_probe_state := s; sys_probe_succeeded := sys_probe_succeeded p;
     sys_position := sys_position p; sys_probe_position := sys_probe_position p |}.

Definition set_probe_succeeded (b : bool) (p : probe_t) : probe_t :=
  {| sys_probe_state := sys_probe_state p; sys_probe_succeeded := b;
     sys_position := sys_position p; sys_probe_position := sys_probe_position p |}.

Definition set_sys_probe_position (x : list Z) (p : probe_t) : probe_t :=
  {| sys_probe_state := sys_probe_state p; sys_probe_succeeded := sys_probe_succeeded p;
     sys_position := sys_position p; sys_probe_position := x |}.

(** The environment: the globals, and the state [E0] of planner,
    stepper and drivers. *)
Record xenv (E0 : Type) := {
  glob : globals;
  plant : E0
}.
Arguments glob {E0}.
Arguments plant {E0}.

(** The further settings read. *)
Record settings_x_t := {
  jog_soft_limited : bool;
  g73_retract : float;
  probe_coordinates : bool;
  sleep_enable : bool
}.

(** The further routines of the other firmware modules and of the
    [hal] table.  The routines that run the state machine or wait may
    not return ([None]). *)
Record externals (E0 : Type) := {
  system_convert_array_steps_to_mpos : list Z -> vec;
  system_apply_jog_limits : vec -> machine (xenv E0) -> vec;
  system_check_travel_limits : vec -> machine (xenv E0) -> bool;
  set_state : state_t -> machine (xenv E0) -> option (machine (xenv E0));
  st_reset : E0 -> E0;
  plan_reset : E0 -> E0;
  report_probe_parameters : E0 -> E0;
  hal_probe_configure_invert_mask : bool -> E0 -> E0;
  hal_probe_get_state : E0 -> bool;
  hal_safety_door_ajar : E0 -> bool;
  spindle_sync : spindle_state_t -> float -> machine (xenv E0) -> option (machine (xenv E0));
  state_suspend_manager : machine (xenv E0) -> option (machine (xenv E0));
  sleep_check : machine (xenv E0) -> option (machine (xenv E0))
}.
Arguments system_convert_array_steps_to_mpos {E0}.
Arguments system_apply_jog_limits {E0}.
Arguments system_check_travel_limits {E0}.
Arguments set_state {E0}.
Arguments st_reset {E0}.
Arguments plan_reset {E0}.
Arguments report_probe_parameters {E0}.
Arguments hal_probe_configure_invert_mask {E0}.
Arguments hal_probe_get_state {E0}.
Arguments hal_safety_door_ajar {E0}.
Arguments spindle_sync {E0}.
Arguments state_suspend_manager {E0}.
Arguments sleep_check {E0}.

(** The platform of the routines below: the platform of the routines
    above over the extended environment, and what is added to it. *)
Class platform_x (E0 : Type) := {
  base :: platform (xenv E0);
  settings_x : settings_x_t;
  ext : externals E0
}.

Definition set_jog_motion (b : bool) (p : plan_line_data_t) :=
  {| feed_rate := feed_rate p; spindle_rpm := spindle_rpm p; rapid_motion := rapid_motion p;
     jog_motion := b; backlash_motion := backlash_motion p;
     no_feed_override := no_feed_override p; inverse_time := inverse_time p;
     cond_spindle := cond_spindle p; feed_hold_disable := feed_hold_disable p;
     line_number := line_number p |}.

Definition set_no_feed_override (b : bool) (p : plan_line_data_t) :=
  {| feed_rate := feed_rate p; spindle_rpm := spindle_rpm p; rapid_motion := rapid_motion p;
     jog_motion := jog_motion p; backlash_motion := backlash_motion p;
     no_feed_override := b; inverse_time := inverse_time p;
     cond_spindle := cond_spindle p; feed_hold_disable := feed_hold_disable p;
     line_number := line_number p |}.

Definition set_tracker {E} (tp : vec) (dn en : Z) (w : world E) : world E :=
  {| mach := mach w; target_prev := tp; dir_negative := dn;
     backlash_enabled := en; char_counter := char_counter w;
     keep_rt_commands := keep_rt_commands w |}.

Section Firmware2.
Context {E0 : Type} {PX : platform_x E0}.

Local Abbreviation M := (@M (xenv E0)).

(** Access to the two parts of the environment. *)
Definition gets_glob {A} (f : globals -> A) : M A := ask (fun e => f (glob e)).
Definition modify_glob (f : globals -> globals) : M unit :=
  drive (fun e => {| glob := f (glob e); plant := plant e |}).
Definition ask_plant {A} (f : E0 -> A) : M A := ask (fun e => f (plant e)).
Definition drive_plant (f : E0 -> E0) : M unit :=
  drive (fun e => {| glob := glob e; plant := f (plant e) |}).

(** *** [motion_control.c]: backlash tracker *)

(** The loop of [mc_backlash_init] from axis [n - 1] down to axis 0, on
    the pair of [backlash_enabled.mask] and [dir_negative.value]:
    [do { if(settings.backlash[--idx] > 0.0001f)
              backlash_enabled.mask |= bit(idx);
          dir_negative.value |= bit(idx); } while(idx);] *)
Fixpoint backlash_init_scan (n : nat) (a : Z * Z) : Z * Z :=
  match n with
  | O => a
  | S idx =>
      backlash_init_scan idx
        (if (vget (backlash settings) idx >? F32.tenthousandth)%f32
         then Z.lor (fst a) (bit idx) else fst a,
         Z.lor (snd a) (bit idx))
  end.

(** [mc_sync_backlash_position] *)
Definition mc_sync_backlash_position : M unit :=
  steps <- gets_glob (fun g => sys_position (g_probe g)) ;;
  modify (fun w => set_backlash
                     (vcopy (N_AXIS cfg) (system_convert_array_steps_to_mpos ext steps)
                            (target_prev w))
                     (dir_negative w) w).

(** [mc_backlash_init]; [N_AXIS] is at least 1. *)
Definition mc_backlash_init : M unit :=
  let a := backlash_init_scan (N_AXIS cfg) (0, 0) in
  modify (fun w => set_tracker (target_prev w)
                     (Z.lxor (snd a) (homing_dir_mask settings)) (fst a) w) ;;
  mc_sync_backlash_position.

(** *** [motion_control.c]: jogging *)

(** [mc_jog_execute]; [f], [n] and [xyz] are the values of the parsed
    block.  The result is the status and the final content of
    [*pl_data] and of [gc_block->values.xyz]. *)
Definition mc_jog_execute (fuel : nat) (pl : plan_line_data_t) (f : float) (n : Z)
    (xyz : vec) : M (status_code_t * plan_line_data_t * vec) :=
  let pl := set_line_number n
              (set_jog_motion true (set_no_feed_override true (set_feed_rate f pl))) in
  m <- gets mach ;;
  let limited := jog_soft_limited settings_x in
  let xyz' := if limited then system_apply_jog_limits ext xyz m else xyz in
  if negb limited && soft_enabled settings
     && negb (system_check_travel_limits ext xyz m)
  then ret (Status_TravelExceeded, pl, xyz)
  else
    mc_line fuel xyz' pl ;;
    st <- gets (fun w => sys_state (sys (mach w))) ;;
    blk <- ask (plan_get_current_block fw) ;;
    (when ((state_eqb st STATE_IDLE || state_eqb st STATE_TOOL_CHANGE) && blk) then
       (service_ (set_state ext STATE_JOG) ;;
        drive (st_prep_buffer fw) ;;
        emit EvStPrepBuffer ;;
        drive (st_wake_up fw) ;;
        emit EvStWakeUp)) ;;
    ret (Status_OK, pl, xyz').

(** *** [motion_control.c]: probing *)

(** [do { if(!protocol_execute_realtime()) return GCProbe_Abort; }
     while (sys.state != STATE_IDLE);]
    The result is [false] when the loop leaves [mc_probe_cycle]. *)
Fixpoint probe_wait (fuel : nat) : M bool :=
  match fuel with
  | O => hang
  | S fuel' =>
      ok <- protocol_execute_realtime ;;
      if ok then
        st <- gets (fun w => sys_state (sys (mach w))) ;;
        if negb (state_eqb st STATE_IDLE) then probe_wait fuel' else ret true
      else ret false
  end.

(** [mc_probe_cycle]; the two flags are [parser_flags.probe_is_away]
    and [parser_flags.probe_is_no_error]. *)
Definition mc_probe_cycle (fuel : nat) (target : vec) (pl : plan_line_data_t)
    (probe_is_away probe_is_no_error : bool) : M gc_probe_t :=
  st <- gets (fun w => sys_state (sys (mach w))) ;;
  if state_eqb st STATE_CHECK_MODE then ret GCProbe_CheckMode
  else
    protocol_buffer_synchronize fuel ;;
    abort <- gets (fun w => sys_abort (sys (mach w))) ;;
    if abort then ret GCProbe_Abort
    else
      modify_glob (fun g => set_probe (set_probe_succeeded false (g_probe g)) g) ;;
      drive_plant (hal_probe_configure_invert_mask ext probe_is_away) ;;
      triggered <- ask_plant (hal_probe_get_state ext) ;;
      if triggered then
        system_set_exec_alarm Alarm_ProbeFailInitial ;;
        protocol_execute_realtime ;;
        drive_plant (hal_probe_configure_invert_mask ext false) ;;
        ret GCProbe_FailInit
      else
        mc_line fuel target pl ;;
        modify_glob (fun g => set_probe (set_sys_probe_state Probe_Active (g_probe g)) g) ;;
        system_set_exec_state_flag EXEC_CYCLE_START ;;
        ok <- probe_wait fuel ;;
        if negb ok then ret GCProbe_Abort
        else
          p <- gets_glob g_probe ;;
          (match sys_probe_state p with
           | Probe_Active =>
               if probe_is_no_error
               then modify_glob (fun g => set_probe
                                   (set_sys_probe_position (sys_position (g_probe g))
                                                           (g_probe g)) g)
               else system_set_exec_alarm Alarm_ProbeFailContact
           | Probe_Off =>
               modify_glob (fun g => set_probe (set_probe_succeeded true (g_probe g)) g)
           end) ;;
          modify_glob (fun g => set_probe (set_sys_probe_state Probe_Off (g_probe g)) g) ;;
          drive_plant (hal_probe_configure_invert_mask ext false) ;;
          protocol_execute_realtime ;;
          drive_plant (st_reset ext) ;;
          drive_plant (plan_reset ext) ;;
          drive (plan_sync_position fw) ;;
          emit EvPlanSyncPosition ;;
          (when (probe_coordinates settings_x) then
             drive_plant (report_probe_parameters ext)) ;;
          succeeded <- gets_glob (fun g => sys_probe_succeeded (g_probe g)) ;;
          ret (if succeeded then GCProbe_Found else GCProbe_FailEnd).

(** *** [motion_control.c]: override control *)

(** [mc_override_ctrl_update] *)
Definition mc_override_ctrl_update (fuel : nat) (override_state : Z) : M unit :=
  protocol_buffer_synchronize fuel ;;
  abort <- gets (fun w => sys_abort (sys (mach w))) ;;
  when (negb abort) then modify_glob (set_override_control override_state).

(** *** [protocol.c]: commands from outside the input stream *)

(** ["$J="] *)
Definition jog_prefix : list Z := [36; 74; 61].

(** [strncmp(gcode, "$J=", 3)] is zero. *)
Definition is_jog_command (gcode : list Z) : bool :=
  match firstn 3 gcode with
  | [a; b; c] => (a =? 36) && (b =? 74) && (c =? 61)
  | _ => false
  end.

(** [protocol_enqueue_gcode]; [gcode] is the string up to its
    terminating zero, shorter than [LINE_BUFFER_SIZE]. *)
Definition protocol_enqueue_gcode (gcode : list Z) : M bool :=
  x <- gets_glob g_xcommand ;;
  st <- gets (fun w => sys_state (sys (mach w))) ;;
  pending <- gets (fun w => sys_rt_exec_state (mach w)) ;;
  let ok := match x with [] => true | _ => false end
            && (state_eqb st STATE_IDLE
                || negb (Z.land (state_code st)
                                (Z.lor (state_code STATE_JOG) (state_code STATE_TOOL_CHANGE))
                         =? 0))
            && bit_isfalse pending EXEC_MOTION_CANCEL in
  gc <- gets_glob g_gc_state ;;
  let ok := if ok && gc_file_run gc
            then match gc_program_flow gc with
                 | ProgramFlow_Running => false
                 | _ => true
                 end || negb (is_jog_command gcode)
            else ok in
  (when ok then modify_glob (set_xcommand gcode)) ;;
  ret ok.

(** *** [motion_control.c]: canned drilling cycles *)

(** What [mc_canned_drill] reads and writes through its pointer
    arguments: [position], [*pl_data], [target] and [*canned]. *)
Record drill_state := {
  dr_position : vec;
  dr_pl : plan_line_data_t;
  dr_target : vec;
  dr_canned : gc_canned_t
}.

Definition dr_set (axis : nat) (x : float) (s : drill_state) : drill_state :=
  {| dr_position := vset axis x (dr_position s); dr_pl := dr_pl s;
     dr_target := dr_target s; dr_canned := dr_canned s |}.

Definition dr_rapid (b : bool) (s : drill_state) : drill_state :=
  {| dr_position := dr_position s; dr_pl := set_rapid_motion b (dr_pl s);
     dr_target := dr_target s; dr_canned := dr_canned s |}.

(** [if(!mc_line(position, pl_data)) return;]: the flag is [false] when
    the step leaves [mc_canned_drill]. *)
Definition dr_line (fuel : nat) (s : drill_state) : M (bool * drill_state) :=
  ok <- mc_line fuel (dr_position s) (dr_pl s) ;;
  ret (ok, s).

Definition dr_skip (s : drill_state) : M (bool * drill_state) := ret (true, s).

(** Sequencing of steps that may leave [mc_canned_drill]. *)
Definition dr_then (c : M (bool * drill_state))
    (k : drill_state -> M (bool * drill_state)) : M (bool * drill_state) :=
  r <- c ;;
  if fst r then k (snd r) else ret r.

(** [while(current_z > canned->xyz[plane.axis_linear]) { ... }], with
    [n] bounding the number of pecks. *)
Fixpoint drill_pecks (fuel n : nat) (motion : motion_mode_t) (plane : plane_t)
    (current_z : float) (s : drill_state) : M (bool * drill_state) :=
  match n with
  | O => hang
  | S n' =>
      let canned := dr_canned s in
      let lin := axis_linear plane in
      let bottom := vget (cn_xyz canned) lin in
      if (current_z >? bottom)%f32 then
        let current_z := (current_z - cn_delta canned)%f32 in
        let current_z := if (current_z <? bottom)%f32 then bottom else current_z in
        dr_then (dr_line fuel (dr_set lin current_z (dr_rapid false s)))
          (fun s =>
             (when (cn_dwell canned >? F32.zero)%f32 then mc_dwell fuel (cn_dwell canned)) ;;
             (when (cn_spindle_off canned) then
                (drive (hal_spindle_set_state hal spindle_off F32.zero) ;;
                 emit (EvSpindleSetState spindle_off F32.zero))) ;;
             let z :=
               if is_chip_break motion then
                 if (vget (dr_position s) lin =? bottom)%f32
                 then cn_retract_position canned
                 else (vget (dr_position s) lin + g73_retract settings_x)%f32
               else cn_retract_position canned in
             dr_then (dr_line fuel (dr_rapid (cn_rapid_retract canned) (dr_set lin z s)))
               (fun s =>
                  (when (cn_spindle_off canned) then
                     (sp <- gets_glob (fun g => gc_modal_spindle (g_gc_state g)) ;;
                      service_ (spindle_sync ext sp (spindle_rpm (dr_pl s))))) ;;
                  drill_pecks fuel n' motion plane current_z s))
      else dr_skip s
  end.

(** [while(repeats--) { ... }]; [r] below is the value of [repeats]
    after the decrement. *)
Fixpoint drill_repeats (fuel : nat) (motion : motion_mode_t) (plane : plane_t)
    (repeats : nat) (s : drill_state) : M (bool * drill_state) :=
  match repeats with
  | O => dr_skip s
  | S r =>
      dr_then (drill_pecks fuel fuel motion plane (cn_retract_position (dr_canned s)) s)
        (fun s =>
           incremental <- gets_glob (fun g => gc_distance_incremental (g_gc_state g)) ;;
           dr_then
             (if negb (r =? 0)%nat && incremental then
                let canned := dr_canned s in
                let s := dr_set (axis_0 plane)
                           (vget (dr_position s) (axis_0 plane)
                            + vget (cn_xyz canned) (axis_0 plane))%f32 s in
                let s := dr_set (axis_1 plane)
                           (vget (dr_position s) (axis_1 plane)
                            + vget (cn_xyz canned) (axis_1 plane))%f32 s in
                dr_line fuel (dr_set (axis_linear plane) (cn_prev_position canned) s)
              else dr_skip s)
             (drill_repeats fuel motion plane r))
  end.

(** [mc_canned_drill].  [target] and [position] are distinct arrays;
    the result is the final content of what the pointer arguments
    point to. *)
Definition mc_canned_drill (fuel : nat) (motion : motion_mode_t) (target : vec)
    (pl : plan_line_data_t) (position : vec) (plane : plane_t) (repeats : nat)
    (canned : gc_canned_t) : M drill_state :=
  let lin := axis_linear plane in
  let retract := cn_retract_position canned in
  let s := {| dr_position := position; dr_pl := set_rapid_motion true pl;
              dr_target := target; dr_canned := canned |} in
  r <- dr_then
         (if (vget position lin <? retract)%f32
          then dr_line fuel (dr_set lin retract s) else dr_skip s)
         (fun s =>
            let s := {| dr_position := vcopy (N_AXIS cfg) target (dr_position s);
                        dr_pl := dr_pl s; dr_target := dr_target s;
                        dr_canned := dr_canned s |} in
            dr_then
              (dr_line fuel
                 (dr_set lin (if (cn_prev_position canned >? retract)%f32
                              then cn_prev_position canned else retract) s))
              (fun s =>
                 dr_then
                   (if (vget (dr_position s) lin >? retract)%f32
                    then dr_line fuel (dr_set lin retract s) else dr_skip s)
                   (fun s =>
                      let s :=
                        match cn_retract_mode canned with
                        | CCRetractMode_RPos =>
                            {| dr_position := dr_position s; dr_pl := dr_pl s;
                               dr_target := dr_target s;
                               dr_canned := set_prev_position retract (dr_canned s) |}
                        | CCRetractMode_Previous => s
                        end in
                      dr_then (drill_repeats fuel motion plane repeats s)
                        (fun s =>
                           let target := vcopy (N_AXIS cfg) (dr_position s) (dr_target s) in
                           let s := {| dr_position := dr_position s; dr_pl := dr_pl s;
                                       dr_target := target; dr_canned := dr_canned s |} in
                           match cn_retract_mode canned with
                           | CCRetractMode_Previous =>
                               if negb (is_chip_break motion)
                                  && (vget target lin <? cn_prev_position (dr_canned s))%f32
                               then
                                 let pl := set_rapid_motion true (dr_pl s) in
                                 let target := vset lin (cn_prev_position (dr_canned s))
                                                    target in
                                 ok <- mc_line fuel target pl ;;
                                 ret (ok, {| dr_position := dr_position s; dr_pl := pl;
                                             dr_target := target;
                                             dr_canned := dr_canned s |})
                               else dr_skip s
                           | CCRetractMode_RPos => dr_skip s
                           end)))) ;;
  ret (snd r).

End Firmware2.

(** *** [protocol.c]: suspend *)

Module Protocol.
Section Suspend.
Context {E0 : Type} {PX : platform_x E0}.

(** [protocol_exec_rt_suspend], the routine that the parameter of the
    realtime checkpoint stands for:
    [while (sys.suspend) { if (sys.abort) return; ... }] *)
Fixpoint protocol_exec_rt_suspend (fuel : nat) : @M (xenv E0) unit :=
  match fuel with
  | O => hang
  | S fuel' =>
      s <- gets (fun w => sys (mach w)) ;;
      if sys_suspend s then
        if sys_abort s then ret tt
        else
          service_ (state_suspend_manager ext) ;;
          st <- gets (fun w => sys_state (sys (mach w))) ;;
          ajar <- ask_plant (hal_safety_door_ajar ext) ;;
          (when (state_eqb st STATE_SAFETY_DOOR && negb ajar) then
             system_set_exec_state_flag EXEC_CYCLE_START) ;;
          (when (sleep_enable settings_x) then service_ (sleep_check ext)) ;;
          service (protocol_exec_rt_system fw) ;;
          protocol_exec_rt_suspend fuel'
      else ret tt
  end.

End Suspend.
End Protocol.

(** The first, third, fifth ... element of a list. *)
Fixpoint evens {A} (l : list A) : list A :=
  match l with
  | [] => []
  | a :: l' => a :: match l' with
                    | [] => []
                    | _ :: r => evens r
                    end
  end.

(** ** A reference platform for the rest of the code

    The reference platform of [Bench], with the parser and probing
    globals beside its plant. *)

Module BenchX.

Definition env0 : Type := xenv Bench.plant.

Definition on_plant (f : Bench.plant -> Bench.plant) (e : env0) : env0 :=
  {| glob := glob e; plant := f (plant e) |}.

(** The probe input is bit 3 of the input pins.  Bit 4 stands for the
    workpiece: when it is set, the tool meets the workpiece during the
    next cycle. *)
Definition probe_pin (e : Bench.plant) : bool := Z.testbit (Bench.limit_pins e) 3.
Definition contact_ahead (e : Bench.plant) : bool := Z.testbit (Bench.limit_pins e) 4.

(** The probe monitor of the stepper interrupt: on contact the position
    is latched and the probe is switched off. *)
Definition probe_monitor (g : globals) : globals :=
  match sys_probe_state (g_probe g) with
  | Probe_Active =>
      set_probe (set_sys_probe_state Probe_Off
                   (set_sys_probe_position (sys_position (g_probe g)) (g_probe g))) g
  | Probe_Off => g
  end.

(** The realtime service: a pending cycle start runs the queue. *)
Definition rt_system (m : machine env0) : option (bool * machine env0) :=
  if bit_istrue (sys_rt_exec_state m) EXEC_CYCLE_START
  then
    let e := env m in
    Some (true,
          set_env {| glob := if contact_ahead (plant e) then probe_monitor (glob e)
                             else glob e;
                     plant := Bench.run_queue (plant e) |}
                  (set_exec_state 0 m))
  else Some (true, m).

Definition hal0 : hal_t env0 :=
  {| hal_spindle_set_state := fun _ _ e => e;
     hal_coolant_set_state := fun e => e;
     hal_driver_reset := None;
     hal_stream_suspend_read := None;
     hal_stream_cancel_read_buffer := fun e => e;
     hal_limits_get_state := fun e => Z.land (Bench.limit_pins (plant e)) 7;
     hal_limits_enable := fun _ _ e => e;
     hal_e_stop := fun e => Bench.e_stop_pin (plant e);
     hal_execute_realtime := None;
     hal_cap_safety_door := false;
     hal_cap_program_stop := false |}.

Definition firmware0 : firmware env0 :=
  {| ABORTED := fun s => sys_abort s || sys_cancel s;
     plan_check_full_buffer :=
       fun e => (Bench.capacity (plant e) <=? length (Bench.queue (plant e)))%nat;
     plan_buffer_line :=
       fun target pl e =>
         let r := Bench.enqueue target pl (plant e) in
         (fst r, {| glob := glob e; plant := snd r |});
     plan_get_current_block := fun e => negb (length (Bench.queue (plant e)) =? 0)%nat;
     plan_sync_position := fun e => e;
     st_go_idle := fun e => e;
     st_parking_setup_buffer := fun e => e;
     st_prep_buffer := fun e => e;
     st_wake_up := fun e => e;
     enqueue_feed_override := fun _ e => e;
     enqueue_accessory_override := fun _ e => e;
     protocol_exec_rt_system := rt_system;
     protocol_exec_rt_suspend := fun m => Some m;
     limits_soft_check := fun _ m => Some m;
     limits_go_home := fun _ m => Some (true, m);
     gc_sync_position := fun m => m;
     delay_sec := fun _ m => Some m |}.

(** The settings of [Bench], and the same with soft limits enabled. *)
Definition settings_soft : settings_t :=
  {| backlash := backlash Bench.settings0;
     homing_dir_mask := homing_dir_mask Bench.settings0;
     homing_cycle := homing_cycle Bench.settings0;
     soft_enabled := true;
     hard_enabled := hard_enabled Bench.settings0;
     check_at_init := check_at_init Bench.settings0;
     two_switches := two_switches Bench.settings0;
     laser_mode := laser_mode Bench.settings0;
     legacy_rt_commands := legacy_rt_commands Bench.settings0;
     arc_tolerance := arc_tolerance Bench.settings0 |}.

(** G73 retract 0.1 mm. *)
Definition settings_x0 : settings_x_t :=
  {| jog_soft_limited := false;
     g73_retract := F32.lit 13421773 (-27);
     probe_coordinates := false;
     sleep_enable := false |}.

(** The travel: from -200 to 200 on every axis. *)
Definition in_travel (x : float) : bool :=
  negb (x <? F32.of_Z (-200))%f32 && negb (x >? F32.of_Z 200)%f32.

Definition to_travel (x : float) : float :=
  if (x <? F32.of_Z (-200))%f32 then F32.of_Z (-200)
  else if (x >? F32.of_Z 200)%f32 then F32.of_Z 200 else x.

Definition with_state (st : state_t) (s : sys_t) : sys_t :=
  {| sys_state := st; sys_abort := sys_abort s; sys_cancel := sys_cancel s;
     sys_suspend := sys_suspend s; sys_exit := sys_exit s;
     sys_optional_stop_disable := sys_optional_stop_disable s;
     sys_execute_hold := sys_execute_hold s;
     sys_execute_sys_motion := sys_execute_sys_motion s;
     sys_end_motion := sys_end_motion s; sys_homed_mask := sys_homed_mask s;
     sys_report_homed := sys_report_homed s; sys_report_all := sys_report_all s |}.

(** 100 steps per mm on every axis; the planner reset empties the
    queue. *)
Definition externals0 : externals Bench.plant :=
  {| system_convert_array_steps_to_mpos :=
       map (fun s => F32.div (F32.of_Z s) (F32.of_Z 100));
     system_apply_jog_limits := fun xyz _ => map to_travel xyz;
     system_check_travel_limits := fun xyz _ => forallb in_travel xyz;
     set_state := fun st m => Some (set_sys (with_state st (sys m)) m);
     st_reset := fun e => e;
     plan_reset :=
       fun e => {| Bench.queue := []; Bench.executed := Bench.executed e;
                   Bench.capacity := Bench.capacity e;
                   Bench.limit_pins := Bench.limit_pins e;
                   Bench.e_stop_pin := Bench.e_stop_pin e |};
     report_probe_parameters := fun e => e;
     hal_probe_configure_invert_mask := fun _ e => e;
     hal_probe_get_state := probe_pin;
     hal_safety_door_ajar := fun _ => false;
     spindle_sync := fun _ _ m => Some m;
     state_suspend_manager := fun m => Some m;
     sleep_check := fun m => Some m |}.

Definition platform0 : platform env0 :=
  {| cfg := Bench.config0; settings := Bench.settings0; lm := Bench.libm0;
     hal := hal0; fw := firmware0 |}.

Definition platform_soft : platform env0 :=
  {| cfg := Bench.config0; settings := settings_soft; lm := Bench.libm0;
     hal := hal0; fw := firmware0 |}.

Definition platformx0 : platform_x Bench.plant :=
  {| base := platform0; settings_x := settings_x0; ext := externals0 |}.

Definition platformx_soft : platform_x Bench.plant :=
  {| base := platform_soft; settings_x := settings_x0; ext := externals0 |}.

(** The machine position is (1, 2, -3) mm; no command is waiting. *)
Definition glob0 : globals :=
  {| g_probe := {| sys_probe_state := Probe_Off; sys_probe_succeeded := false;
                   sys_position := [100; 200; -300];
                   sys_probe_position := [0; 0; 0] |};
     g_gc_state := {| gc_distance_incremental := false; gc_modal_spindle := spindle_off;
                      gc_file_run := false; gc_program_flow := ProgramFlow_Running |};
     g_override_control := 0;
     g_xcommand := [] |}.

(** A world at rest: empty planner queue with room for 200 blocks, the
    backlash tracker at the origin. *)
Definition world0 (st : state_t) (pins : Z) : world env0 :=
  {| mach := {| sys := Bench.sys0 st false; sys_rt_exec_state := 0;
                sys_rt_exec_alarm := Alarm_None; gc_tool_change := false;
                env := {| glob := glob0;
                          plant := {| Bench.queue := []; Bench.executed := [];
                                      Bench.capacity := 200; Bench.limit_pins := pins;
                                      Bench.e_stop_pin := false |} |} |};
     target_prev := [F32.zero; F32.zero; F32.zero];
     dir_negative := 1;
     backlash_enabled := 1;
     char_counter := 0;
     keep_rt_commands := false |}.

Definition idle : world env0 := world0 STATE_IDLE 0.


(** A peck drilling cycle along Z: from the retract plane Z = 0 down to
    Z = -3 in pecks of 1. *)
Definition pecks3 : gc_canned_t :=
  {| cn_xyz := Bench.v3 0 0 (-3);
     cn_delta := F32.one;
     cn_dwell := F32.zero;
     cn_prev_position := F32.zero;
     cn_retract_position := F32.zero;
     cn_rapid_retract := true;
     cn_spindle_off := false;
     cn_retract_mode := CCRetractMode_RPos |}.

Definition drill0 : drill_state :=
  {| dr_position := Bench.v3 0 0 0; dr_pl := Bench.feed600;
     dr_target := Bench.v3 0 0 0; dr_canned := pecks3 |}.

End BenchX.

(** * Properties *)

Section Properties.
Context {E : Type} {P : platform E}.

(** ** Events of sequenced computations *)

Lemma pushes_app a b : pushes (a ++ b) = pushes a ++ pushes b.
Proof.
  induction a as [|ev a IH]; simpl; [reflexivity|].
  destruct ev; simpl; rewrite ?IH; reflexivity.
Qed.

Lemma mc_line_calls_app a b : mc_line_calls (a ++ b) = mc_line_calls a ++ mc_line_calls b.
Proof.
  induction a as [|ev a IH]; simpl; [reflexivity|].
  destruct ev; simpl; rewrite ?IH; reflexivity.
Qed.

Lemma bind_done {A B} (c : @M E A) (k : A -> @M E B) w evs a w' :
  c w = (evs, Done a w') ->
  bind c k w = (evs ++ events (k a w'), result (k a w')).
Proof.
  intros H. unfold bind. rewrite H. destruct (k a w'); reflexivity.
Qed.

Lemma bind_hang {A B} (c : @M E A) (k : A -> @M E B) w evs w' :
  c w = (evs, Hang w') -> bind c k w = (evs, Hang w').
Proof. intros H. unfold bind. rewrite H. reflexivity. Qed.

(** ** Quiet computations *)

Lemma quiet_bind {A B} (c : @M E A) (k : A -> @M E B) :
  quiet c -> (forall a, quiet (k a)) -> quiet (bind c k).
Proof.
  intros Hc Hk w. specialize (Hc w). unfold bind.
  destruct (c w) as [evs [a w'|w']]; simpl in *.
  - specialize (Hk a w'). destruct (k a w') as [evs' o]; simpl in *.
    destruct Hc as (H1 & H2 & H3), Hk as (K1 & K2 & K3).
    rewrite pushes_app, mc_line_calls_app, H1, H2, K1, K2, K3, H3. auto.
  - exact Hc.
Qed.

Lemma quiet_ret {A} (a : A) : quiet (@ret E A a).
Proof. intros w. simpl. auto. Qed.

Lemma quiet_hang {A} : quiet (@hang E A).
Proof. intros w. simpl. auto. Qed.

Lemma quiet_gets {A} (f : world E -> A) : quiet (gets f).
Proof. intros w. simpl. auto. Qed.

Lemma quiet_modify_mach (f : machine E -> machine E) : quiet (modify_mach f).
Proof. intros w. simpl. auto. Qed.

Lemma quiet_ask {A} (f : E -> A) : quiet (ask f).
Proof. intros w. simpl. auto. Qed.

Lemma quiet_drive (f : E -> E) : quiet (drive f).
Proof. intros w. simpl. auto. Qed.

Lemma quiet_service {A} (f : machine E -> option (A * machine E)) : quiet (service f).
Proof.
  intros w. unfold service. destruct (f (mach w)) as [[a m]|]; simpl; auto.
Qed.

Lemma quiet_service_ (f : machine E -> option (machine E)) : quiet (service_ f).
Proof.
  intros w. unfold service_. destruct (f (mach w)) as [m|]; simpl; auto.
Qed.

Lemma quiet_if {A} (b : bool) (c d : @M E A) :
  quiet c -> quiet d -> quiet (if b then c else d).
Proof. destruct b; auto. Qed.

Create HintDb quiet.

#[local] Hint Resolve quiet_ret quiet_hang quiet_gets quiet_modify_mach quiet_ask
  quiet_drive quiet_service quiet_service_ : quiet.

Ltac quiet_steps :=
  repeat first
    [ apply quiet_bind; [|intros ?]
    | apply quiet_if
    | solve [auto with quiet]
    | match goal with |- quiet (match ?x with _ => _ end) => destruct x end ].

Lemma quiet_system_set_exec_state_flag mask :
  quiet (E:=E) (system_set_exec_state_flag mask).
Proof. apply quiet_modify_mach. Qed.

Lemma quiet_not_aborted : quiet not_aborted.
Proof. apply quiet_gets. Qed.

Lemma quiet_protocol_auto_cycle_start : quiet protocol_auto_cycle_start.
Proof.
  unfold protocol_auto_cycle_start. quiet_steps.
  apply quiet_system_set_exec_state_flag.
Qed.

Lemma quiet_protocol_execute_realtime : quiet protocol_execute_realtime.
Proof.
  unfold protocol_execute_realtime. quiet_steps.
  - intros w; simpl; auto.
  - apply quiet_not_aborted.
Qed.

#[local] Hint Resolve quiet_system_set_exec_state_flag quiet_not_aborted
  quiet_protocol_auto_cycle_start quiet_protocol_execute_realtime : quiet.

Lemma quiet_wait_for_buffer fuel : quiet (wait_for_buffer fuel).
Proof.
  induction fuel as [|fuel IH]; simpl; quiet_steps.
Qed.

#[local] Hint Resolve quiet_wait_for_buffer : quiet.

(** ** Float comparisons *)

Lemma SFcompare_swap (a b : float) :
  SFcompare b a = option_map CompOpp (SFcompare a b).
Proof.
  destruct a as [sa|sa| |sa ma ea], b as [sb|sb| |sb mb eb]; simpl;
    try reflexivity;
    try (destruct sa; reflexivity); try (destruct sb; reflexivity);
    try (destruct sa, sb; reflexivity).
  destruct sa, sb; simpl; try reflexivity;
    rewrite (Z.compare_antisym ea eb);
    destruct (ea ?= eb)%Z eqn:He; simpl; try reflexivity;
    rewrite (Pos.compare_cont_antisym ma mb Eq); simpl;
    destruct (Pos.compare_cont Eq ma mb); reflexivity.
Qed.

Lemma f32_eq_not_gt a b : (a =? b)%f32 = true -> (a >? b)%f32 = false.
Proof.
  unfold F32.eq, F32.gt, SFeqb, SFltb. rewrite (SFcompare_swap a b).
  destruct (SFcompare a b) as [[]|]; simpl; congruence.
Qed.

Lemma f32_eq_not_lt a b : (a =? b)%f32 = true -> (a <? b)%f32 = false.
Proof.
  unfold F32.eq, F32.lt, SFeqb, SFltb.
  destruct (SFcompare a b) as [[]|]; simpl; congruence.
Qed.

(** ** The backlash block *)

Lemma bind_events {A B} (c : @M E A) (k : A -> @M E B) w :
  events (bind c k w) =
  events (c w) ++ match result (c w) with
                  | Done a w' => events (k a w')
                  | Hang _ => []
                  end.
Proof.
  unfold bind. destruct (c w) as [evs [a w'|w']]; simpl.
  - destruct (k a w'); reflexivity.
  - rewrite app_nil_r. reflexivity.
Qed.

Lemma bind_result {A B} (c : @M E A) (k : A -> @M E B) w :
  result (bind c k w) =
  match result (c w) with
  | Done a w' => result (k a w')
  | Hang w' => Hang w'
  end.
Proof.
  unfold bind. destruct (c w) as [evs [a w'|w']]; simpl; [|reflexivity].
  destruct (k a w'); reflexivity.
Qed.

Lemma backlash_axis_same enabled target idx axismask a :
  (vget target idx =? vget (bs_target_prev a) idx)%f32 = true ->
  backlash_axis enabled target idx axismask a = a.
Proof.
  intros H. unfold backlash_axis.
  rewrite (f32_eq_not_gt _ _ H), (f32_eq_not_lt _ _ H). simpl.
  destruct (bit_istrue enabled axismask); reflexivity.
Qed.

Lemma backlash_scan_same enabled target n axismask a :
  same_target n target (bs_target_prev a) ->
  backlash_scan enabled target n axismask a = a.
Proof.
  revert axismask. induction n as [|n IH]; intros axismask H; simpl; [reflexivity|].
  rewrite backlash_axis_same by (apply H; lia).
  apply IH. intros idx Hidx. apply H. lia.
Qed.

(** ** Weakest preconditions *)

Lemma wp_bind {A B} (c : @M E A) (k : A -> @M E B) Q w :
  wp c (fun evs o =>
          match o with
          | Done a w' => wp (k a) (fun evs' o' => Q (evs ++ evs') o') w'
          | Hang w' => Q evs (Hang w')
          end) w ->
  wp (bind c k) Q w.
Proof.
  unfold wp, bind. destruct (c w) as [evs [a w'|w']]; simpl; [|auto].
  destruct (k a w'); auto.
Qed.

Lemma wp_conseq {A} (c : @M E A) (Q Q' : list event -> outcome A -> Prop) w :
  wp c Q w -> (forall evs o, Q evs o -> Q' evs o) -> wp c Q' w.
Proof. unfold wp. auto. Qed.

Lemma wp_ret {A} (a : A) Q (w : world E) : Q [] (Done a w) -> wp (ret a) Q w.
Proof. exact (fun H => H). Qed.

Lemma wp_hang {A} (Q : list event -> outcome A -> Prop) (w : world E) :
  Q [] (Hang w) -> wp hang Q w.
Proof. exact (fun H => H). Qed.

Lemma wp_get Q (w : world E) : Q [] (Done w w) -> wp get Q w.
Proof. exact (fun H => H). Qed.

Lemma wp_gets {A} (f : world E -> A) Q w : Q [] (Done (f w) w) -> wp (gets f) Q w.
Proof. exact (fun H => H). Qed.

Lemma wp_modify (f : world E -> world E) Q w : Q [] (Done tt (f w)) -> wp (modify f) Q w.
Proof. exact (fun H => H). Qed.

Lemma wp_modify_mach (f : machine E -> machine E) Q w :
  Q [] (Done tt (set_mach (f (mach w)) w)) -> wp (modify_mach f) Q w.
Proof. exact (fun H => H). Qed.

Lemma wp_modify_sys (f : sys_t -> sys_t) Q (w : world E) :
  Q [] (Done tt (set_mach (set_sys (f (sys (mach w))) (mach w)) w)) ->
  wp (modify_sys f) Q w.
Proof. exact (fun H => H). Qed.

Lemma wp_emit ev Q (w : world E) : Q [ev] (Done tt w) -> wp (emit ev) Q w.
Proof. exact (fun H => H). Qed.

Lemma wp_ask {A} (f : E -> A) Q w : Q [] (Done (f (env (mach w))) w) -> wp (ask f) Q w.
Proof. exact (fun H => H). Qed.

Lemma wp_drive (f : E -> E) Q w :
  Q [] (Done tt (set_mach (set_env (f (env (mach w))) (mach w)) w)) -> wp (drive f) Q w.
Proof. exact (fun H => H). Qed.

Lemma wp_drive_ret {A} (f : E -> A * E) Q w :
  Q [] (Done (fst (f (env (mach w))))
             (set_mach (set_env (snd (f (env (mach w)))) (mach w)) w)) ->
  wp (drive_ret f) Q w.
Proof.
  unfold wp, drive_ret. destruct (f (env (mach w))); exact (fun H => H).
Qed.

Lemma wp_service {A} (f : machine E -> option (A * machine E)) Q w :
  match f (mach w) with
  | Some (a, m) => Q [] (Done a (set_mach m w))
  | None => Q [] (Hang w)
  end -> wp (service f) Q w.
Proof.
  unfold wp, service. destruct (f (mach w)) as [[a m]|]; exact (fun H => H).
Qed.

Lemma wp_service_ (f : machine E -> option (machine E)) Q w :
  match f (mach w) with
  | Some m => Q [] (Done tt (set_mach m w))
  | None => Q [] (Hang w)
  end -> wp (service_ f) Q w.
Proof.
  unfold wp, service_. destruct (f (mach w)) as [m|]; exact (fun H => H).
Qed.

Lemma wp_quiet {A} (c : @M E A) (Q : list event -> outcome A -> Prop) w :
  quiet c ->
  (forall evs o, pushes evs = [] -> mc_line_calls evs = [] ->
                 tracker (final o) = tracker w -> Q evs o) ->
  wp c Q w.
Proof.
  intros Hq H. destruct (Hq w) as (H1 & H2 & H3). apply H; assumption.
Qed.

(** One step of symbolic execution. *)
Ltac wp_step :=
  lazymatch goal with
  | |- wp (bind _ _) _ _ => apply wp_bind
  | |- wp (ret _) _ _ => apply wp_ret
  | |- wp hang _ _ => apply wp_hang
  | |- wp get _ _ => apply wp_get
  | |- wp (gets _) _ _ => apply wp_gets
  | |- wp (modify_sys _) _ _ => apply wp_modify_sys
  | |- wp (modify_mach _) _ _ => apply wp_modify_mach
  | |- wp (modify _) _ _ => apply wp_modify
  | |- wp (emit _) _ _ => apply wp_emit
  | |- wp (ask _) _ _ => apply wp_ask
  | |- wp (drive _) _ _ => apply wp_drive
  | |- wp (drive_ret _) _ _ => apply wp_drive_ret
  end;
  cbn beta iota.

Ltac wp_run := repeat wp_step.

Lemma push_line_wp target pl Q (w : world E) :
  (forall accepted w', tracker w' = tracker w ->
      Q [EvPlanBufferLine target pl accepted] (Done accepted w')) ->
  wp (push_line target pl) Q w.
Proof.
  intros H. unfold push_line. wp_run. simpl. apply H. reflexivity.
Qed.

Ltac tracker_eqs :=
  unfold tracker in *; simpl in *;
  repeat match goal with
         | H : (_, _, _) = (_, _, _) |- _ => injection H as ? ? ?
         end.

(** The backlash block pushes at most one move, and none when the
    target did not change. *)
Lemma mc_line_backlash_pushes fuel target pl (w : world E) :
  wp (mc_line_backlash fuel target pl)
     (fun evs o =>
        mc_line_calls evs = [] /\
        (pushes evs = [] \/ exists tp, pushes evs = [(tp, backlash_request pl)]) /\
        (same_target (N_AXIS cfg) target (target_prev w) -> pushes evs = []) /\
        (forall b w', o = Done b w' -> b = false -> pushes evs = [])) w.
Proof.
  unfold mc_line_backlash. wp_run.
  destruct (negb (backlash_enabled w =? 0)); [|wp_run; simpl; auto].
  wp_run.
  set (a := backlash_scan _ _ _ _ _).
  assert (Hsame : same_target (N_AXIS cfg) target (target_prev w) -> bs_backlash_comp a = false).
  { intros Hs. unfold a. rewrite backlash_scan_same by exact Hs. reflexivity. }
  destruct (bs_backlash_comp a).
  - wp_step. apply wp_quiet; [auto with quiet|].
    intros evs [[|] w1|w1] Hp Hc Ht; cbn beta iota.
    + wp_run. apply push_line_wp. intros acc w2 Ht2. wp_run.
      simpl. rewrite ?app_nil_r, ?pushes_app, ?mc_line_calls_app, Hp, Hc. simpl.
      repeat split; eauto.
      * intros Hs. specialize (Hsame Hs). discriminate.
      * intros b w' Hd Hb. congruence.
    + wp_run. simpl. rewrite ?app_nil_r, Hp, Hc. auto.
    + simpl. rewrite ?app_nil_r, Hp, Hc. repeat split; auto.
  - wp_run. simpl. auto.
Qed.

(** ** The motion gateway *)

Lemma quiet_emit_soft_check target : quiet (E:=E) (emit (EvLimitsSoftCheck target)).
Proof. intros w. simpl. auto. Qed.


Lemma quiet_spindle_update (s : spindle_state_t) (rpm : float) :
  quiet (E:=E) (drive (hal_spindle_set_state hal s rpm) ;; emit (EvSpindleSetState s rpm)).
Proof. intros w. simpl. auto. Qed.

Ltac push_norm :=
  repeat first
    [ rewrite pushes_app
    | progress simpl
    | match goal with H : pushes _ = [] |- _ => rewrite H end
    | rewrite app_nil_r ].

(** The pushes of one [mc_line]: an optional backlash move, then an
    optional user move. *)
Lemma mc_line_pushes fuel target pl (w : world E) :
  wp (mc_line fuel target pl)
     (fun evs _ =>
        exists bl us,
          pushes evs = bl ++ us /\
          (bl = [] \/ exists tp, bl = [(tp, backlash_request pl)]) /\
          (us = [] \/ us = [(target, pl)]) /\
          (same_target (N_AXIS cfg) target (target_prev w) -> bl = [])) w.
Proof.
  assert (Hnone : forall evs, pushes evs = [] ->
            exists bl us : list (vec * plan_line_data_t),
              pushes evs = bl ++ us /\
              (bl = [] \/ exists tp, bl = [(tp, backlash_request pl)]) /\
              (us = [] \/ us = [(target, pl)]) /\
              (same_target (N_AXIS cfg) target (target_prev w) -> bl = [])).
  { intros evs Hp. exists [], []. rewrite Hp. auto. }
  unfold mc_line, mc_line_body. wp_run.
  apply wp_quiet.
  { apply quiet_if; [|auto with quiet].
    apply quiet_bind; [apply quiet_emit_soft_check|intros _; auto with quiet]. }
  intros evs0 [[] w0|w0] Hp0 Hc0 Ht0; cbn beta iota;
    [|apply Hnone; simpl; exact Hp0].
  wp_run.
  destruct (negb (state_eqb (sys_state (sys (mach w0))) STATE_CHECK_MODE)).
  2:{ wp_run. unfold not_aborted. wp_run. apply Hnone.
      simpl. rewrite ?pushes_app, Hp0. reflexivity. }
  apply wp_quiet; [auto with quiet|].
  intros evs1 [[|] w1|w1] Hp1 Hc1 Ht1; cbn beta iota.
  - (* the checkpoint passed *)
    wp_step. eapply wp_conseq; [apply mc_line_backlash_pushes|].
    intros evs2 o2 (Hc2 & Hbl & Hsame & Hbail).
    assert (Hsame' : same_target (N_AXIS cfg) target (target_prev w) -> pushes evs2 = []).
    { intros Hs. apply Hsame. tracker_eqs.
      replace (target_prev w1) with (target_prev w) by congruence. exact Hs. }
    clear Hsame Hbail.
    destruct o2 as [[|] w2|w2].
    + wp_step. apply wp_quiet; [auto with quiet|].
      intros evs3 [[|] w3|w3] Hp3 Hc3 Ht3; cbn beta iota.
      * wp_step. apply push_line_wp. intros acc w4 Ht4. wp_step.
        apply wp_quiet.
        { apply quiet_if; [apply quiet_spindle_update|auto with quiet]. }
        intros evs5 [[] w5|w5] Hp5 Hc5 Ht5; cbn beta iota.
        -- unfold not_aborted. wp_run.
           exists (pushes evs2), [(target, pl)]. push_norm. auto.
        -- exists (pushes evs2), [(target, pl)]. push_norm. auto.
      * wp_run. exists (pushes evs2), []. push_norm. auto.
      * exists (pushes evs2), []. push_norm. auto.
    + wp_run. exists (pushes evs2), []. push_norm. auto.
    + exists (pushes evs2), []. push_norm. auto.
  - wp_run. unfold not_aborted. wp_run. apply Hnone. push_norm. reflexivity.
  - apply Hnone. push_norm. reflexivity.
Qed.

(** ** Reset, homing and parking *)

Lemma homing_calls_app a b : homing_calls (a ++ b) = homing_calls a ++ homing_calls b.
Proof.
  induction a as [|ev a IH]; simpl; [reflexivity|].
  destruct ev; simpl; rewrite ?IH; reflexivity.
Qed.

Lemma mc_line_returns_app a b :
  mc_line_returns (a ++ b) = mc_line_returns a ++ mc_line_returns b.
Proof.
  induction a as [|ev a IH]; simpl; [reflexivity|].
  destruct ev; simpl; rewrite ?IH; reflexivity.
Qed.

Lemma bit_istrue_lor x mask : mask <> 0 -> bit_istrue (Z.lor x mask) mask = true.
Proof.
  intros Hm. unfold bit_istrue.
  replace (Z.land (Z.lor x mask) mask) with mask.
  - apply negb_true_iff, Z.eqb_neq, Hm.
  - apply Z.bits_inj'. intros n _.
    rewrite Z.land_spec, Z.lor_spec.
    destruct (Z.testbit x n), (Z.testbit mask n); reflexivity.
Qed.

Lemma bit_istrue_lor_keep x mask mask' :
  bit_istrue x mask = true -> bit_istrue (Z.lor x mask') mask = true.
Proof.
  unfold bit_istrue. rewrite !negb_true_iff, !Z.eqb_neq. intros H Hz. apply H.
  apply Z.bits_inj'. intros n _. rewrite Z.bits_0.
  assert (Hn := f_equal (fun z => Z.testbit z n) Hz). simpl in Hn.
  rewrite Z.bits_0, Z.land_spec, Z.lor_spec in Hn. rewrite Z.land_spec.
  destruct (Z.testbit x n), (Z.testbit mask n), (Z.testbit mask' n);
    simpl in *; congruence.
Qed.

Lemma mc_reset_spec (w : world E) : wp mc_reset (reset_post w) w.
Proof.
  unfold mc_reset, reset_post. wp_run.
  destruct (bit_isfalse (sys_rt_exec_state (mach w)) EXEC_RESET) eqn:Hpend.
  2:{ wp_run. exists w. unfold bit_istrue, bit_isfalse in *.
      rewrite Hpend. simpl. auto 10. }
  assert (Hset : forall x, bit_istrue (Z.lor x EXEC_RESET) EXEC_RESET = true).
  { intros x. apply bit_istrue_lor. discriminate. }
  unfold system_set_exec_state_flag, system_set_exec_alarm.
  wp_run.
  destruct (hal_driver_reset hal) as [f|]; wp_run;
    (destruct (hal_stream_suspend_read hal) as [g|]; wp_run;
     (match goal with
      | |- context [if ?b then _ else ret tt] => destruct b
      end; wp_run;
      [ match goal with
        | |- context [if ?b then _ else _] => destruct b
        end; wp_run;
        [| match goal with
           | |- context [if ?b then _ else ret tt] => destruct b
           end; wp_run ]
      | ];
      match goal with
      | |- context [if ?b then _ else ret tt] => destruct b
      end; wp_run;
      eexists; (split; [reflexivity|]); simpl;
      repeat split; auto using bit_istrue_lor_keep)).
Qed.

Lemma homing_two_switches cycle (w : world E) :
  two_switches settings = true ->
  hal_limits_get_state hal (env (mach w)) <> 0 ->
  exists w1 w',
    result (mc_reset w) = Done tt w1 /\
    w' = set_mach (set_exec_alarm Alarm_HardLimit (mach w1)) w1 /\
    result (mc_homing_cycle cycle w) = Done Status_Unhandled w' /\
    events (mc_homing_cycle cycle w) = events (mc_reset w) /\
    bit_istrue (sys_rt_exec_state (mach w')) EXEC_RESET = true /\
    sys_rt_exec_alarm (mach w') = Alarm_HardLimit /\
    homing_calls (events (mc_homing_cycle cycle w)) = [] /\
    pushes (events (mc_homing_cycle cycle w)) = [] /\
    mc_line_calls (events (mc_homing_cycle cycle w)) = [].
Proof.
  intros H2 Hlim.
  destruct (mc_reset_spec w) as (w1 & Hres & Hbit & _ & _ & Hp & Hc & Hh).
  exists w1, (set_mach (set_exec_alarm Alarm_HardLimit (mach w1)) w1).
  assert (Hrun : mc_homing_cycle cycle w =
                 (events (mc_reset w),
                  Done Status_Unhandled
                       (set_mach (set_exec_alarm Alarm_HardLimit (mach w1)) w1))).
  { unfold mc_homing_cycle, bind at 1, ask, gets. simpl.
    rewrite H2. apply Z.eqb_neq in Hlim. rewrite Hlim. simpl.
    unfold bind, system_set_exec_alarm, modify_mach, modify, ret.
    destruct (mc_reset w) as [evs o]. simpl in *. subst o.
    rewrite !app_nil_r. reflexivity. }
  rewrite Hrun. simpl. auto 10.
Qed.

Lemma parking_cases target pl (w : world E) :
  let r := mc_parking_motion target pl w in
  let pb := plan_buffer_line fw target pl (env (mach w)) in
  (sys_abort (sys (mach w)) = true -> r = ([], Done false w)) /\
  (sys_abort (sys (mach w)) = false -> fst pb = false ->
     events r = [EvPlanBufferLine target pl false] /\
     exists w', result r = Done false w' /\
       sys (mach w') = sys (mach w) /\
       sys_rt_exec_state (mach w') = Z.lor (sys_rt_exec_state (mach w)) EXEC_CYCLE_COMPLETE /\
       bit_istrue (sys_rt_exec_state (mach w')) EXEC_CYCLE_COMPLETE = true) /\
  (sys_abort (sys (mach w)) = false -> fst pb = true ->
     pushes (events r) = [(target, pl)] /\
     exists w', result r = Done true w' /\
       sys (mach w') = set_sys_motion true false (sys (mach w)) /\
       sys_execute_sys_motion (sys (mach w')) = true /\
       sys_rt_exec_state (mach w') = sys_rt_exec_state (mach w)).
Proof.
  unfold mc_parking_motion, push_line, bind, gets, drive_ret, emit, ret,
    modify_sys, modify_mach, modify, drive, system_set_exec_state_flag,
    events, result.
  simpl.
  destruct (sys_abort (sys (mach w))); simpl.
  - repeat split; intros; try discriminate; reflexivity.
  - destruct (plan_buffer_line fw target pl (env (mach w))) as [[|] e]; simpl.
    + repeat split; intros; try discriminate.
      eexists; repeat split; reflexivity.
    + repeat split; intros; try discriminate.
      eexists. split; [reflexivity|]. simpl. repeat split.
      apply bit_istrue_lor. discriminate.
Qed.

(** ** Realtime command ingest *)

Lemma ingest_line_end b (w : world E) :
  legacy_printable (cmds cfg) ->
  b = 10 \/ b = 13 ->
  protocol_enqueue_realtime_command b w = ([], Done false w).
Proof.
  intros (H1 & H2 & H3) Hb.
  unfold protocol_enqueue_realtime_command, rt_command_switch.
  assert (Hle : (b =? 10) || (b =? 13) = true) by (destruct Hb; subst; reflexivity).
  rewrite Hle. unfold bind at 1, ret at 1. cbn [negb].
  unfold rt_command_legacy, bind, gets, ret.
  assert (Hn1 : (b =? CMD_STATUS_REPORT_LEGACY (cmds cfg)) = false) by (apply Z.eqb_neq; lia).
  assert (Hn2 : (b =? CMD_CYCLE_START_LEGACY (cmds cfg)) = false) by (apply Z.eqb_neq; lia).
  assert (Hn3 : (b =? CMD_FEED_HOLD_LEGACY (cmds cfg)) = false) by (apply Z.eqb_neq; lia).
  rewrite Hn1, Hn2, Hn3.
  assert (Hlt : (b <? 127) = true) by (apply Z.ltb_lt; lia).
  rewrite Hlt, orb_true_r. reflexivity.
Qed.

Lemma ingest_unassigned b (w : world E) :
  0 <= b < 256 ->
  b < 32 \/ 127 <= b <= 191 ->
  assigned_code (cmds cfg) b = false ->
  protocol_enqueue_realtime_command b w = ([], Done true w).
Proof.
  intros Hb Hr Ha. unfold assigned_code in Ha.
  repeat (apply orb_false_iff in Ha; destruct Ha as [Ha ?]).
  unfold protocol_enqueue_realtime_command, rt_command_switch.
  repeat match goal with H : _ = false |- _ => rewrite H; clear H end.
  cbn [orb].
  assert (Hd : (char_value b <? 32) || ((127 <=? char_value b) && (char_value b <=? 191)) = true).
  { unfold char_value.
    destruct (char_signed cfg && (128 <=? b)) eqn:Hs.
    - apply andb_true_iff in Hs. destruct Hs as [_ Hs]. apply Z.leb_le in Hs.
      apply orb_true_iff. left. apply Z.ltb_lt. lia.
    - destruct Hr as [Hr|Hr].
      + apply orb_true_iff. left. apply Z.ltb_lt. lia.
      + apply orb_true_iff. right. apply andb_true_iff.
        split; apply Z.leb_le; lia. }
  unfold bind, ret. rewrite Hd. reflexivity.
Qed.

(** ** Computations that do not enter [mc_line] *)

Lemma emits_only_bind {A B} p (c : @M E A) (k : A -> @M E B) :
  emits_only p c -> (forall a, emits_only p (k a)) -> emits_only p (bind c k).
Proof.
  intros Hc Hk w. specialize (Hc w). unfold bind.
  destruct (c w) as [evs [a w'|w']]; simpl in *; [|exact Hc].
  specialize (Hk a w'). destruct (k a w') as [evs' o]; simpl in *.
  rewrite forallb_app, Hc, Hk. reflexivity.
Qed.

Lemma emits_only_silent {A} p (c : @M E A) :
  (forall w, events (c w) = []) -> emits_only p c.
Proof. intros H w. rewrite H. reflexivity. Qed.

Lemma emits_only_emit p ev : p ev = true -> emits_only (E:=E) p (emit ev).
Proof. intros H w. simpl. rewrite H. reflexivity. Qed.

Lemma emits_only_if {A} p (b : bool) (c d : @M E A) :
  emits_only p c -> emits_only p d -> emits_only p (if b then c else d).
Proof. destruct b; auto. Qed.

Lemma events_service {A} (f : machine E -> option (A * machine E)) w :
  events (service f w) = [].
Proof. unfold service. destruct (f (mach w)) as [[a m]|]; reflexivity. Qed.

Lemma events_service_ (f : machine E -> option (machine E)) w :
  events (service_ f w) = [].
Proof. unfold service_. destruct (f (mach w)) as [m|]; reflexivity. Qed.

Lemma events_drive_ret {A} (f : E -> A * E) w : events (drive_ret f w) = [].
Proof. unfold drive_ret. destruct (f (env (mach w))); reflexivity. Qed.

Ltac only_steps :=
  repeat first
    [ assumption
    | apply emits_only_bind; [|intros ?]
    | apply emits_only_if
    | apply emits_only_emit; reflexivity
    | apply emits_only_silent; intros ?;
      first [ reflexivity | apply events_service | apply events_service_
            | apply events_drive_ret ]
    | match goal with |- emits_only _ (match ?x with _ => _ end) => destruct x end ].

Lemma protocol_execute_realtime_no_line :
  emits_only not_line (protocol_execute_realtime (P:=P)).
Proof.
  unfold protocol_execute_realtime, not_aborted. only_steps.
Qed.

Lemma protocol_auto_cycle_start_no_line :
  emits_only not_line (protocol_auto_cycle_start (P:=P)).
Proof.
  unfold protocol_auto_cycle_start, system_set_exec_state_flag. only_steps.
Qed.

Lemma wait_for_buffer_no_line fuel : emits_only not_line (wait_for_buffer (P:=P) fuel).
Proof.
  pose proof protocol_execute_realtime_no_line.
  pose proof protocol_auto_cycle_start_no_line.
  induction fuel as [|fuel IH]; simpl; only_steps.
Qed.

Lemma push_line_no_line target pl : emits_only not_line (push_line (P:=P) target pl).
Proof. unfold push_line. only_steps. Qed.

Lemma mc_line_backlash_no_line fuel target pl :
  emits_only not_line (mc_line_backlash (P:=P) fuel target pl).
Proof.
  pose proof (wait_for_buffer_no_line fuel).
  pose proof push_line_no_line.
  unfold mc_line_backlash. only_steps.
Qed.

Lemma mc_line_body_no_line fuel target pl :
  emits_only not_line (mc_line_body (P:=P) fuel target pl).
Proof.
  pose proof (wait_for_buffer_no_line fuel).
  pose proof protocol_execute_realtime_no_line.
  pose proof (mc_line_backlash_no_line fuel target pl).
  pose proof (push_line_no_line target pl).
  unfold mc_line_body, not_aborted. only_steps.
Qed.

Lemma no_line_calls evs :
  forallb not_line evs = true -> mc_line_calls evs = [] /\ mc_line_returns evs = [].
Proof.
  induction evs as [|ev evs IH]; simpl; [auto|].
  intros H. apply andb_true_iff in H. destruct H as [Hev H].
  destruct ev; simpl in *; try discriminate; auto.
Qed.

(** Every run of [mc_line] is one call; it has one return when it
    returns. *)
Lemma mc_line_one_call fuel target pl Q (w : world E) :
  (forall evs b w', mc_line_calls evs = [(target, pl)] -> mc_line_returns evs = [b] ->
                    Q evs (Done b w')) ->
  (forall evs w', mc_line_calls evs = [(target, pl)] -> mc_line_returns evs = [] ->
                  Q evs (Hang w')) ->
  wp (mc_line fuel target pl) Q w.
Proof.
  intros Hd Hh. unfold mc_line. wp_run.
  unfold wp. pose proof (mc_line_body_no_line fuel target pl w) as Hb.
  apply no_line_calls in Hb. destruct Hb as [Hc Hr].
  destruct (mc_line_body fuel target pl w) as [evs [b w'|w']]; simpl in *.
  - wp_run. apply Hd.
    + simpl. rewrite mc_line_calls_app, Hc. reflexivity.
    + simpl. rewrite mc_line_returns_app, Hr. reflexivity.
  - apply Hh; simpl; assumption || (rewrite Hc; reflexivity).
Qed.

(** ** Arcs *)


Lemma last_cons_default {A} (l : list A) a d d' : last (a :: l) d = last (a :: l) d'.
Proof.
  revert a. induction l as [|b l IH]; intros a; [reflexivity|].
  change (last (b :: l) d = last (b :: l) d'). apply IH.
Qed.






(** ** The segment count *)






(** ** The rotation of the radius vector *)




Lemma arc_step_position offset plane c0 c1 theta lin i s :
  let s' := arc_step offset plane c0 c1 theta lin i s in
  let p0 := vset (axis_0 plane) (c0 + arc_r_axis0 s')%f32 (arc_position s) in
  let p1 := vset (axis_1 plane) (c1 + arc_r_axis1 s')%f32 p0 in
  arc_position s' =
  vset (axis_linear plane) (vget p1 (axis_linear plane) + lin)%f32 p1.
Proof.
  unfold arc_step. destruct (arc_count s <? N_ARC_CORRECTION cfg); reflexivity.
Qed.




(** ** Threading: the events of a pass *)

Lemma protocol_buffer_synchronize_no_line fuel :
  emits_only not_line (protocol_buffer_synchronize (P:=P) fuel).
Proof.
  pose proof protocol_execute_realtime_no_line.
  pose proof protocol_auto_cycle_start_no_line.
  unfold protocol_buffer_synchronize.
  apply emits_only_bind; [assumption|intros _].
  induction fuel as [|fuel IH]; simpl; only_steps.
Qed.

Lemma mc_dwell_no_line fuel seconds : emits_only not_line (mc_dwell (P:=P) fuel seconds).
Proof.
  pose proof (protocol_buffer_synchronize_no_line fuel).
  unfold mc_dwell. only_steps.
Qed.

Lemma wp_no_line {A} (c : @M E A) (Q : list event -> outcome A -> Prop) w :
  emits_only not_line c ->
  (forall evs o, mc_line_calls evs = [] -> mc_line_returns evs = [] -> Q evs o) ->
  wp c Q w.
Proof.
  intros Hc H. unfold wp. specialize (Hc w). apply no_line_calls in Hc.
  destruct Hc. apply H; assumption.
Qed.






(** ** Threading: the number of passes and the depth of cut *)

Lemma fast16_small x : 0 <= x < 2 ^ uint_fast16_bits cfg -> fast16 x = x.
Proof. intros H. unfold fast16. apply Z.mod_small. exact H. Qed.


(** With enough fuel the counting loop returns that pass. *)
Lemma thread_count_passes_complete fuel thread doc inv p n :
  0 <= p < n -> n - p <= Z.of_nat fuel -> n < 2 ^ uint_fast16_bits cfg ->
  (calc_thread_doc n doc inv <? depth thread)%f32 = false ->
  (forall k, p < k < n -> (calc_thread_doc k doc inv <? depth thread)%f32 = true) ->
  thread_count_passes fuel thread doc inv p = Some n.
Proof.
  revert p. induction fuel as [|fuel IH]; intros p Hp Hf Hb Hn Hk; [lia|].
  cbn [thread_count_passes]. rewrite fast16_small by lia.
  destruct (Z.eq_dec n (p + 1)) as [->|Hne].
  - rewrite Hn. reflexivity.
  - rewrite Hk by lia. apply IH; try lia; try assumption.
    intros k Hk'. apply Hk. lia.
Qed.



(** * The claims *)


(** C2.  Of the moves that one call of [mc_line] pushes to the planner,
    at most one is a backlash move; it carries the rapid and the
    backlash flags and comes before the move of the caller; and no
    backlash move is pushed when the target equals the previous target
    on every axis. *)
Theorem mc_line_backlash_before_move fuel target pl (w : world E) :
  exists bl us,
    pushes (events (mc_line fuel target pl w)) = bl ++ us /\
    (bl = [] \/ exists tp, bl = [(tp, backlash_request pl)]) /\
    (us = [] \/ us = [(target, pl)]) /\
    (same_target (N_AXIS cfg) target (target_prev w) -> bl = []) /\
    rapid_motion (backlash_request pl) = true /\
    backlash_motion (backlash_request pl) = true.
Proof.
  destruct (mc_line_pushes fuel target pl w) as (bl & us & H1 & H2 & H3 & H4).
  exists bl, us. auto 10.
Qed.




(** ** The threading example S6 *)






(** C8.  The realtime command ingest never drops the line ends [\n] and
    [\r], and changes nothing for them; and it drops every byte of
    [0x00,0x20) or [0x7F,0xBF] that has no function assigned, without
    setting a realtime flag or changing any other state. *)
Theorem ingest_drops b (w : world E) :
  legacy_printable (cmds cfg) ->
  (b = 10 \/ b = 13 -> protocol_enqueue_realtime_command b w = ([], Done false w)) /\
  (0 <= b < 256 -> b < 32 \/ 127 <= b <= 191 -> assigned_code (cmds cfg) b = false ->
   protocol_enqueue_realtime_command b w = ([], Done true w)).
Proof.
  intros Hl. split.
  - apply ingest_line_end. exact Hl.
  - apply ingest_unassigned.
Qed.

(** C9.  With two switches on one pin configured and a limit input
    active, [mc_homing_cycle] does what [mc_reset] does and no more,
    leaving the reset flag pending, then posts the hard limit alarm and
    returns [Status_Unhandled]; it commands no homing move and no
    line. *)
Theorem mc_homing_cycle_two_switches cycle (w : world E) :
  two_switches settings = true ->
  hal_limits_get_state hal (env (mach w)) <> 0 ->
  exists w1 w',
    result (mc_reset w) = Done tt w1 /\
    w' = set_mach (set_exec_alarm Alarm_HardLimit (mach w1)) w1 /\
    result (mc_homing_cycle cycle w) = Done Status_Unhandled w' /\
    events (mc_homing_cycle cycle w) = events (mc_reset w) /\
    bit_istrue (sys_rt_exec_state (mach w')) EXEC_RESET = true /\
    sys_rt_exec_alarm (mach w') = Alarm_HardLimit /\
    homing_calls (events (mc_homing_cycle cycle w)) = [] /\
    pushes (events (mc_homing_cycle cycle w)) = [] /\
    mc_line_calls (events (mc_homing_cycle cycle w)) = [].
Proof. apply homing_two_switches. Qed.

(** C10.  [mc_parking_motion]: when [sys.abort] is set it returns
    [false], changes nothing and pushes nothing; when the planner
    rejects the line it sets [EXEC_CYCLE_COMPLETE], leaves the system
    record alone and returns [false]; when the planner accepts the line
    it sets [execute_sys_motion] (and clears [end_motion]) and returns
    [true]. *)
Theorem mc_parking_motion_outcomes target pl (w : world E) :
  let r := mc_parking_motion target pl w in
  let pb := plan_buffer_line fw target pl (env (mach w)) in
  (sys_abort (sys (mach w)) = true -> r = ([], Done false w)) /\
  (sys_abort (sys (mach w)) = false -> fst pb = false ->
     events r = [EvPlanBufferLine target pl false] /\
     exists w', result r = Done false w' /\
       sys (mach w') = sys (mach w) /\
       sys_rt_exec_state (mach w') = Z.lor (sys_rt_exec_state (mach w)) EXEC_CYCLE_COMPLETE /\
       bit_istrue (sys_rt_exec_state (mach w')) EXEC_CYCLE_COMPLETE = true) /\
  (sys_abort (sys (mach w)) = false -> fst pb = true ->
     pushes (events r) = [(target, pl)] /\
     exists w', result r = Done true w' /\
       sys (mach w') = set_sys_motion true false (sys (mach w)) /\
       sys_execute_sys_motion (sys (mach w')) = true /\
       sys_rt_exec_state (mach w') = sys_rt_exec_state (mach w)).
Proof. apply parking_cases. Qed.

(** * Further properties of the motion gateway *)

(** A realtime checkpoint is marked by its event, reaches neither the
    planner nor [mc_line], and returns [!ABORTED]. *)
Lemma protocol_execute_realtime_result (w : world E) :
  wp protocol_execute_realtime
     (fun evs o =>
        In EvRealtime evs /\ pushes evs = [] /\ mc_line_calls evs = [] /\
        soft_checks evs = [] /\ tracker (final o) = tracker w /\
        match o with
        | Done b w' => b = negb (ABORTED fw (sys (mach w')))
        | Hang _ => True
        end) w.
Proof.
  unfold protocol_execute_realtime, not_aborted. wp_run.
  apply wp_service. destruct (protocol_exec_rt_system fw (mach w)) as [[[|] m]|];
    [| |simpl; auto 10].
  - wp_step.
    assert (Hhook : forall Q,
      (forall m', Q [] (Done tt (set_mach m' (set_mach m w)))) ->
      (Q [] (Hang (set_mach m w))) ->
      wp (match hal_execute_realtime hal with
          | Some f => st <- gets (fun w => sys_state (sys (mach w))) ;; service_ (f st)
          | None => ret tt
          end) Q (set_mach m w)).
    { intros Q Hd Hh. destruct (hal_execute_realtime hal) as [f|]; wp_run.
      - apply wp_service_. cbn [mach set_mach].
        destruct (f (sys_state (sys m)) m) as [m'|]; [apply Hd|apply Hh].
      - destruct w; apply (Hd m). }
    wp_step. apply Hhook; [intros m'|simpl; auto 10].
    wp_run. cbn [mach set_mach].
    destruct (sys_suspend (sys m')).
    + apply wp_service_. cbn [mach set_mach].
      destruct (protocol_exec_rt_suspend fw m') as [m''|]; [|simpl; auto 10].
      wp_run. simpl. auto 10.
    + wp_run. simpl. auto 10.
  - wp_run. simpl. auto 10.
Qed.

Lemma protocol_auto_cycle_start_frame (w : world E) :
  wp protocol_auto_cycle_start
     (fun evs o =>
        evs = [] /\ exists w', o = Done tt w' /\
          sys (mach w') = sys (mach w) /\ env (mach w') = env (mach w) /\
          tracker w' = tracker w) w.
Proof.
  unfold protocol_auto_cycle_start, system_set_exec_state_flag. wp_run.
  destruct (plan_get_current_block fw (env (mach w))); wp_run;
    (split; [reflexivity|]); eexists; (split; [reflexivity|]); simpl; auto.
Qed.

(** The backpressure loop returns [true] with room in the planner and
    without a new abort, and [false] only under abort. *)
Lemma wait_for_buffer_result fuel (w : world E) :
  wp (wait_for_buffer fuel)
     (fun evs o =>
        pushes evs = [] /\ mc_line_calls evs = [] /\ soft_checks evs = [] /\
        tracker (final o) = tracker w /\
        match o with
        | Done true w' =>
            plan_check_full_buffer fw (env (mach w')) = false /\
            (ABORTED fw (sys (mach w)) = false -> ABORTED fw (sys (mach w')) = false)
        | Done false w' => ABORTED fw (sys (mach w')) = true
        | Hang _ => True
        end) w.
Proof.
  revert w. induction fuel as [|fuel IH]; intros w; simpl.
  - wp_run. simpl. auto.
  - wp_run. destruct (plan_check_full_buffer fw (env (mach w))) eqn:Hfull.
    + wp_step. eapply wp_conseq; [apply protocol_auto_cycle_start_frame|].
      intros evs0 o0 (-> & w0 & -> & Hs0 & He0 & Ht0).
      wp_step. eapply wp_conseq; [apply protocol_execute_realtime_result|].
      intros evs1 o1 (_ & Hp1 & Hc1 & Hs1 & Ht1 & Ho1).
      destruct o1 as [[|] w1|w1]; cbn [final] in *.
      * eapply wp_conseq; [apply IH|].
        intros evs2 o2 (Hp2 & Hc2 & Hs2 & Ht2 & Ho2).
        rewrite ?pushes_app, ?mc_line_calls_app, Hp1, Hp2, Hc1, Hc2. simpl.
        assert (Hsc : forall a b, soft_checks (a ++ b) = soft_checks a ++ soft_checks b).
        { intros a b. induction a as [|ev a IHa]; simpl; [reflexivity|].
          destruct ev; simpl; rewrite ?IHa; reflexivity. }
        rewrite Hsc, Hs1, Hs2. repeat split; try congruence.
        destruct o2 as [[|] w2|w2]; auto.
        destruct Ho2 as [Hroom Hab]. split; [exact Hroom|].
        intros _. apply Hab. symmetry in Ho1. apply negb_true_iff in Ho1. exact Ho1.
      * wp_run. simpl. rewrite app_nil_r. repeat split; try congruence.
        symmetry in Ho1. apply negb_false_iff in Ho1. exact Ho1.
      * simpl. repeat split; congruence.
    + wp_run. simpl. auto 10.
Qed.

Lemma soft_checks_app a b : soft_checks (a ++ b) = soft_checks a ++ soft_checks b.
Proof.
  induction a as [|ev a IH]; simpl; [reflexivity|].
  destruct ev; simpl; rewrite ?IH; reflexivity.
Qed.

Lemma backlash_axis_unmoved enabled target idx axismask a :
  (vget target idx >? vget (bs_target_prev a) idx)%f32 = false ->
  (vget target idx <? vget (bs_target_prev a) idx)%f32 = false ->
  backlash_axis enabled target idx axismask a = a.
Proof.
  intros H1 H2. unfold backlash_axis. rewrite H1, H2. simpl.
  destruct (bit_istrue enabled axismask); reflexivity.
Qed.

Lemma backlash_scan_unmoved enabled target n axismask a :
  unmoved n target (bs_target_prev a) ->
  backlash_scan enabled target n axismask a = a.
Proof.
  revert axismask. induction n as [|n IH]; intros axismask H; simpl; [reflexivity|].
  destruct (H n ltac:(lia)) as [H1 H2].
  rewrite backlash_axis_unmoved by assumption.
  apply IH. intros idx Hidx. apply H. lia.
Qed.

Lemma push_line_run target pl Q (w : world E) :
  (forall accepted e,
      Q [EvPlanBufferLine target pl accepted]
        (Done accepted (set_mach (set_env e (mach w)) w))) ->
  wp (push_line target pl) Q w.
Proof.
  intros H. unfold push_line. wp_run. simpl. apply H.
Qed.

(** The backlash block: what it pushes, when it goes on, and what it
    leaves in the tracker. *)
Lemma mc_line_backlash_run fuel target pl (w : world E) :
  wp (mc_line_backlash fuel target pl)
     (fun evs o =>
        mc_line_calls evs = [] /\ soft_checks evs = [] /\
        (pushes evs = [] \/ exists tp, pushes evs = [(tp, backlash_request pl)]) /\
        (backlash_enabled w = 0 \/ unmoved (N_AXIS cfg) target (target_prev w) ->
         pushes evs = []) /\
        backlash_enabled (final o) = backlash_enabled w /\
        match o with
        | Done true w' =>
            (ABORTED fw (sys (mach w)) = false -> ABORTED fw (sys (mach w')) = false) /\
            (backlash_enabled w <> 0 ->
             exists tp, target_prev w' = vcopy (N_AXIS cfg) target tp) /\
            (backlash_enabled w = 0 -> tracker w' = tracker w)
        | Done false w' => ABORTED fw (sys (mach w')) = true /\ pushes evs = []
        | Hang _ => True
        end) w.
Proof.
  unfold mc_line_backlash. wp_run.
  destruct (backlash_enabled w =? 0) eqn:Hen; cbn [negb].
  { apply Z.eqb_eq in Hen. wp_run. simpl. repeat split; auto. congruence. }
  apply Z.eqb_neq in Hen.
  wp_run.
  set (a := backlash_scan _ _ _ _ _).
  assert (Hsame : backlash_enabled w = 0 \/ unmoved (N_AXIS cfg) target (target_prev w) ->
                  bs_backlash_comp a = false).
  { intros [Hz|Hs]; [congruence|].
    unfold a. rewrite backlash_scan_unmoved by exact Hs. reflexivity. }
  destruct (bs_backlash_comp a).
  - wp_step. eapply wp_conseq; [apply wait_for_buffer_result|].
    intros evs [[|] w1|w1] (Hp & Hc & Hs & Ht & Ho); cbn beta iota.
    + destruct Ho as [Hroom Hab].
      wp_run. apply push_line_run. intros acc e. wp_run.
      simpl. rewrite ?app_nil_r, ?pushes_app, ?mc_line_calls_app, ?soft_checks_app, Hp, Hc, Hs.
      simpl. repeat split; eauto.
      * intros Hd. specialize (Hsame Hd). discriminate.
      * tracker_eqs. congruence.
      * intros Hz. congruence.
    + wp_run. simpl. rewrite ?app_nil_r, Hp, Hc, Hs.
      repeat split; auto. tracker_eqs. congruence.
    + simpl. rewrite ?app_nil_r, Hp, Hc, Hs. repeat split; auto.
      tracker_eqs. congruence.
  - wp_run. simpl. repeat split; auto.
    + intros _. eexists. reflexivity.
    + intros Hz. congruence.
Qed.

Lemma set_mach_mach (w : world E) : set_mach (mach w) w = w.
Proof. destruct w; reflexivity. Qed.

(** The soft-limit check of [mc_line], in both of its cases. *)
Lemma soft_check_step target pl Q (w : world E) :
  (forall w0, after_soft_check target pl w = Some w0 -> tracker w0 = tracker w ->
     Q (if negb (jog_motion pl) && soft_enabled settings
        then [EvLimitsSoftCheck target] else []) (Done tt w0)) ->
  (after_soft_check target pl w = None ->
   negb (jog_motion pl) && soft_enabled settings = true ->
   Q [EvLimitsSoftCheck target] (Hang w)) ->
  wp (when (negb (jog_motion pl) && soft_enabled settings) then
        (emit (EvLimitsSoftCheck target) ;; service_ (limits_soft_check fw target))) Q w.
Proof.
  unfold after_soft_check. intros Hd Hh.
  destruct (negb (jog_motion pl) && soft_enabled settings).
  - wp_run. apply wp_service_.
    destruct (limits_soft_check fw target (mach w)) as [m|].
    + apply (Hd _ eq_refl). reflexivity.
    + apply (Hh eq_refl eq_refl).
  - wp_run. apply (Hd _ eq_refl). reflexivity.
Qed.

Lemma checkpoint_none evs : pushes evs = [] -> checkpoint_before_push evs.
Proof.
  intros H pre t p a post ->. rewrite pushes_app in H. simpl in H.
  destruct (pushes pre); discriminate.
Qed.

Lemma checkpoint_prefix a b :
  pushes a = [] -> In EvRealtime a -> checkpoint_before_push (a ++ b).
Proof.
  intros Hp Hin pre. revert a Hp Hin.
  induction pre as [|ev pre IH]; intros a Hp Hin t p acc post Heq.
  - destruct a as [|ev a]; [destruct Hin|].
    simpl in Heq. injection Heq as -> _. discriminate.
  - destruct a as [|ev' a]; [destruct Hin|].
    simpl in Heq. injection Heq as -> Heq.
    destruct Hin as [->|Hin]; [left; reflexivity|].
    right. eapply (IH a); [|exact Hin|exact Heq].
    destruct ev; simpl in Hp; discriminate || exact Hp.
Qed.

Lemma state_eqb_eq a b : state_eqb a b = true <-> a = b.
Proof.
  split; [|intros ->; apply Z.eqb_refl].
  destruct a, b; intros H; reflexivity || discriminate H.
Qed.

Ltac body_events sc evs1 Hp0 Hp1 Hin1 :=
  refine (conj _ (conj _ (conj _ _)));
  [ cbn [app]; rewrite ?mc_line_calls_app;
    repeat match goal with H : mc_line_calls _ = [] |- _ => rewrite H end;
    reflexivity
  | cbn [app]; rewrite ?soft_checks_app;
    repeat match goal with H : soft_checks _ = _ |- _ => rewrite H end;
    cbn [soft_checks app]; rewrite ?app_nil_r; reflexivity
  | cbn [app];
    first [ rewrite (app_assoc sc evs1) | rewrite <- (app_nil_r (sc ++ evs1)) ];
    apply checkpoint_prefix;
    [ rewrite pushes_app, Hp0, Hp1; reflexivity
    | apply in_or_app; right; exact Hin1 ]
  | ].

Ltac body_pushes :=
  cbn [app]; rewrite ?pushes_app;
  repeat match goal with H : pushes _ = [] |- _ => rewrite H end;
  cbn [pushes app]; rewrite ?app_nil_r.

(** The body of [mc_line]: its events and its result. *)
Lemma mc_line_body_run fuel target pl (w : world E) :
  wp (mc_line_body fuel target pl)
     (fun evs o =>
        mc_line_calls evs = [] /\
        soft_checks evs = (if negb (jog_motion pl) && soft_enabled settings
                           then [target] else []) /\
        checkpoint_before_push evs /\
        forall b w', o = Done b w' ->
          b = negb (ABORTED fw (sys (mach w'))) /\
          exists w0, after_soft_check target pl w = Some w0 /\
            (sys_state (sys (mach w0)) = STATE_CHECK_MODE -> w' = w0 /\ pushes evs = []) /\
            (sys_state (sys (mach w0)) <> STATE_CHECK_MODE ->
               backlash_enabled w' = backlash_enabled w /\
               exists bl,
                 pushes evs = bl ++ (if b then [(target, pl)] else []) /\
                 (bl = [] \/ exists tp, bl = [(tp, backlash_request pl)]) /\
                 (backlash_enabled w = 0 \/ unmoved (N_AXIS cfg) target (target_prev w) ->
                  bl = []) /\
                 (b = true -> backlash_enabled w <> 0 ->
                  exists tp, target_prev w' = vcopy (N_AXIS cfg) target tp) /\
                 (b = true -> backlash_enabled w = 0 -> tracker w' = tracker w))) w.
Proof.
  unfold mc_line_body. wp_step. apply soft_check_step.
  2:{ intros _ ->. refine (conj _ (conj _ (conj _ _))); try reflexivity.
      - apply checkpoint_none. reflexivity.
      - intros b w' Hd. discriminate Hd. }
  intros w0 Hw0 Ht0.
  set (sc := if negb (jog_motion pl) && soft_enabled settings
             then [EvLimitsSoftCheck target] else []).
  assert (Hsc : pushes sc = [] /\ mc_line_calls sc = [] /\
                soft_checks sc = (if negb (jog_motion pl) && soft_enabled settings
                                  then [target] else [])).
  { unfold sc. destruct (negb (jog_motion pl) && soft_enabled settings); auto. }
  destruct Hsc as (Hp0 & Hc0 & Hs0). clearbody sc.
  wp_run.
  destruct (state_eqb (sys_state (sys (mach w0))) STATE_CHECK_MODE) eqn:Hst; cbn [negb].
  { apply state_eqb_eq in Hst. wp_run. unfold not_aborted. wp_run.
    rewrite ?app_nil_r. refine (conj _ (conj _ (conj _ _))); auto using checkpoint_none.
    intros b w' Hd. injection Hd as <- <-. split; [reflexivity|].
    exists w0. split; [exact Hw0|]. split; [auto|]. intros Hne. congruence. }
  assert (Hst' : sys_state (sys (mach w0)) <> STATE_CHECK_MODE).
  { intros Heq. apply state_eqb_eq in Heq. congruence. }
  eapply wp_conseq; [apply protocol_execute_realtime_result|].
  intros evs1 o1 (Hin1 & Hp1 & Hc1 & Hs1 & Ht1 & Ho1).
  destruct o1 as [[|] w1|w1]; cbn beta iota; cbn [final] in *.
  - (* the checkpoint passed *)
    assert (Hab1 : ABORTED fw (sys (mach w1)) = false).
    { symmetry in Ho1. apply negb_true_iff in Ho1. exact Ho1. }
    wp_step. eapply wp_conseq; [apply mc_line_backlash_run|].
    intros evs2 o2 (Hc2 & Hs2 & Hbl & Hsame & Hen2 & Ho2).
    assert (Hen1 : backlash_enabled w1 = backlash_enabled w) by (tracker_eqs; congruence).
    assert (Htp1 : target_prev w1 = target_prev w) by (tracker_eqs; congruence).
    rewrite Hen1, Htp1 in *.
    destruct o2 as [[|] w2|w2]; cbn beta iota.
    + destruct Ho2 as (Hab2 & Htp2 & Htr2). specialize (Hab2 Hab1). cbn [final] in Hen2.
      wp_step. eapply wp_conseq; [apply wait_for_buffer_result|].
      intros evs3 [[|] w3|w3] (Hp3 & Hc3 & Hs3 & Ht3 & Ho3); cbn beta iota; cbn [final] in *.
      * destruct Ho3 as [_ Hab3]. specialize (Hab3 Hab2).
        wp_step. apply push_line_run. intros acc e. wp_step.
        destruct (negb acc && laser_mode settings && sp_on (cond_spindle pl)
                  && negb (sp_ccw (cond_spindle pl)));
          unfold not_aborted; wp_run;
          (body_events sc evs1 Hp0 Hp1 Hin1;
           intros b w' Hd; injection Hd as <- <-;
           cbn [mach set_mach sys set_env]; rewrite Hab3;
           (split; [reflexivity|]); exists w0; (split; [exact Hw0|]);
           (split; [intros Hcm; contradiction|]); intros _;
           (split; [tracker_eqs; congruence|]);
           exists (pushes evs2); body_pushes;
           (split; [reflexivity|]); (split; [exact Hbl|]); (split; [exact Hsame|]);
           split;
           [ intros _ Hen; destruct (Htp2 Hen) as [tp Htp]; exists tp;
             tracker_eqs; congruence
           | intros _ Hen; specialize (Htr2 Hen); tracker_eqs; congruence ]).
      * wp_run. body_events sc evs1 Hp0 Hp1 Hin1.
        intros b w' Hd. injection Hd as <- <-. rewrite Ho3.
        split; [reflexivity|]. exists w0. split; [exact Hw0|].
        split; [intros Hcm; contradiction|]. intros _.
        split; [tracker_eqs; congruence|].
        exists (pushes evs2). body_pushes.
        split; [reflexivity|]. split; [exact Hbl|]. split; [exact Hsame|].
        split; intros Hf; discriminate Hf.
      * body_events sc evs1 Hp0 Hp1 Hin1. intros b w' Hd. discriminate Hd.
    + destruct Ho2 as [Hab2 Hp2]. wp_run. body_events sc evs1 Hp0 Hp1 Hin1.
      intros b w' Hd. injection Hd as <- <-. rewrite Hab2.
      split; [reflexivity|]. exists w0. split; [exact Hw0|].
      split; [intros Hcm; contradiction|]. intros _.
      split; [exact Hen2|].
      exists []. body_pushes.
      split; [reflexivity|]. split; [auto|]. split; [auto|].
      split; intros Hf; discriminate Hf.
    + body_events sc evs1 Hp0 Hp1 Hin1. intros b w' Hd. discriminate Hd.
  - unfold not_aborted. wp_run. body_events sc evs1 Hp0 Hp1 Hin1.
    intros b w' Hd. injection Hd as <- <-.
    split; [reflexivity|]. exists w0. split; [exact Hw0|].
    split; [intros Hcm; contradiction|]. intros _.
    split; [tracker_eqs; congruence|].
    exists []. body_pushes.
    symmetry in Ho1. apply negb_false_iff in Ho1. rewrite Ho1.
    split; [reflexivity|]. split; [auto|]. split; [auto|].
    split; intros Hf; discriminate Hf.
  - body_events sc evs1 Hp0 Hp1 Hin1. intros b w' Hd. discriminate Hd.
Qed.

Lemma mc_line_unfold fuel target pl (w : world E) :
  events (mc_line fuel target pl w) =
    EvMcLine target pl :: events (mc_line_body fuel target pl w) ++
    match result (mc_line_body fuel target pl w) with
    | Done b _ => [EvMcLineRet b]
    | Hang _ => []
    end /\
  result (mc_line fuel target pl w) = result (mc_line_body fuel target pl w).
Proof.
  unfold mc_line, bind, emit, ret.
  destruct (mc_line_body fuel target pl w) as [evs [b w'|w']]; simpl;
    rewrite ?app_nil_r; auto.
Qed.

Lemma checkpoint_cons ev evs :
  pushes [ev] = [] -> checkpoint_before_push evs -> checkpoint_before_push (ev :: evs).
Proof.
  intros Hev H pre t p a post Heq. destruct pre as [|ev' pre].
  - simpl in Heq. injection Heq as -> _. discriminate Hev.
  - simpl in Heq. injection Heq as -> Heq. right. eapply H. exact Heq.
Qed.

Lemma checkpoint_snoc evs c :
  pushes c = [] -> checkpoint_before_push evs -> checkpoint_before_push (evs ++ c).
Proof.
  intros Hc H pre t p a post Heq.
  apply app_eq_app in Heq. destruct Heq as [l [[-> Heq]|[-> Heq]]].
  - destruct l as [|ev l].
    + simpl in Heq. subst c. discriminate Hc.
    + simpl in Heq. injection Heq as <- _. eapply H. reflexivity.
  - subst c. rewrite pushes_app in Hc. simpl in Hc.
    destruct (pushes l); discriminate Hc.
Qed.

Lemma SFltb_irrefl (x : float) : SFltb x x = false.
Proof.
  unfold SFltb. destruct x as [s|s| |s m e]; simpl; try (destruct s; reflexivity);
    try reflexivity.
  destruct s; rewrite Z.compare_refl, Pos.compare_cont_refl; reflexivity.
Qed.

Lemma vget_vcopy n (src dst : vec) idx :
  (idx < n)%nat -> (n <= length src)%nat -> vget (vcopy n src dst) idx = vget src idx.
Proof.
  intros Hi Hn. unfold vget, vcopy.
  rewrite app_nth1 by (rewrite length_firstn; lia).
  rewrite <- (firstn_skipn n src) at 2.
  rewrite app_nth1 by (rewrite length_firstn; lia). reflexivity.
Qed.

Lemma unmoved_vcopy n (target tp : vec) :
  (n <= length target)%nat -> unmoved n target (vcopy n target tp).
Proof.
  intros Hn idx Hi. rewrite vget_vcopy by assumption.
  unfold F32.gt, F32.lt. rewrite SFltb_irrefl. auto.
Qed.

(** The pushes of one [mc_line] when no axis reverses: at most the
    user's move. *)
Lemma mc_line_pushes_unmoved fuel target pl (w : world E) :
  backlash_enabled w = 0 \/ unmoved (N_AXIS cfg) target (target_prev w) ->
  pushes (events (mc_line fuel target pl w)) = [] \/
  pushes (events (mc_line fuel target pl w)) = [(target, pl)].
Proof.
  intros Hun.
  change (wp (mc_line fuel target pl)
            (fun evs _ => pushes evs = [] \/ pushes evs = [(target, pl)]) w).
  unfold mc_line, mc_line_body. wp_run.
  apply wp_quiet.
  { apply quiet_if; [|auto with quiet].
    apply quiet_bind; [apply quiet_emit_soft_check|intros _; auto with quiet]. }
  intros evs0 [[] w0|w0] Hp0 Hc0 Ht0; cbn beta iota; [|left; simpl; exact Hp0].
  wp_run.
  destruct (negb (state_eqb (sys_state (sys (mach w0))) STATE_CHECK_MODE)).
  2:{ wp_run. unfold not_aborted. wp_run. left. push_norm. reflexivity. }
  apply wp_quiet; [auto with quiet|].
  intros evs1 [[|] w1|w1] Hp1 Hc1 Ht1; cbn beta iota.
  - wp_step. eapply wp_conseq; [apply mc_line_backlash_run|].
    intros evs2 o2 (Hc2 & Hs2 & Hbl & Hsame & Hen2 & Ho2).
    assert (Hp2 : pushes evs2 = []).
    { apply Hsame. tracker_eqs.
      replace (backlash_enabled w1) with (backlash_enabled w) by congruence.
      replace (target_prev w1) with (target_prev w) by congruence. exact Hun. }
    destruct o2 as [[|] w2|w2].
    + wp_step. apply wp_quiet; [auto with quiet|].
      intros evs3 [[|] w3|w3] Hp3 Hc3 Ht3; cbn beta iota.
      * wp_step. apply push_line_wp. intros acc w4 Ht4. wp_step.
        apply wp_quiet.
        { apply quiet_if; [apply quiet_spindle_update|auto with quiet]. }
        intros evs5 [[] w5|w5] Hp5 Hc5 Ht5; cbn beta iota.
        -- unfold not_aborted. wp_run. right. push_norm. reflexivity.
        -- right. push_norm. reflexivity.
      * wp_run. left. push_norm. reflexivity.
      * left. push_norm. reflexivity.
    + wp_run. left. push_norm. reflexivity.
    + left. push_norm. reflexivity.
  - wp_run. unfold not_aborted. wp_run. left. push_norm. reflexivity.
  - left. push_norm. reflexivity.
Qed.

(** X1.  [mc_line] returns [!ABORTED]: whenever it returns,
    whichever way it took (check mode, a failed checkpoint, a wait for
    room in the planner that was aborted, or the push of the move), its
    result is [true] exactly when the system is not aborted in the state
    it leaves. *)
Theorem mc_line_result fuel target pl (w w' : world E) b :
  result (mc_line fuel target pl w) = Done b w' ->
  b = negb (ABORTED fw (sys (mach w'))).
Proof.
  intros Hd. destruct (mc_line_unfold fuel target pl w) as [_ Hr].
  rewrite Hr in Hd.
  destruct (mc_line_body_run fuel target pl w) as (_ & _ & _ & H).
  destruct (H b w' Hd) as [Hb _]. exact Hb.
Qed.

(** X2.  Outside check mode, a call of [mc_line] that
    returns has handed the user's move to the planner exactly when it
    returns [true]: the pushes of the call are the optional backlash
    move, followed by the user's move when the result is [true] and by
    nothing when it is [false]. *)
Theorem mc_line_true_iff_pushed fuel target pl (w w0 w' : world E) b :
  after_soft_check target pl w = Some w0 ->
  sys_state (sys (mach w0)) <> STATE_CHECK_MODE ->
  result (mc_line fuel target pl w) = Done b w' ->
  exists bl,
    pushes (events (mc_line fuel target pl w)) =
      bl ++ (if b then [(target, pl)] else []) /\
    (bl = [] \/ exists tp, bl = [(tp, backlash_request pl)]).
Proof.
  intros Hw0 Hst Hd. destruct (mc_line_unfold fuel target pl w) as [He Hr].
  rewrite Hr in Hd. rewrite He.
  destruct (mc_line_body_run fuel target pl w) as (_ & _ & _ & H).
  destruct (H b w' Hd) as (_ & w0' & Hw0' & _ & Hgo).
  assert (w0' = w0) by congruence. subst w0'.
  destruct (Hgo Hst) as (_ & bl & Hp & Hbl & _).
  exists bl. split; [|exact Hbl].
  rewrite Hd. simpl. rewrite pushes_app. simpl.
  rewrite app_nil_r. exact Hp.
Qed.

(** X3.  In every run of [mc_line], whatever reaches
    the planner does so after a realtime checkpoint of the same call:
    every call of [plan_buffer_line] has a call of
    [protocol_execute_realtime] before it. *)
Theorem mc_line_checkpoint_before_push fuel target pl (w : world E) :
  checkpoint_before_push (events (mc_line fuel target pl w)).
Proof.
  destruct (mc_line_unfold fuel target pl w) as [He _]. rewrite He.
  destruct (mc_line_body_run fuel target pl w) as (_ & _ & H & _).
  apply checkpoint_cons; [reflexivity|].
  apply checkpoint_snoc; [|exact H].
  destruct (result (mc_line_body fuel target pl w)); reflexivity.
Qed.

(** X4.  The soft-limit check of [mc_line]: a move that is
    not a jog, with soft limits enabled, is checked once, with its
    target and before anything else the call does; a jog move, or any
    move with soft limits disabled, is not checked at all. *)
Theorem mc_line_soft_check fuel target pl (w : world E) :
  exists rest,
    events (mc_line fuel target pl w) =
      EvMcLine target pl ::
      (if negb (jog_motion pl) && soft_enabled settings
       then [EvLimitsSoftCheck target] else []) ++ rest /\
    soft_checks rest = [].
Proof.
  destruct (mc_line_unfold fuel target pl w) as [He _]. rewrite He.
  destruct (mc_line_body_run fuel target pl w) as (_ & Hs & _ & _).
  set (tl := match result (mc_line_body fuel target pl w) with
             | Done b _ => [EvMcLineRet b]
             | Hang _ => []
             end).
  assert (Htl : soft_checks tl = []) by (unfold tl; destruct (result _); reflexivity).
  clearbody tl. revert Hs. unfold mc_line_body. rewrite bind_events.
  set (c := negb (jog_motion pl) && soft_enabled settings).
  set (k := match result _ with Done a w' => _ | Hang _ => [] end). clearbody k.
  assert (Hsc : events ((when c then
                   (emit (EvLimitsSoftCheck target) ;;
                    service_ (limits_soft_check fw target))) w)
                = if c then [EvLimitsSoftCheck target] else []).
  { destruct c; [|reflexivity]. rewrite bind_events. simpl.
    rewrite events_service_.
    destruct (result (service_ (limits_soft_check fw target) w)); reflexivity. }
  rewrite Hsc. intros Hs. exists (k ++ tl). split.
  - rewrite <- app_assoc. reflexivity.
  - rewrite soft_checks_app in *. rewrite Htl, app_nil_r.
    destruct c; simpl in Hs; [injection Hs as Hs|]; exact Hs.
Qed.

(** X5.  Once [mc_line] has pushed a move to a target
    (outside check mode, returning [true]), a further call of [mc_line]
    to the same target pushes no backlash move: at most the move
    itself. *)
Theorem mc_line_repeat_no_backlash fuel target pl (w w0 w1 : world E) fuel2 pl2 :
  after_soft_check target pl w = Some w0 ->
  sys_state (sys (mach w0)) <> STATE_CHECK_MODE ->
  result (mc_line fuel target pl w) = Done true w1 ->
  (N_AXIS cfg <= length target)%nat ->
  pushes (events (mc_line fuel2 target pl2 w1)) = [] \/
  pushes (events (mc_line fuel2 target pl2 w1)) = [(target, pl2)].
Proof.
  intros Hw0 Hst Hd Hlen. destruct (mc_line_unfold fuel target pl w) as [_ Hr].
  rewrite Hr in Hd.
  destruct (mc_line_body_run fuel target pl w) as (_ & _ & _ & H).
  destruct (H true w1 Hd) as (_ & w0' & Hw0' & _ & Hgo).
  assert (w0' = w0) by congruence. subst w0'.
  destruct (Hgo Hst) as (Hen & bl & _ & _ & _ & Htp & _).
  apply mc_line_pushes_unmoved.
  destruct (Z.eq_dec (backlash_enabled w) 0) as [Hz|Hnz].
  - left. congruence.
  - right. destruct (Htp eq_refl Hnz) as [tp ->]. apply unmoved_vcopy. exact Hlen.
Qed.

(** * Further properties of synchronization and dwell *)

Lemma delays_app a b : delays (a ++ b) = delays a ++ delays b.
Proof.
  induction a as [|ev a IH]; simpl; [reflexivity|].
  destruct ev; simpl; rewrite ?IH; reflexivity.
Qed.

(** A realtime checkpoint is one event, and returns [!ABORTED]. *)
Lemma protocol_execute_realtime_run (w : world E) :
  wp protocol_execute_realtime
     (fun evs o =>
        evs = [EvRealtime] /\
        match o with
        | Done b w' => b = negb (ABORTED fw (sys (mach w')))
        | Hang _ => True
        end) w.
Proof.
  unfold protocol_execute_realtime, not_aborted. wp_run.
  apply wp_service. destruct (protocol_exec_rt_system fw (mach w)) as [[[|] m]|];
    [| |simpl; auto].
  - wp_step.
    destruct (hal_execute_realtime hal) as [f|]; wp_run.
    + apply wp_service_. cbn [mach set_mach].
      destruct (f (sys_state (sys m)) m) as [m'|]; [|simpl; auto].
      wp_run. cbn [mach set_mach].
      destruct (sys_suspend (sys m')).
      * apply wp_service_. cbn [mach set_mach].
        destruct (protocol_exec_rt_suspend fw m') as [m''|]; [|simpl; auto].
        wp_run. simpl. auto.
      * wp_run. simpl. auto.
    + cbn [mach set_mach]. destruct (sys_suspend (sys m)).
      * apply wp_service_. cbn [mach set_mach].
        destruct (protocol_exec_rt_suspend fw m) as [m''|]; [|simpl; auto].
        wp_run. simpl. auto.
      * wp_run. simpl. auto.
  - wp_run. simpl. auto.
Qed.

Lemma protocol_buffer_synchronize_loop_run fuel (w : world E) :
  wp (protocol_buffer_synchronize_loop fuel)
     (fun evs o =>
        (exists n, evs = repeat EvRealtime n /\ (fuel <> O -> n <> O)) /\
        match o with
        | Done ok w' =>
            ok = negb (ABORTED fw (sys (mach w'))) /\
            (ok = true ->
             plan_get_current_block fw (env (mach w')) = false /\
             sys_state (sys (mach w')) <> STATE_CYCLE)
        | Hang _ => True
        end) w.
Proof.
  revert w. induction fuel as [|fuel IH]; intros w; simpl.
  - wp_run. split; [exists 0%nat; split; [reflexivity|congruence]|exact I].
  - wp_step. eapply wp_conseq; [apply protocol_execute_realtime_run|].
    intros evs1 [[|] w1|w1] [-> Ho1]; cbn beta iota.
    + wp_run.
      destruct (plan_get_current_block fw (env (mach w1))) eqn:Hblk; cbn [orb].
      * eapply wp_conseq; [apply IH|]. intros evs2 o2 [(n & -> & _) Ho2].
        split; [|exact Ho2]. exists (S n). split; [reflexivity|discriminate].
      * destruct (state_eqb (sys_state (sys (mach w1))) STATE_CYCLE) eqn:Hst.
        -- eapply wp_conseq; [apply IH|]. intros evs2 o2 [(n & -> & _) Ho2].
           split; [|exact Ho2]. exists (S n). split; [reflexivity|discriminate].
        -- wp_run. split; [exists 1%nat; split; [reflexivity|discriminate]|].
           split; [exact Ho1|]. intros _. split; [exact Hblk|].
           intros Heq. apply state_eqb_eq in Heq. congruence.
    + wp_run. split; [exists 1%nat; split; [reflexivity|discriminate]|].
      split; [exact Ho1|]. discriminate.
    + split; [exists 1%nat; split; [reflexivity|discriminate]|exact I].
Qed.

Lemma protocol_buffer_synchronize_trace fuel (w : world E) :
  exists n, events (protocol_buffer_synchronize fuel w) = repeat EvRealtime n.
Proof.
  change (wp (protocol_buffer_synchronize fuel)
            (fun evs _ => exists n, evs = repeat EvRealtime n) w).
  unfold protocol_buffer_synchronize. wp_step.
  eapply wp_conseq; [apply protocol_auto_cycle_start_frame|].
  intros evs0 o0 (-> & w0 & -> & _). cbn beta iota.
  eapply wp_conseq; [apply protocol_buffer_synchronize_loop_run|].
  intros evs o [(n & Hn & _) _]. exists n. exact Hn.
Qed.

(** X6.  [protocol_buffer_synchronize] does nothing but run
    realtime checkpoints, at least one; when it returns, its result is
    [!ABORTED], and a result [true] means that the planner holds no block
    and the machine is not in a cycle. *)
Theorem protocol_buffer_synchronize_result fuel (w : world E) :
  (exists n, events (protocol_buffer_synchronize fuel w) = repeat EvRealtime n /\
             (fuel <> O -> n <> O)) /\
  forall ok w', result (protocol_buffer_synchronize fuel w) = Done ok w' ->
    ok = negb (ABORTED fw (sys (mach w'))) /\
    (ok = true ->
     plan_get_current_block fw (env (mach w')) = false /\
     sys_state (sys (mach w')) <> STATE_CYCLE).
Proof.
  change (wp (protocol_buffer_synchronize fuel)
            (fun evs o =>
               (exists n, evs = repeat EvRealtime n /\ (fuel <> O -> n <> O)) /\
               forall ok w', o = Done ok w' ->
                 ok = negb (ABORTED fw (sys (mach w'))) /\
                 (ok = true ->
                  plan_get_current_block fw (env (mach w')) = false /\
                  sys_state (sys (mach w')) <> STATE_CYCLE)) w).
  unfold protocol_buffer_synchronize. wp_step.
  eapply wp_conseq; [apply protocol_auto_cycle_start_frame|].
  intros evs0 o0 (-> & w0 & -> & _). cbn beta iota.
  eapply wp_conseq; [apply protocol_buffer_synchronize_loop_run|].
  intros evs o [Hn Ho]. split; [exact Hn|].
  intros ok w' ->. exact Ho.
Qed.

(** X7.  [mc_dwell] in check mode does nothing at all.  In any
    other state it synchronizes the planner buffer and then requests the
    delay, once and with the given duration, whenever the
    synchronization returns: also when it returns under abort. *)
Theorem mc_dwell_behaviour fuel seconds (w : world E) :
  (sys_state (sys (mach w)) = STATE_CHECK_MODE ->
   mc_dwell fuel seconds w = ([], Done tt w)) /\
  (sys_state (sys (mach w)) <> STATE_CHECK_MODE ->
   delays (events (mc_dwell fuel seconds w)) =
     match result (protocol_buffer_synchronize fuel w) with
     | Done _ _ => [seconds]
     | Hang _ => []
     end /\
   pushes (events (mc_dwell fuel seconds w)) = [] /\
   mc_line_calls (events (mc_dwell fuel seconds w)) = []).
Proof.
  split; intros Hst.
  - unfold mc_dwell, bind, gets. cbn [fst snd]. rewrite Hst. reflexivity.
  - assert (Hne : state_eqb (sys_state (sys (mach w))) STATE_CHECK_MODE = false).
    { destruct (state_eqb _ _) eqn:Heq; [|reflexivity].
      apply state_eqb_eq in Heq. contradiction. }
    destruct (protocol_buffer_synchronize_trace fuel w) as (n & Hev).
    unfold mc_dwell. rewrite bind_events. cbn [gets events result fst snd app].
    rewrite Hne. cbn [negb]. rewrite bind_events, Hev.
    clear Hne Hst.
    assert (Hrep : delays (repeat EvRealtime n) = [] /\ pushes (repeat EvRealtime n) = []
                   /\ mc_line_calls (repeat EvRealtime n) = []).
    { clear Hev. induction n as [|n IHn]; simpl; [auto|exact IHn]. }
    destruct Hrep as (Hd & Hp & Hc).
    rewrite delays_app, pushes_app, mc_line_calls_app, Hd, Hp, Hc. cbn [app].
    destruct (result (protocol_buffer_synchronize fuel w)) as [ok w1|w1]; [|auto].
    rewrite bind_events. cbn [emit events result fst snd].
    rewrite events_service_. auto.
Qed.

(** * Further properties of reset *)

(** X8.  [mc_reset] always returns, and a reset that is
    requested again before the first one has been served does nothing:
    after a run of [mc_reset], a second run emits no event and changes
    no state. *)
Theorem mc_reset_idempotent (w : world E) :
  exists w1, result (mc_reset w) = Done tt w1 /\ mc_reset w1 = ([], Done tt w1).
Proof.
  destruct (mc_reset_spec w) as (w1 & Hres & Hbit & _).
  exists w1. split; [exact Hres|].
  unfold mc_reset, bind, gets. cbn [fst snd].
  unfold bit_istrue in Hbit. unfold bit_isfalse.
  apply negb_true_iff in Hbit. rewrite Hbit. reflexivity.
Qed.

(** X9.  A reset that is not yet pending kills spindle and
    coolant, forces the steppers idle exactly in a motion state, and
    leaves posted: the e-stop alarm when the e-stop input is
    asserted; otherwise, in a motion state, the abort-cycle alarm, or
    during homing the homing-fail-reset alarm unless an alarm is already
    pending; otherwise the alarm that was pending before. *)
Theorem mc_reset_alarm (w : world E) :
  bit_isfalse (sys_rt_exec_state (mach w)) EXEC_RESET = true ->
  exists w',
    result (mc_reset w) = Done tt w' /\
    sys_rt_exec_alarm (mach w') =
      reset_alarm (hal_e_stop hal (env (mach w'))) (sys (mach w))
                  (sys_rt_exec_alarm (mach w)) /\
    stepper_killed (events (mc_reset w)) = in_motion (sys (mach w)) /\
    In (EvSpindleSetState spindle_off F32.zero) (events (mc_reset w)) /\
    In EvCoolantOff (events (mc_reset w)).
Proof.
  intros Hpend.
  change (wp mc_reset
            (fun evs o => exists w',
               o = Done tt w' /\
               sys_rt_exec_alarm (mach w') =
                 reset_alarm (hal_e_stop hal (env (mach w'))) (sys (mach w))
                             (sys_rt_exec_alarm (mach w)) /\
               stepper_killed evs = in_motion (sys (mach w)) /\
               In (EvSpindleSetState spindle_off F32.zero) evs /\
               In EvCoolantOff evs) w).
  unfold mc_reset. wp_run. rewrite Hpend.
  unfold system_set_exec_state_flag, system_set_exec_alarm. wp_run.
  assert (Hmot : forall s,
            negb (Z.land (state_code (sys_state s))
                         (Z.lor (Z.lor (state_code STATE_CYCLE) (state_code STATE_HOMING))
                                (state_code STATE_JOG)) =? 0)
            || sys_execute_hold s || sys_execute_sys_motion s = in_motion s).
  { intros s. unfold in_motion. destruct (sys_state s); reflexivity. }
  repeat first
    [ wp_step
    | rewrite Hmot
    | match goal with
      | |- wp (match ?x with _ => _ end) _ _ => destruct x eqn:?
      end ].
  all: eexists; (split; [reflexivity|]).
  all: cbn [mach set_mach sys set_env set_exec_state set_exec_alarm sys_rt_exec_alarm env] in *.
  all: clear Hmot Hpend.
  all: repeat match goal with
              | H : hal_e_stop _ _ = _ |- _ => rewrite H; clear H
              end.
  all: repeat match goal with
              | H : _ = true |- _ => revert H
              | H : _ = false |- _ => revert H
              end.
  all: unfold reset_alarm, in_motion, state_eqb.
  all: destruct (sys_state (sys (mach w))), (sys_execute_hold (sys (mach w))),
         (sys_execute_sys_motion (sys (mach w)));
       cbn [orb negb state_code Z.eqb bit Z.shiftl Z.of_nat Pos.of_succ_nat Pos.succ
            Pos.iter Pos.eqb alarm_is_none];
       intros; try discriminate.
  all: repeat match goal with
              | H : alarm_is_none _ = _ |- _ => rewrite H
              end.
  all: (split; [reflexivity|]).
  all: (split; [reflexivity|]).
  all: simpl; tauto.
Qed.

(** * Further properties of homing *)

(** The loop over the configured cycles runs them in order, skipping
    the empty ones, and stops after the first one that fails. *)
Lemma homing_cycles_run n idx cycle (w : world E) :
  wp (homing_cycles n idx cycle)
     (fun evs o =>
        exists moves rest,
          evs = map go_home_event moves /\
          configured_cycles idx n = map fst moves ++ rest /\
          forallb snd (removelast moves) = true /\
          match o with
          | Done c w' =>
              c = last (map fst moves) cycle /\
              (forallb snd moves = true -> rest = [])
          | Hang _ => True
          end) w.
Proof.
  revert idx cycle w. induction n as [|n IH]; intros idx cycle w.
  - simpl. wp_run. exists [], []. simpl. auto.
  - cbn [homing_cycles]. unfold configured_cycles. cbn [seq map filter].
    fold (configured_cycles (S idx) n).
    destruct (negb (nth idx (homing_cycle settings) 0 =? 0)) eqn:Hm.
    + unfold go_home. wp_step. wp_step. apply wp_service.
      destruct (limits_go_home fw (nth idx (homing_cycle settings) 0) (mach w))
        as [[ok m]|].
      * wp_run. destruct ok.
        -- eapply wp_conseq; [apply IH|].
           intros evs o (moves & rest & -> & Hcfg & Hall & Ho).
           exists ((nth idx (homing_cycle settings) 0, true) :: moves), rest.
           split; [reflexivity|]. split; [simpl; rewrite Hcfg; reflexivity|].
           split.
           { destruct moves as [|m0 moves]; [reflexivity|].
             cbn [removelast forallb snd andb] in *. exact Hall. }
           destruct o as [c w'|w']; [|exact I].
           destruct Ho as [Hc Hrest]. split.
           { destruct moves as [|m0 moves]; [exact Hc|].
             rewrite Hc.
             change (last (fst m0 :: map fst moves) (nth idx (homing_cycle settings) 0)
                     = last (fst m0 :: map fst moves) cycle).
             apply last_cons_default. }
           { simpl. exact Hrest. }
        -- wp_run. exists [(nth idx (homing_cycle settings) 0, false)],
             (configured_cycles (S idx) n).
           simpl. repeat split; auto. discriminate.
      * exists [], (nth idx (homing_cycle settings) 0 :: configured_cycles (S idx) n).
        simpl. auto.
    + eapply wp_conseq; [apply IH|]. intros evs o H. exact H.
Qed.

Lemma homing_moves_map moves r :
  homing_moves (map go_home_event moves ++ r) = moves ++ homing_moves r.
Proof.
  induction moves as [|[c ok] moves IH]; simpl; [reflexivity|].
  rewrite IH. reflexivity.
Qed.

Lemma configured_nonzero idx n c : In c (configured_cycles idx n) -> c <> 0.
Proof.
  unfold configured_cycles. intros H. apply filter_In in H. destruct H as [_ H].
  apply negb_true_iff, Z.eqb_neq in H. exact H.
Qed.

Lemma mc_homing_cycle_run cycle (w : world E) :
  two_switches settings && negb (hal_limits_get_state hal (env (mach w)) =? 0) = false ->
  wp (mc_homing_cycle cycle)
     (fun evs o =>
        forall st w', o = Done st w' ->
        exists moves,
          evs = EvLimitsEnable false true :: map go_home_event moves
                ++ homing_epilogue (negb (last (map fst moves) cycle =? 0)) st /\
          (cycle <> 0 -> map fst moves = [cycle]) /\
          (cycle = 0 ->
           exists rest,
             configured_cycles 0 (Nat.max 1 (N_AXIS cfg)) = map fst moves ++ rest /\
             forallb snd (removelast moves) = true /\
             (forallb snd moves = true -> rest = [])) /\
          (st = Status_Unhandled ->
           ABORTED fw (sys (mach w')) = true /\ last (map fst moves) cycle <> 0) /\
          (st <> Status_Unhandled ->
           sys_report_homed (sys (mach w')) = true /\
           st = if hard_enabled settings && check_at_init settings
                   && negb (hal_limits_get_state hal (env (mach w')) =? 0)
                then Status_LimitsEngaged else Status_OK)) w.
Proof.
  intros Hsw. unfold mc_homing_cycle. wp_run. rewrite Hsw. wp_run.
  (* the homing moves *)
  assert (Hmoves :
    wp (if negb (cycle =? 0)
        then go_home cycle ;; ret cycle
        else modify_sys (set_sys_homed_mask 0) ;;
             homing_cycles (Nat.max 1 (N_AXIS cfg)) 0 cycle)
       (fun evs o =>
          exists moves,
            evs = map go_home_event moves /\
            (cycle <> 0 -> map fst moves = [cycle] \/ exists w1, o = Hang w1) /\
            (cycle = 0 ->
             exists rest,
               configured_cycles 0 (Nat.max 1 (N_AXIS cfg)) = map fst moves ++ rest /\
               forallb snd (removelast moves) = true /\
               forall c w1, o = Done c w1 -> forallb snd moves = true -> rest = []) /\
            forall c w1, o = Done c w1 -> c = last (map fst moves) cycle)
       (set_mach (set_env (hal_limits_enable hal false true (env (mach w))) (mach w)) w)).
  { destruct (cycle =? 0) eqn:Hc; cbn [negb].
    - apply Z.eqb_eq in Hc. wp_step. wp_step.
      eapply wp_conseq; [apply homing_cycles_run|].
      intros evs o (moves & rest & -> & Hcfg & Hall & Ho).
      exists moves. split; [reflexivity|]. split; [intros Hne; contradiction|].
      split.
      + intros _. exists rest. split; [exact Hcfg|]. split; [exact Hall|].
        intros c w1 ->. apply Ho.
      + intros c w1 ->. apply Ho.
    - apply Z.eqb_neq in Hc. unfold go_home. wp_step. wp_step.
      apply wp_service.
      destruct (limits_go_home fw cycle _) as [[ok m]|].
      + wp_run. exists [(cycle, ok)]. simpl. repeat split; auto.
        * intros Hz. contradiction.
        * intros c w1 Hd. injection Hd as <- _. reflexivity.
      + exists []. simpl. repeat split; eauto.
        * intros Hz. contradiction.
        * intros c w1 Hd. discriminate Hd. }
  eapply wp_conseq; [exact Hmoves|]. clear Hmoves.
  intros evs1 o1 (moves & -> & Hnz & Hz & Hlast).
  destruct o1 as [c w1|w1]; [|intros st w' Hd; discriminate Hd].
  specialize (Hlast c w1 eq_refl). subst c.
  assert (Hnz' : cycle <> 0 -> map fst moves = [cycle]).
  { intros Hc. destruct (Hnz Hc) as [H|[w2 H]]; [exact H|discriminate H]. }
  assert (Hz' : cycle = 0 ->
           exists rest,
             configured_cycles 0 (Nat.max 1 (N_AXIS cfg)) = map fst moves ++ rest /\
             forallb snd (removelast moves) = true /\
             (forallb snd moves = true -> rest = [])).
  { intros Hc. destruct (Hz Hc) as (rest & H1 & H2 & H3).
    exists rest. split; [exact H1|]. split; [exact H2|]. apply (H3 _ _ eq_refl). }
  clear Hnz Hz.
  wp_step.
  destruct (negb (last (map fst moves) cycle =? 0)) eqn:Hran.
  - wp_step. eapply wp_conseq; [apply protocol_execute_realtime_run|].
    intros evs2 [[|] w2|w2] [-> Ho2]; cbn beta iota.
    + wp_run. intros st w' Hd. injection Hd as <- <-.
      exists moves. unfold homing_epilogue. rewrite ?Hran. split.
      { repeat match goal with
               | |- context [if ?b then Status_LimitsEngaged else _] => destruct b
               end; cbn [app]; rewrite <- ?app_assoc; reflexivity. }
      split; [exact Hnz'|]. split; [exact Hz'|]. split.
      { repeat match goal with
               | |- context [if ?b then Status_LimitsEngaged else _] => destruct b
               end; discriminate. }
      intros _. split; reflexivity.
    + wp_run. intros st w' Hd. injection Hd as <- <-.
      exists moves. unfold homing_epilogue. rewrite ?Hran. split.
      { cbn [app]. rewrite <- ?app_assoc. reflexivity. }
      split; [exact Hnz'|]. split; [exact Hz'|]. split.
      { intros _. split.
        - symmetry in Ho2. apply negb_false_iff in Ho2. exact Ho2.
        - apply negb_true_iff, Z.eqb_neq in Hran. exact Hran. }
      intros Hne. contradiction.
    + intros st w' Hd. discriminate Hd.
  - wp_run. intros st w' Hd. injection Hd as <- <-.
    exists moves. unfold homing_epilogue. rewrite ?Hran. split.
    { repeat match goal with
             | |- context [if ?b then Status_LimitsEngaged else _] => destruct b
             end; cbn [app]; rewrite <- ?app_assoc; reflexivity. }
    split; [exact Hnz'|]. split; [exact Hz'|]. split.
    { repeat match goal with
             | |- context [if ?b then Status_LimitsEngaged else _] => destruct b
             end; discriminate. }
    intros _. split; reflexivity.
Qed.

Lemma homing_moves_trace moves ran st :
  homing_moves (EvLimitsEnable false true :: map go_home_event moves
                ++ homing_epilogue ran st) = moves.
Proof.
  cbn [homing_moves]. rewrite homing_moves_map.
  replace (homing_moves (homing_epilogue ran st)) with (@nil (Z * bool)).
  - apply app_nil_r.
  - unfold homing_epilogue. destruct ran, st; reflexivity.
Qed.

Lemma last_in {A} (l : list A) d : l <> [] -> In (last l d) l.
Proof.
  induction l as [|a l IH]; [congruence|]. intros _.
  destruct l as [|b l]; [left; reflexivity|]. right. apply IH. discriminate.
Qed.

Lemma mc_homing_cycle_moves cycle (w w' : world E) st :
  two_switches settings && negb (hal_limits_get_state hal (env (mach w)) =? 0) = false ->
  result (mc_homing_cycle cycle w) = Done st w' ->
  let moves := homing_moves (events (mc_homing_cycle cycle w)) in
  events (mc_homing_cycle cycle w) =
    EvLimitsEnable false true :: map go_home_event moves
    ++ homing_epilogue (negb (length moves =? 0)%nat) st /\
  (cycle <> 0 -> map fst moves = [cycle]) /\
  (cycle = 0 ->
   exists rest,
     configured_cycles 0 (Nat.max 1 (N_AXIS cfg)) = map fst moves ++ rest /\
     forallb snd (removelast moves) = true /\
     (forallb snd moves = true -> rest = [])) /\
  (st = Status_Unhandled -> ABORTED fw (sys (mach w')) = true) /\
  (st <> Status_Unhandled ->
   sys_report_homed (sys (mach w')) = true /\
   st = if hard_enabled settings && check_at_init settings
           && negb (hal_limits_get_state hal (env (mach w')) =? 0)
        then Status_LimitsEngaged else Status_OK).
Proof.
  intros Hsw Hd.
  destruct (mc_homing_cycle_run cycle w Hsw st w' Hd)
    as (moves & Hev & Hnz & Hz & Hun & Hok).
  assert (Hran : negb (last (map fst moves) cycle =? 0) = negb (length moves =? 0)%nat).
  { destruct (Z.eq_dec cycle 0) as [Hc|Hc].
    - destruct (Hz Hc) as (rest & Hcfg & _).
      destruct moves as [|m0 moves]; [subst cycle; reflexivity|].
      cbn [length Nat.eqb negb]. apply negb_true_iff, Z.eqb_neq.
      apply (configured_nonzero 0 (Nat.max 1 (N_AXIS cfg))).
      rewrite Hcfg. apply in_or_app. left. apply last_in. discriminate.
    - rewrite (Hnz Hc). destruct moves; [discriminate (Hnz Hc)|].
      simpl. apply negb_true_iff, Z.eqb_neq. exact Hc. }
  cbv zeta. rewrite Hev, homing_moves_trace, <- Hran.
  split; [reflexivity|]. split; [exact Hnz|]. split; [exact Hz|].
  split; [intros H; apply (Hun H)|exact Hok].
Qed.

(** X10.  A homing cycle that is not refused and returns:
    hard limits are disabled first; then come the homing moves; if any
    move was made, a realtime checkpoint follows and, unless it reports
    an abort, the synchronization of parser and planner positions; hard
    limits are re-enabled by the setting at the very end, but not after
    an aborted checkpoint, which ends the cycle with [Status_Unhandled].
    Otherwise the homed report flag is set, and the result is
    [Status_LimitsEngaged] when hard limits are enabled with the check
    at initialization and a limit input is active, else [Status_OK]. *)
Theorem mc_homing_cycle_trace cycle (w w' : world E) st :
  two_switches settings && negb (hal_limits_get_state hal (env (mach w)) =? 0) = false ->
  result (mc_homing_cycle cycle w) = Done st w' ->
  let moves := homing_moves (events (mc_homing_cycle cycle w)) in
  events (mc_homing_cycle cycle w) =
    EvLimitsEnable false true :: map go_home_event moves
    ++ homing_epilogue (negb (length moves =? 0)%nat) st /\
  (st = Status_Unhandled ->
   moves <> [] /\ ABORTED fw (sys (mach w')) = true) /\
  (st <> Status_Unhandled ->
   sys_report_homed (sys (mach w')) = true /\
   st = if hard_enabled settings && check_at_init settings
           && negb (hal_limits_get_state hal (env (mach w')) =? 0)
        then Status_LimitsEngaged else Status_OK).
Proof.
  intros Hsw Hd.
  destruct (mc_homing_cycle_run cycle w Hsw st w' Hd)
    as (moves0 & Hev0 & _ & _ & Hun0 & _).
  destruct (mc_homing_cycle_moves cycle w w' st Hsw Hd) as (Hev & _ & _ & Hun & Hok).
  cbv zeta. split; [exact Hev|]. split; [|exact Hok].
  intros Hst. split; [|exact (Hun Hst)].
  rewrite Hev0, homing_moves_trace.
  destruct (Hun0 Hst) as [_ Hlast]. intros ->. simpl in Hlast.
  destruct (mc_homing_cycle_moves cycle w w' st Hsw Hd) as (_ & Hnz & _).
  rewrite Hev0, homing_moves_trace in Hnz.
  destruct (Z.eq_dec cycle 0) as [Hc|Hc]; [contradiction|].
  discriminate (Hnz Hc).
Qed.

(** X11.  The homing moves of a cycle that is not
    refused and returns.  With a cycle mask given, one move with that
    mask.  With an empty mask, the cycles configured in the settings at
    indices 0 to [N_AXIS - 1] (at least index 0), in this order and
    without the empty ones: every move but the last one made has
    succeeded, and when all moves made have succeeded, all configured
    cycles were run. *)
Theorem mc_homing_cycle_sequence cycle (w w' : world E) st :
  two_switches settings && negb (hal_limits_get_state hal (env (mach w)) =? 0) = false ->
  result (mc_homing_cycle cycle w) = Done st w' ->
  let moves := homing_moves (events (mc_homing_cycle cycle w)) in
  (cycle <> 0 -> map fst moves = [cycle]) /\
  (cycle = 0 ->
   exists rest,
     configured_cycles 0 (Nat.max 1 (N_AXIS cfg)) = map fst moves ++ rest /\
     forallb snd (removelast moves) = true /\
     (forallb snd moves = true -> rest = [])).
Proof.
  intros Hsw Hd.
  destruct (mc_homing_cycle_moves cycle w w' st Hsw Hd) as (_ & Hnz & Hz & _).
  cbv zeta. split; assumption.
Qed.

(** * Further properties of the realtime command ingest *)

Lemma rt_command_switch_unassigned b (w : world E) :
  assigned_code (cmds cfg) b = false ->
  rt_command_switch b w =
    ([], Done ((char_value b <? 32) || ((127 <=? char_value b) && (char_value b <=? 191))) w).
Proof.
  intros Ha. unfold assigned_code in Ha.
  repeat (apply orb_false_iff in Ha; destruct Ha as [Ha ?]).
  unfold rt_command_switch.
  repeat match goal with H : _ = false |- _ => rewrite H; clear H end.
  reflexivity.
Qed.

Lemma rt_command_legacy_other b (w : world E) :
  legacy_code (cmds cfg) b = false ->
  rt_command_legacy b w = ([], Done (negb (keep_rt_commands w || (b <? 127))) w).
Proof.
  intros Hl. unfold legacy_code in Hl.
  repeat (apply orb_false_iff in Hl; destruct Hl as [Hl ?]).
  unfold rt_command_legacy, bind, gets. cbn [fst snd].
  repeat match goal with H : _ = false |- _ => rewrite H; clear H end.
  reflexivity.
Qed.

(** X12.  A printable ASCII character (0x20 to 0x7E)
    that is neither a command of the first switch nor a legacy command
    is never dropped, and the ingest changes nothing. *)
Theorem ingest_printable b (w : world E) :
  32 <= b < 127 ->
  assigned_code (cmds cfg) b = false ->
  legacy_code (cmds cfg) b = false ->
  protocol_enqueue_realtime_command b w = ([], Done false w).
Proof.
  intros Hb Ha Hl. unfold protocol_enqueue_realtime_command, bind.
  rewrite (rt_command_switch_unassigned b w Ha).
  assert (Hc : char_value b = b).
  { unfold char_value. replace (128 <=? b) with false by (symmetry; apply Z.leb_gt; lia).
    rewrite andb_false_r. reflexivity. }
  rewrite Hc.
  replace (b <? 32) with false by (symmetry; apply Z.ltb_ge; lia).
  replace (127 <=? b) with false by (symmetry; apply Z.leb_gt; lia).
  cbn [orb andb negb]. rewrite (rt_command_legacy_other b w Hl).
  replace (b <? 127) with true by (symmetry; apply Z.ltb_lt; lia).
  rewrite orb_true_r. reflexivity.
Qed.

(** X13.  A byte from 0xC0 to 0xFF without a function
    assigned changes nothing.  Where plain [char] is unsigned it is
    dropped unless realtime commands are being kept (inside a [$]
    command or a comment); where plain [char] is signed it compares
    below the space character and is always dropped. *)
Theorem ingest_top_bit b (w : world E) :
  192 <= b < 256 ->
  assigned_code (cmds cfg) b = false ->
  legacy_code (cmds cfg) b = false ->
  protocol_enqueue_realtime_command b w =
    ([], Done (if char_signed cfg then true else negb (keep_rt_commands w)) w).
Proof.
  intros Hb Ha Hl. unfold protocol_enqueue_realtime_command, bind.
  rewrite (rt_command_switch_unassigned b w Ha).
  unfold char_value.
  replace (128 <=? b) with true by (symmetry; apply Z.leb_le; lia).
  rewrite andb_true_r. destruct (char_signed cfg).
  - replace (b - 256 <? 32) with true by (symmetry; apply Z.ltb_lt; lia).
    reflexivity.
  - replace (b <? 32) with false by (symmetry; apply Z.ltb_ge; lia).
    replace (b <=? 191) with false by (symmetry; apply Z.leb_gt; lia).
    rewrite andb_false_r. cbn [orb negb].
    rewrite (rt_command_legacy_other b w Hl).
    replace (b <? 127) with false by (symmetry; apply Z.ltb_ge; lia).
    rewrite orb_false_r. reflexivity.
Qed.

(** X14.  A legacy command character ([?], [~] or [!])
    that is not a command of the first switch: while realtime commands
    are being kept and the legacy commands are not enabled in the
    settings, it is returned to the input stream and nothing changes;
    otherwise it is dropped and raises its flag in the realtime event
    register, changing nothing else but, for a cycle start, the pending
    tool change, which it cancels. *)
Theorem ingest_legacy b (w : world E) :
  32 <= b < 127 ->
  assigned_code (cmds cfg) b = false ->
  legacy_code (cmds cfg) b = true ->
  protocol_enqueue_realtime_command b w =
    if keep_rt_commands w && negb (legacy_rt_commands settings)
    then ([], Done false w)
    else ([], Done true
                (set_mach
                   ((if legacy_flag (cmds cfg) b =? EXEC_CYCLE_START
                     then set_tool_change false else fun m => m)
                      (set_exec_state
                         (Z.lor (sys_rt_exec_state (mach w)) (legacy_flag (cmds cfg) b))
                         (mach w))) w)).
Proof.
  intros Hb Ha Hl. unfold protocol_enqueue_realtime_command, bind.
  rewrite (rt_command_switch_unassigned b w Ha).
  assert (Hc : char_value b = b).
  { unfold char_value. replace (128 <=? b) with false by (symmetry; apply Z.leb_gt; lia).
    rewrite andb_false_r. reflexivity. }
  rewrite Hc.
  replace (b <? 32) with false by (symmetry; apply Z.ltb_ge; lia).
  replace (127 <=? b) with false by (symmetry; apply Z.leb_gt; lia).
  cbn [orb andb negb].
  unfold rt_command_legacy, legacy_flag, legacy_code in *.
  unfold bind, gets, system_set_exec_state_flag, modify_mach, modify, ret.
  cbn [fst snd].
  destruct (keep_rt_commands w), (legacy_rt_commands settings); cbn [negb orb andb];
    destruct (b =? CMD_STATUS_REPORT_LEGACY (cmds cfg));
    try reflexivity;
    destruct (b =? CMD_CYCLE_START_LEGACY (cmds cfg));
    try reflexivity;
    destruct (b =? CMD_FEED_HOLD_LEGACY (cmds cfg));
    try reflexivity; try discriminate Hl.
Qed.

(** X15.  The reset command is always dropped.  While the
    e-stop input is asserted it is ignored: nothing changes.  Otherwise
    the ingest does exactly what [mc_reset] does. *)
Theorem ingest_reset b (w : world E) :
  b = CMD_RESET (cmds cfg) ->
  b <> 10 -> b <> 13 -> b <> CMD_STOP (cmds cfg) ->
  exists w1,
    result (mc_reset w) = Done tt w1 /\
    protocol_enqueue_realtime_command b w =
      if hal_e_stop hal (env (mach w))
      then ([], Done true w)
      else (events (mc_reset w), Done true w1).
Proof.
  intros Hb H10 H13 Hstop.
  destruct (mc_reset_spec w) as (w1 & Hres & _).
  exists w1. split; [exact Hres|].
  unfold protocol_enqueue_realtime_command, rt_command_switch.
  apply Z.eqb_neq in H10, H13, Hstop. rewrite H10, H13, Hstop.
  rewrite <- Hb, Z.eqb_refl. cbn [orb].
  unfold bind at 1 2 3, ask, gets. cbn [fst snd].
  destruct (hal_e_stop hal (env (mach w))); cbn [negb].
  - reflexivity.
  - unfold bind, ret. destruct (mc_reset w) as [evs o]. cbn [result snd] in Hres.
    subst o. cbn [events fst negb app]. rewrite !app_nil_r. reflexivity.
Qed.

(** X16.  The ingest of any byte returns, commands no
    motion, and never clears a flag that is pending in the realtime
    event register. *)
Theorem ingest_returns b (w : world E) :
  exists drop w',
    result (protocol_enqueue_realtime_command b w) = Done drop w' /\
    (forall mask, bit_istrue (sys_rt_exec_state (mach w)) mask = true ->
                  bit_istrue (sys_rt_exec_state (mach w')) mask = true) /\
    pushes (events (protocol_enqueue_realtime_command b w)) = [] /\
    mc_line_calls (events (protocol_enqueue_realtime_command b w)) = [] /\
    homing_calls (events (protocol_enqueue_realtime_command b w)) = [].
Proof.
  change (wp (protocol_enqueue_realtime_command b)
            (fun evs o => exists drop w',
               o = Done drop w' /\
               (forall mask, bit_istrue (sys_rt_exec_state (mach w)) mask = true ->
                             bit_istrue (sys_rt_exec_state (mach w')) mask = true) /\
               pushes evs = [] /\ mc_line_calls evs = [] /\ homing_calls evs = []) w).
  unfold protocol_enqueue_realtime_command, rt_command_switch, rt_command_legacy,
    set_report_all, system_set_exec_state_flag.
  repeat first
    [ wp_step
    | match goal with
      | |- wp mc_reset _ _ =>
          eapply wp_conseq; [apply mc_reset_spec|];
          let evs := fresh "evs" in let o := fresh "o" in
          let w1 := fresh "w1" in
          let Hm := fresh "Hmono" in let Hp := fresh "Hp" in
          let Hc := fresh "Hc" in let Hh := fresh "Hh" in
          intros evs o (w1 & -> & _ & _ & Hm & Hp & Hc & Hh); cbn beta iota
      | |- wp (if ?c then _ else _) _ _ => destruct c
      end ].
  all: eexists; eexists; (split; [reflexivity|]).
  all: cbn [mach set_mach sys_rt_exec_state set_exec_state set_sys set_env set_tool_change
            set_char_counter].
  all: rewrite ?pushes_app, ?mc_line_calls_app, ?homing_calls_app.
  all: repeat match goal with
              | H : pushes _ = [] |- _ => rewrite H
              | H : mc_line_calls _ = [] |- _ => rewrite H
              | H : homing_calls _ = [] |- _ => rewrite H
              end.
  all: (split; [|simpl; auto]).
  all: intros mask Hmask; repeat apply bit_istrue_lor_keep; auto.
Qed.

(** * Abort ends arcs and threads *)

Lemma stops_app a b :
  stops_at_failure a -> stops_at_failure b ->
  (In (EvMcLineRet false) a -> mc_line_calls b = []) ->
  stops_at_failure (a ++ b).
Proof.
  intros Ha Hb Hab pre post Heq.
  apply app_eq_app in Heq. destruct Heq as [l [[-> Heq]|[-> Heq]]].
  - destruct l as [|ev l].
    + simpl in Heq. subst b. apply (Hb [] post). reflexivity.
    + simpl in Heq. injection Heq as <- ->.
      rewrite mc_line_calls_app, (Ha pre l eq_refl). simpl.
      apply Hab. apply in_or_app. right. left. reflexivity.
  - apply (Hb l post). exact Heq.
Qed.

Lemma stops_no_failure evs : ~ In (EvMcLineRet false) evs -> stops_at_failure evs.
Proof.
  intros H pre post ->. exfalso. apply H. apply in_or_app. right. left. reflexivity.
Qed.

Lemma stops_no_line evs : forallb not_line evs = true -> stops_at_failure evs.
Proof.
  intros H pre post ->. rewrite forallb_app in H. apply andb_true_iff in H.
  destruct H as [_ H]. simpl in H. discriminate H.
Qed.

Lemma no_line_no_failure evs :
  forallb not_line evs = true -> ~ In (EvMcLineRet false) evs.
Proof.
  intros H Hin. rewrite forallb_forall in H. specialize (H _ Hin). discriminate H.
Qed.

(** One call of [mc_line]: its events hold a failed return exactly when
    it returns [false]. *)
Lemma mc_line_stops fuel target pl (w : world E) :
  stops_at_failure (events (mc_line fuel target pl w)) /\
  (In (EvMcLineRet false) (events (mc_line fuel target pl w)) ->
   exists w', result (mc_line fuel target pl w) = Done false w').
Proof.
  destruct (mc_line_unfold fuel target pl w) as [He Hr]. rewrite He, Hr.
  pose proof (mc_line_body_no_line fuel target pl w) as Hb.
  destruct (result (mc_line_body fuel target pl w)) as [b w'|w'].
  - split.
    + change (stops_at_failure ([EvMcLine target pl] ++
                events (mc_line_body fuel target pl w) ++ [EvMcLineRet b])).
      apply stops_app;
        [apply stops_no_failure; intros [H|[]]; discriminate H|
        |intros [H|[]]; discriminate H].
      apply stops_app; [apply stops_no_line; exact Hb| |].
      * intros pre post Heq. destruct pre as [|ev pre].
        -- injection Heq as _ <-. reflexivity.
        -- injection Heq as _ Heq. destruct pre; discriminate Heq.
      * intros Hin. exfalso. exact (no_line_no_failure _ Hb Hin).
    + intros [H|Hin]; [discriminate H|].
      apply in_app_or in Hin. destruct Hin as [Hin|[Hin|[]]].
      * exfalso. exact (no_line_no_failure _ Hb Hin).
      * injection Hin as ->. exists w'. reflexivity.
  - split.
    + change (stops_at_failure ([EvMcLine target pl] ++
                events (mc_line_body fuel target pl w) ++ [])).
      rewrite app_nil_r.
      apply stops_app;
        [apply stops_no_failure; intros [H|[]]; discriminate H|
        |intros [H|[]]; discriminate H].
      apply stops_no_line. exact Hb.
    + intros [H|Hin]; [discriminate H|]. rewrite app_nil_r in Hin.
      exfalso. exact (no_line_no_failure _ Hb Hin).
Qed.

Lemma halts_ret {X} (b : bool) (s : X) (w : world E) :
  wp (ret (b, s)) halts_on_failure w.
Proof.
  split; [intros pre post H; destruct pre; discriminate H|intros []].
Qed.

Lemma halts_emit_line {X} fuel target pl (s : X) (w : world E) :
  wp (ok <- mc_line fuel target pl ;; ret (ok, s)) halts_on_failure w.
Proof.
  unfold wp. rewrite bind_events, bind_result.
  destruct (mc_line_stops fuel target pl w) as [Hs Hf].
  destruct (result (mc_line fuel target pl w)) as [ok w'|w'] eqn:Hr; cbn [ret events result fst snd].
  - rewrite app_nil_r. split; [exact Hs|].
    intros Hin. destruct (Hf Hin) as [w2 H2]. injection H2 as -> _. exact I.
  - rewrite app_nil_r. split; [exact Hs|]. intros _. exact I.
Qed.

(** A step that may leave the function, followed by further steps. *)
Lemma halts_then {X Y} (c : @M E (bool * X)) (k : X -> @M E (bool * Y))
    (z : bool * X -> bool * Y) (w : world E) :
  wp c halts_on_failure w ->
  (forall s w', wp (k s) halts_on_failure w') ->
  (forall r, fst r = false -> fst (z r) = false) ->
  wp (r <- c ;; if fst r then k (snd r) else ret (z r)) halts_on_failure w.
Proof.
  unfold wp. intros [Hs Hf] Hk Hz. rewrite bind_events, bind_result.
  destruct (result (c w)) as [[[|] s] w'|w']; cbn [fst snd].
  - destruct (Hk s w') as [Hs' Hf']. split.
    + apply stops_app; [exact Hs|exact Hs'|]. intros Hin. destruct (Hf Hin).
    + intros Hin. apply in_app_or in Hin. destruct Hin as [Hin|Hin].
      * destruct (Hf Hin).
      * exact (Hf' Hin).
  - cbn [ret events result fst snd]. rewrite app_nil_r. split; [exact Hs|].
    intros _. specialize (Hz (false, s) eq_refl).
    destruct (z (false, s)) as [[|] y]; [discriminate Hz|exact I].
  - rewrite app_nil_r. split; [exact Hs|]. intros _. exact I.
Qed.

(** Steps that do not enter [mc_line], followed by further steps. *)
Lemma halts_after {A X} (c : @M E A) (k : A -> @M E (bool * X)) (w : world E) :
  emits_only not_line c ->
  (forall a w', wp (k a) halts_on_failure w') ->
  wp (bind c k) halts_on_failure w.
Proof.
  unfold wp. intros Hc Hk. rewrite bind_events, bind_result.
  specialize (Hc w).
  destruct (result (c w)) as [a w'|w'].
  - destruct (Hk a w') as [Hs Hf]. split.
    + apply stops_app; [apply stops_no_line; exact Hc|exact Hs|].
      intros Hin. exfalso. exact (no_line_no_failure _ Hc Hin).
    + intros Hin. apply in_app_or in Hin. destruct Hin as [Hin|Hin].
      * exfalso. exact (no_line_no_failure _ Hc Hin).
      * exact (Hf Hin).
  - rewrite app_nil_r. split; [apply stops_no_line; exact Hc|]. intros _. exact I.
Qed.

(** A call of [mc_line] whose failure leaves the function. *)
Lemma halts_line_if {X} fuel target pl (c : @M E (bool * X)) (s : X) (w : world E) :
  (forall w', wp c halts_on_failure w') ->
  wp (ok <- mc_line fuel target pl ;; if ok then c else ret (false, s))
     halts_on_failure w.
Proof.
  unfold wp. intros Hc. rewrite bind_events, bind_result.
  destruct (mc_line_stops fuel target pl w) as [Hs Hf].
  destruct (result (mc_line fuel target pl w)) as [[|] w'|w'] eqn:Hr.
  - destruct (Hc w') as [Hs' Hf']. split.
    + apply stops_app; [exact Hs|exact Hs'|].
      intros Hin. destruct (Hf Hin) as [w2 H2]. discriminate H2.
    + intros Hin. apply in_app_or in Hin. destruct Hin as [Hin|Hin].
      * destruct (Hf Hin) as [w2 H2]. discriminate H2.
      * exact (Hf' Hin).
  - cbn [ret events result fst snd]. rewrite app_nil_r. split; [exact Hs|].
    intros _. exact I.
  - rewrite app_nil_r. split; [exact Hs|]. intros _. exact I.
Qed.

Lemma arc_loop_halts fuel step pl n i s (w : world E) :
  wp (arc_loop fuel step pl n i s) halts_on_failure w.
Proof.
  revert i s w. induction n as [|n IH]; intros i s w; cbn [arc_loop].
  - apply halts_ret.
  - apply halts_line_if. intros w'. apply IH.
Qed.

(** X17.  In every run of [mc_arc], a call of [mc_line] that
    returns [false] is the last one: the arc is abandoned, without the
    remaining segments and without the final move to the target. *)
Theorem mc_arc_stops fuel target pl position offset radius plane cw (w : world E) :
  stops_at_failure
    (events (mc_arc fuel target pl position offset radius plane cw w)).
Proof.
  unfold mc_arc.
  set (segments := arc_segments _ radius). clearbody segments.
  destruct (negb (segments =? 0)).
  - set (pl' := if inverse_time pl then _ else pl). clearbody pl'.
    set (step := arc_step _ _ _ _ _ _). clearbody step.
    set (s0 := Build_arc_state _ _ _ _). clearbody s0.
    rewrite bind_events.
    destruct (arc_loop_halts fuel step pl' (Z.to_nat (segments - 1)) 1 s0 w) as [Hs Hf].
    destruct (result (arc_loop fuel step pl' (Z.to_nat (segments - 1)) 1 s0 w))
      as [[[|] s'] w'|w'].
    + apply stops_app; [exact Hs| |intros Hin; destruct (Hf Hin)].
      rewrite bind_events.
      destruct (mc_line_stops fuel target pl' w') as [Hs' _].
      destruct (result (mc_line fuel target pl' w')); cbn [ret events fst];
        rewrite app_nil_r; exact Hs'.
    + cbn [ret events fst]. rewrite app_nil_r. exact Hs.
    + rewrite app_nil_r. exact Hs.
  - rewrite bind_events.
    destruct (mc_line_stops fuel target pl w) as [Hs' _].
    destruct (result (mc_line fuel target pl w)); cbn [ret events fst];
      rewrite app_nil_r; exact Hs'.
Qed.

Lemma halts_andthen (c : @M E (bool * thread_state)) k (w : world E) :
  wp c halts_on_failure w ->
  (forall s w', wp (k s) halts_on_failure w') ->
  wp (andthen c k) halts_on_failure w.
Proof.
  intros Hc Hk. unfold andthen.
  apply (halts_then c k (fun r => r)); [exact Hc|exact Hk|].
  intros r Hr. exact Hr.
Qed.

Lemma ts_emit_halts fuel s (w : world E) : wp (ts_emit fuel s) halts_on_failure w.
Proof. unfold ts_emit, ts_line. apply halts_emit_line. Qed.

Ltac halts_steps :=
  repeat first
    [ apply halts_andthen; [|intros ? ?]
    | apply halts_after; [apply mc_dwell_no_line|intros ? ?]
    | apply ts_emit_halts
    | apply halts_ret
    | match goal with |- wp (if ?b then _ else _) _ _ => destruct b end
    | progress cbv zeta ].

Lemma thread_pass_halts fuel position thread tl inf inv fhd passes s (w : world E) :
  wp (thread_pass fuel position thread tl inf inv fhd passes s) halts_on_failure w.
Proof.
  unfold thread_pass, ts_skip. halts_steps.
Qed.

Lemma thread_loop_halts pass n s (w : world E) :
  (forall k s' w', wp (pass k s') halts_on_failure w') ->
  wp (thread_loop pass n s) halts_on_failure w.
Proof.
  intros Hp. revert s w. induction n as [|n IH]; intros s w; cbn [thread_loop].
  - apply halts_ret.
  - apply halts_andthen; [apply Hp|]. intros s' w'. apply IH.
Qed.

(** X18.  In every run of [mc_thread], a call of [mc_line]
    that returns [false] is the last one: the thread is abandoned
    without any further move. *)
Theorem mc_thread_stops fuel pl position thread feed_hold_disabled (w : world E) :
  stops_at_failure
    (events (mc_thread fuel pl position thread feed_hold_disabled w)).
Proof.
  unfold mc_thread.
  destruct (mc_thread_setup fuel position thread) as [su|].
  2:{ intros pre post H. destruct pre; discriminate H. }
  cbv zeta. rewrite bind_events.
  match goal with
  | |- stops_at_failure (events (?c w) ++ _) =>
      assert (Hc : wp c halts_on_failure w)
  end.
  { apply halts_andthen.
    - destruct (F32.ne (su_infeed_factor su) F32.zero);
        [apply ts_emit_halts|apply halts_ret].
    - intros s w'. apply thread_loop_halts. intros k s' w''.
      apply thread_pass_halts. }
  destruct Hc as [Hs _].
  match goal with
  | |- stops_at_failure (_ ++ match ?r with _ => _ end) => destruct r
  end; cbn [ret events fst]; rewrite app_nil_r; exact Hs.
Qed.

(** * The request of the segments of an arc *)



End Properties.

(** * The claims on the reference platform *)

Section Instances.
Import Examples.
#[local] Existing Instance Bench.platform0.



(** C2 on the first move of S3: X backlash 0.1 with the X direction
    negative, move to X = 5; a backlash move to X = 0.1 comes first. *)
Lemma mc_line_backlash_before_move_witness :
  map fst (pushes (events (mc_line 3 (Bench.v3 5 0 0) Bench.feed600 idle))) =
    [[F32.lit 13421773 (-27); F32.zero; F32.zero]; Bench.v3 5 0 0] /\
  exists bl us,
    pushes (events (mc_line 3 (Bench.v3 5 0 0) Bench.feed600 idle)) = bl ++ us /\
    (bl = [] \/ exists tp, bl = [(tp, backlash_request Bench.feed600)]) /\
    (us = [] \/ us = [(Bench.v3 5 0 0, Bench.feed600)]) /\
    (same_target (N_AXIS cfg) (Bench.v3 5 0 0) (target_prev idle) -> bl = []) /\
    rapid_motion (backlash_request Bench.feed600) = true /\
    backlash_motion (backlash_request Bench.feed600) = true.
Proof.
  split; [vm_compute; reflexivity|].
  exact (mc_line_backlash_before_move 3 (Bench.v3 5 0 0) Bench.feed600 idle).
Defined.











(** C8 on the default command codes: a line feed passes, the unassigned
    control byte 0x01 is dropped. *)
Lemma ingest_drops_witness :
  legacy_printable (cmds cfg) /\
  protocol_enqueue_realtime_command 10 idle = ([], Done false idle) /\
  protocol_enqueue_realtime_command 1 idle = ([], Done true idle).
Proof.
  assert (Hl : legacy_printable (cmds cfg)) by (unfold legacy_printable; simpl; lia).
  split; [exact Hl|]. split.
  - apply (ingest_drops 10 idle Hl). left. reflexivity.
  - apply (ingest_drops 1 idle Hl); [lia|lia|reflexivity].
Defined.

(** C9 with the X limit input active. *)
Lemma mc_homing_cycle_two_switches_witness :
  two_switches settings = true /\
  hal_limits_get_state hal (env (mach on_limit)) <> 0 /\
  exists w', result (mc_homing_cycle 0 on_limit) = Done Status_Unhandled w' /\
             sys_rt_exec_alarm (mach w') = Alarm_HardLimit /\
             homing_calls (events (mc_homing_cycle 0 on_limit)) = [].
Proof.
  assert (H2 : two_switches settings = true) by reflexivity.
  assert (Hl : hal_limits_get_state hal (env (mach on_limit)) <> 0)
    by (vm_compute; discriminate).
  split; [exact H2|]. split; [exact Hl|].
  destruct (mc_homing_cycle_two_switches 0 on_limit H2 Hl)
    as (w1 & w' & _ & _ & Hres & _ & _ & Halarm & Hhome & _).
  exists w'. split; [exact Hres|]. split; [exact Halarm|exact Hhome].
Defined.

(** C10: under abort nothing happens; otherwise the reference planner
    accepts the line and the parking motion is set up. *)
Lemma mc_parking_motion_outcomes_witness :
  mc_parking_motion (Bench.v3 0 0 5) Bench.feed600 checking_aborted
    = ([], Done false checking_aborted) /\
  exists w', result (mc_parking_motion (Bench.v3 0 0 5) Bench.feed600 idle) = Done true w' /\
             sys_execute_sys_motion (sys (mach w')) = true.
Proof.
  split.
  - apply (mc_parking_motion_outcomes (Bench.v3 0 0 5) Bench.feed600 checking_aborted).
    reflexivity.
  - destruct (mc_parking_motion_outcomes (Bench.v3 0 0 5) Bench.feed600 idle)
      as (_ & _ & Hacc).
    destruct (Hacc eq_refl eq_refl) as (_ & w' & Hres & _ & Hflag & _).
    exists w'. split; [exact Hres|exact Hflag].
Defined.

End Instances.

(** * Further properties on the reference platform *)

Section FurtherInstances.
Import Examples.
#[local] Existing Instance Bench.platform0.

(** X1 on a feed move from rest: it returns [true] and the
    system is not aborted. *)
Lemma mc_line_result_witness :
  result (mc_line 10 (Bench.v3 1 0 0) Bench.feed600 idle)
    = Done true (final (result (mc_line 10 (Bench.v3 1 0 0) Bench.feed600 idle))) /\
  true = negb (ABORTED fw (sys (mach
           (final (result (mc_line 10 (Bench.v3 1 0 0) Bench.feed600 idle)))))).
Proof.
  assert (H : result (mc_line 10 (Bench.v3 1 0 0) Bench.feed600 idle)
              = Done true (final (result (mc_line 10 (Bench.v3 1 0 0) Bench.feed600 idle))))
    by (vm_compute; reflexivity).
  split; [exact H|].
  exact (mc_line_result 10 (Bench.v3 1 0 0) Bench.feed600 idle _ true H).
Defined.

(** X2 on the same move: X reverses, so a backlash move
    precedes the user's move. *)
Lemma mc_line_true_iff_pushed_witness :
  exists bl,
    pushes (events (mc_line 10 (Bench.v3 1 0 0) Bench.feed600 idle)) =
      bl ++ [(Bench.v3 1 0 0, Bench.feed600)] /\
    (bl = [] \/ exists tp, bl = [(tp, backlash_request Bench.feed600)]).
Proof.
  refine (mc_line_true_iff_pushed 10 (Bench.v3 1 0 0) Bench.feed600 idle idle
            (final (result (mc_line 10 (Bench.v3 1 0 0) Bench.feed600 idle))) true
            eq_refl _ _).
  - discriminate.
  - vm_compute. reflexivity.
Defined.

(** X5: the move to (1,0,0) issued twice. *)
Lemma mc_line_repeat_no_backlash_witness :
  let w1 := final (result (mc_line 10 (Bench.v3 1 0 0) Bench.feed600 idle)) in
  pushes (events (mc_line 10 (Bench.v3 1 0 0) Bench.feed600 w1)) = [] \/
  pushes (events (mc_line 10 (Bench.v3 1 0 0) Bench.feed600 w1))
    = [(Bench.v3 1 0 0, Bench.feed600)].
Proof.
  refine (mc_line_repeat_no_backlash 10 (Bench.v3 1 0 0) Bench.feed600 idle idle
            (final (result (mc_line 10 (Bench.v3 1 0 0) Bench.feed600 idle)))
            10 Bench.feed600 eq_refl _ _ _).
  - discriminate.
  - vm_compute. reflexivity.
  - vm_compute. lia.
Defined.

(** X9 during a cycle: the steppers are forced idle and
    the abort-cycle alarm is posted. *)
Lemma mc_reset_alarm_witness :
  let w := Bench.world0 STATE_CYCLE false 200 0 in
  reset_alarm false (sys (mach w)) Alarm_None = Alarm_AbortCycle /\
  exists w',
    result (mc_reset w) = Done tt w' /\
    sys_rt_exec_alarm (mach w') =
      reset_alarm (hal_e_stop hal (env (mach w'))) (sys (mach w))
                  (sys_rt_exec_alarm (mach w)) /\
    stepper_killed (events (mc_reset w)) = in_motion (sys (mach w)) /\
    In (EvSpindleSetState spindle_off F32.zero) (events (mc_reset w)) /\
    In EvCoolantOff (events (mc_reset w)).
Proof.
  split; [reflexivity|].
  exact (mc_reset_alarm (Bench.world0 STATE_CYCLE false 200 0) eq_refl).
Defined.

(** X10 on the reference platform: the configured cycles
    4 and 3 run and the cycle ends with [Status_OK]. *)
Lemma mc_homing_cycle_trace_witness :
  let run := mc_homing_cycle 0 idle in
  let moves := homing_moves (events run) in
  moves = [(4, true); (3, true)] /\
  events run =
    EvLimitsEnable false true :: map go_home_event moves
    ++ homing_epilogue (negb (length moves =? 0)%nat) Status_OK /\
  (Status_OK = Status_Unhandled ->
   moves <> [] /\ ABORTED fw (sys (mach (final (result run)))) = true) /\
  (Status_OK <> Status_Unhandled ->
   sys_report_homed (sys (mach (final (result run)))) = true /\
   Status_OK = if hard_enabled settings && check_at_init settings
                  && negb (hal_limits_get_state hal (env (mach (final (result run)))) =? 0)
               then Status_LimitsEngaged else Status_OK).
Proof.
  cbv zeta. split; [vm_compute; reflexivity|].
  refine (mc_homing_cycle_trace 0 idle (final (result (mc_homing_cycle 0 idle)))
            Status_OK eq_refl _).
  vm_compute. reflexivity.
Defined.

(** X11 on the reference platform: the cycles 4 and 3
    of the settings, in this order; the third one is empty. *)
Lemma mc_homing_cycle_sequence_witness :
  let run := mc_homing_cycle 0 idle in
  let moves := homing_moves (events run) in
  configured_cycles 0 (Nat.max 1 (N_AXIS cfg)) = [4; 3] /\
  (0 <> 0 -> map fst moves = [0]) /\
  (0 = 0 ->
   exists rest,
     configured_cycles 0 (Nat.max 1 (N_AXIS cfg)) = map fst moves ++ rest /\
     forallb snd (removelast moves) = true /\
     (forallb snd moves = true -> rest = [])).
Proof.
  cbv zeta. split; [vm_compute; reflexivity|].
  refine (mc_homing_cycle_sequence 0 idle (final (result (mc_homing_cycle 0 idle)))
            Status_OK eq_refl _).
  vm_compute. reflexivity.
Defined.

(** X12 on the letter G. *)
Lemma ingest_printable_witness :
  protocol_enqueue_realtime_command 71 idle = ([], Done false idle).
Proof.
  refine (ingest_printable 71 idle _ eq_refl eq_refl). lia.
Defined.

(** X13 on the byte 0xC8, with plain [char] unsigned and no
    command or comment being read: the byte is dropped. *)
Lemma ingest_top_bit_witness :
  protocol_enqueue_realtime_command 200 idle = ([], Done true idle).
Proof.
  refine (ingest_top_bit 200 idle _ eq_refl eq_refl). lia.
Defined.

(** X14 on [?]: the status report is requested. *)
Lemma ingest_legacy_witness :
  protocol_enqueue_realtime_command 63 idle =
    ([], Done true (set_mach (set_exec_state EXEC_STATUS_REPORT (mach idle)) idle)).
Proof.
  refine (ingest_legacy 63 idle _ eq_refl eq_refl). lia.
Defined.

(** X15 on the reference platform, whose e-stop input is
    not asserted. *)
Lemma ingest_reset_witness :
  exists w1,
    result (mc_reset idle) = Done tt w1 /\
    protocol_enqueue_realtime_command 24 idle = (events (mc_reset idle), Done true w1).
Proof.
  refine (ingest_reset 24 idle eq_refl _ _ _); [lia | lia | vm_compute; lia].
Defined.

(** X17 on the quarter circle of S2 with [sys.abort] set: the
    first segment fails and is the only call. *)
Lemma mc_arc_stops_witness :
  let evs := events (mc_arc 3 s2_target Bench.feed600 s2_position s2_offset s2_radius
                       Bench.plane_xy false (Bench.world0 STATE_IDLE true 200 0)) in
  mc_line_returns evs = [false] /\
  length (mc_line_calls evs) = 1%nat /\
  stops_at_failure evs.
Proof.
  cbv zeta. split; [vm_compute; reflexivity|]. split; [vm_compute; reflexivity|].
  exact (mc_arc_stops 3 s2_target Bench.feed600 s2_position s2_offset s2_radius
           Bench.plane_xy false (Bench.world0 STATE_IDLE true 200 0)).
Defined.

(** X18 on a thread of one pass with [sys.abort] set: the
    first move fails and is the only call. *)
Lemma mc_thread_stops_witness :
  let evs := events (mc_thread 10 Bench.feed600 origin deep_thread false
                       (Bench.world0 STATE_IDLE true 200 0)) in
  mc_line_returns evs = [false] /\
  length (mc_line_calls evs) = 1%nat /\
  stops_at_failure evs.
Proof.
  cbv zeta. split; [vm_compute; reflexivity|]. split; [vm_compute; reflexivity|].
  exact (mc_thread_stops 10 Bench.feed600 origin deep_thread false
           (Bench.world0 STATE_IDLE true 200 0)).
Defined.

(** X3 on a feed move from rest: two pushes, after a
    checkpoint. *)
Lemma mc_line_checkpoint_before_push_witness :
  let evs := events (mc_line 10 (Bench.v3 1 0 0) Bench.feed600 idle) in
  length (pushes evs) = 2%nat /\ checkpoint_before_push evs.
Proof.
  cbv zeta. split; [vm_compute; reflexivity|].
  exact (mc_line_checkpoint_before_push 10 (Bench.v3 1 0 0) Bench.feed600 idle).
Defined.

End FurtherInstances.

(** * Properties of the rest of the code *)

Section Properties2.
Context {E0 : Type} {PX : platform_x E0}.

(** One step of symbolic execution. *)
Ltac wp_step :=
  lazymatch goal with
  | |- wp (bind _ _) _ _ => apply wp_bind
  | |- wp (ret _) _ _ => apply wp_ret
  | |- wp hang _ _ => apply wp_hang
  | |- wp get _ _ => apply wp_get
  | |- wp (gets _) _ _ => apply wp_gets
  | |- wp (modify_sys _) _ _ => apply wp_modify_sys
  | |- wp (modify_mach _) _ _ => apply wp_modify_mach
  | |- wp (modify _) _ _ => apply wp_modify
  | |- wp (emit _) _ _ => apply wp_emit
  | |- wp (ask _) _ _ => apply wp_ask
  | |- wp (drive _) _ _ => apply wp_drive
  | |- wp (drive_ret _) _ _ => apply wp_drive_ret
  | |- wp (gets_glob _) _ _ => apply wp_ask
  | |- wp (ask_plant _) _ _ => apply wp_ask
  | |- wp (modify_glob _) _ _ => apply wp_drive
  | |- wp (drive_plant _) _ _ => apply wp_drive
  end;
  cbn beta iota.

Ltac wp_run := repeat wp_step.

Ltac only_steps :=
  repeat first
    [ assumption
    | apply emits_only_bind; [|intros ?]
    | apply emits_only_if
    | apply emits_only_emit; reflexivity
    | apply emits_only_silent; intros ?;
      first [ reflexivity | apply events_service | apply events_service_
            | apply events_drive_ret ]
    | match goal with |- emits_only _ (match ?x with _ => _ end) => destruct x end ].

(** ** The backlash tracker after initialization *)

Lemma backlash_init_scan_bits n a idx :
  (forall i, (i < n)%nat -> Z.testbit (fst a) (Z.of_nat i) = false) ->
  Z.testbit (fst (backlash_init_scan n a)) (Z.of_nat idx) =
    (if (idx <? n)%nat
     then (vget (backlash settings) idx >? F32.tenthousandth)%f32
     else Z.testbit (fst a) (Z.of_nat idx)) /\
  Z.testbit (snd (backlash_init_scan n a)) (Z.of_nat idx) =
    ((idx <? n)%nat || Z.testbit (snd a) (Z.of_nat idx)).
Proof.
  revert a. induction n as [|n IH]; intros a Ha.
  - simpl. auto.
  - cbn [backlash_init_scan].
    set (a' := (_, _)).
    assert (Hbit : forall j, Z.testbit (bit n) (Z.of_nat j) = (j =? n)%nat).
    { intros j. unfold bit. rewrite Z.shiftl_1_l, Z.pow2_bits_eqb by lia.
      destruct (Nat.eqb_spec j n) as [->|Hne].
      - apply Z.eqb_refl.
      - apply Z.eqb_neq. lia. }
    destruct (IH a') as [H1 H2].
    { intros i Hi. unfold a'. cbn [fst].
      destruct (vget (backlash settings) n >? F32.tenthousandth)%f32; [|apply Ha; lia].
      rewrite Z.lor_spec, Ha, Hbit by lia. simpl.
      apply Nat.eqb_neq. lia. }
    rewrite H1, H2. unfold a'. cbn [fst snd]. rewrite Z.lor_spec, Hbit.
    destruct (Nat.ltb_spec idx n) as [Hlt|Hge].
    + replace (idx <? S n)%nat with true by (symmetry; apply Nat.ltb_lt; lia). auto.
    + destruct (Nat.eqb_spec idx n) as [->|Hne].
      * replace (n <? S n)%nat with true by (symmetry; apply Nat.ltb_lt; lia).
        split; [|rewrite orb_true_r; reflexivity].
        destruct (vget (backlash settings) n >? F32.tenthousandth)%f32.
        -- rewrite Z.lor_spec, Hbit, Nat.eqb_refl. apply orb_true_r.
        -- apply Ha. lia.
      * replace (idx <? S n)%nat with false by (symmetry; apply Nat.ltb_ge; lia).
        split; [|rewrite orb_false_r; reflexivity].
        destruct (vget (backlash settings) n >? F32.tenthousandth)%f32; [|reflexivity].
        rewrite Z.lor_spec, Hbit.
        replace (idx =? n)%nat with false by (symmetry; apply Nat.eqb_neq; lia).
        apply orb_false_r.
Qed.

Lemma mc_backlash_init_run (w : world (xenv E0)) :
  mc_backlash_init w =
    ([], Done tt
           (set_backlash
              (vcopy (N_AXIS cfg)
                     (system_convert_array_steps_to_mpos ext
                        (sys_position (g_probe (glob (env (mach w))))))
                     (target_prev w))
              (Z.lxor (snd (backlash_init_scan (N_AXIS cfg) (0, 0))) (homing_dir_mask settings))
              (set_tracker (target_prev w)
                 (Z.lxor (snd (backlash_init_scan (N_AXIS cfg) (0, 0)))
                         (homing_dir_mask settings))
                 (fst (backlash_init_scan (N_AXIS cfg) (0, 0))) w))).
Proof. reflexivity. Qed.

(** X20.  [mc_backlash_init] always returns, emits
    nothing and leaves the machine alone.  Afterwards the backlash
    compensation is enabled on exactly those of the [N_AXIS] axes whose
    backlash setting exceeds 0.0001; the direction of every axis is
    recorded as negative, inverted where the homing direction mask has
    the axis set; and the remembered target is the machine position of
    the moment. *)
Theorem mc_backlash_init_tracker (w : world (xenv E0)) :
  (1 <= N_AXIS cfg)%nat ->
  exists w',
    mc_backlash_init w = ([], Done tt w') /\
    mach w' = mach w /\
    (forall idx,
       Z.testbit (backlash_enabled w') (Z.of_nat idx) =
       (idx <? N_AXIS cfg)%nat
       && (vget (backlash settings) idx >? F32.tenthousandth)%f32) /\
    (forall idx,
       Z.testbit (dir_negative w') (Z.of_nat idx) =
       xorb (idx <? N_AXIS cfg)%nat
            (Z.testbit (homing_dir_mask settings) (Z.of_nat idx))) /\
    target_prev w' =
      vcopy (N_AXIS cfg)
            (system_convert_array_steps_to_mpos ext
               (sys_position (g_probe (glob (env (mach w))))))
            (target_prev w).
Proof.
  intros _. eexists. split; [apply mc_backlash_init_run|].
  cbn [mach set_backlash set_tracker backlash_enabled dir_negative target_prev].
  split; [reflexivity|]. split; [|split; [|reflexivity]]; intros idx.
  - destruct (backlash_init_scan_bits (N_AXIS cfg) (0, 0) idx) as [H _].
    { intros i _. apply Z.bits_0. }
    rewrite H. cbn [fst]. rewrite Z.bits_0.
    destruct (idx <? N_AXIS cfg)%nat; reflexivity.
  - destruct (backlash_init_scan_bits (N_AXIS cfg) (0, 0) idx) as [_ H].
    { intros i _. apply Z.bits_0. }
    rewrite Z.lxor_spec, H. cbn [snd]. rewrite Z.bits_0, orb_false_r. reflexivity.
Qed.

(** X21.  After [mc_backlash_init], a call of [mc_line]
    pushes no backlash move, and so at most the move itself, when no
    axis has a backlash setting above 0.0001, and also when the target
    is the machine position at the time of the initialization. *)
Theorem mc_backlash_init_then_line fuel target pl (w w' : world (xenv E0)) :
  result (mc_backlash_init w) = Done tt w' ->
  (forall idx, (idx < N_AXIS cfg)%nat ->
               (vget (backlash settings) idx >? F32.tenthousandth)%f32 = false) \/
  (target = system_convert_array_steps_to_mpos ext
              (sys_position (g_probe (glob (env (mach w))))) /\
   (N_AXIS cfg <= length target)%nat) ->
  pushes (events (mc_line fuel target pl w')) = [] \/
  pushes (events (mc_line fuel target pl w')) = [(target, pl)].
Proof.
  intros Hd Hcase. rewrite mc_backlash_init_run in Hd.
  cbn [result snd] in Hd. injection Hd as <-.
  apply mc_line_pushes_unmoved.
  cbn [set_backlash set_tracker backlash_enabled target_prev].
  destruct Hcase as [Hoff|[-> Hlen]].
  - left. apply Z.bits_inj'. intros n Hn. rewrite Z.bits_0.
    rewrite <- (Z2Nat.id n Hn).
    destruct (backlash_init_scan_bits (N_AXIS cfg) (0, 0) (Z.to_nat n)) as [H _].
    { intros i _. apply Z.bits_0. }
    rewrite H. cbn [fst]. rewrite Z.bits_0.
    destruct (Nat.ltb_spec (Z.to_nat n) (N_AXIS cfg)); [apply Hoff; assumption|reflexivity].
  - right. apply unmoved_vcopy. exact Hlen.
Qed.

(** ** Jogging *)

(** X22.  With soft limits enabled and jog targets not
    limited to the travel, a jog whose target fails the travel check is
    refused with [Status_TravelExceeded]: [mc_line] is not called,
    nothing is emitted and no state changes, except that the caller's
    [pl_data] already holds the jog request. *)
Theorem mc_jog_execute_travel_exceeded fuel pl f n xyz (w : world (xenv E0)) :
  jog_soft_limited settings_x = false ->
  soft_enabled settings = true ->
  system_check_travel_limits ext xyz (mach w) = false ->
  mc_jog_execute fuel pl f n xyz w =
    ([], Done (Status_TravelExceeded,
               set_line_number n
                 (set_jog_motion true (set_no_feed_override true (set_feed_rate f pl))),
               xyz) w).
Proof.
  intros Hlim Hsoft Hchk. unfold mc_jog_execute, bind, gets. cbn [fst snd].
  rewrite Hlim, Hsoft, Hchk. reflexivity.
Qed.

(** X23.  A jog that is not refused makes exactly one call of
    [mc_line], to the target (limited to the travel where the setting
    asks for it) and with a request that is marked as a jog with feed
    override disabled and carries the feed rate and line number of the
    block; [mc_line] does not check it against the soft limits; and when
    [mc_jog_execute] returns, the status is [Status_OK], whatever
    [mc_line] returned. *)
Theorem mc_jog_execute_line fuel pl f n xyz (w : world (xenv E0)) :
  jog_soft_limited settings_x = true \/ soft_enabled settings = false \/
  system_check_travel_limits ext xyz (mach w) = true ->
  let pl' := set_line_number n
               (set_jog_motion true (set_no_feed_override true (set_feed_rate f pl))) in
  let xyz' := if jog_soft_limited settings_x
              then system_apply_jog_limits ext xyz (mach w) else xyz in
  mc_line_calls (events (mc_jog_execute fuel pl f n xyz w)) = [(xyz', pl')] /\
  soft_checks (events (mc_jog_execute fuel pl f n xyz w)) = [] /\
  jog_motion pl' = true /\ no_feed_override pl' = true /\
  feed_rate pl' = f /\ line_number pl' = n /\
  forall r w', result (mc_jog_execute fuel pl f n xyz w) = Done r w' ->
               r = (Status_OK, pl', xyz').
Proof.
  intros Hgo. cbv zeta.
  set (pl' := set_line_number n _).
  set (xyz' := if jog_soft_limited settings_x then _ else xyz).
  assert (Hcond : negb (jog_soft_limited settings_x) && soft_enabled settings
                  && negb (system_check_travel_limits ext xyz (mach w)) = false).
  { destruct Hgo as [ -> | [ -> | -> ] ]; [reflexivity| |].
    - rewrite andb_false_r. reflexivity.
    - rewrite andb_false_r. reflexivity. }
  change (wp (mc_jog_execute fuel pl f n xyz)
            (fun evs o =>
               mc_line_calls evs = [(xyz', pl')] /\ soft_checks evs = [] /\
               jog_motion pl' = true /\ no_feed_override pl' = true /\
               feed_rate pl' = f /\ line_number pl' = n /\
               forall r w', o = Done r w' -> r = (Status_OK, pl', xyz')) w).
  unfold mc_jog_execute. wp_run. rewrite Hcond. fold pl' xyz'.
  wp_step.
  assert (Hline : wp (mc_line fuel xyz' pl')
            (fun evs o => mc_line_calls evs = [(xyz', pl')] /\ soft_checks evs = []) w).
  { unfold wp. destruct (mc_line_unfold fuel xyz' pl' w) as [He _]. rewrite He.
    destruct (mc_line_body_run fuel xyz' pl' w) as (Hc & Hs & _).
    cbn [mc_line_calls soft_checks]. rewrite mc_line_calls_app, soft_checks_app, Hc, Hs.
    destruct (result (mc_line_body fuel xyz' pl' w)); split; reflexivity. }
  eapply wp_conseq; [exact Hline|]. clear Hline.
  intros evs1 o1 [Hc1 Hs1].
  destruct o1 as [ok w1|w1].
  2:{ repeat split; try assumption. intros r w' Hd. discriminate Hd. }
  wp_run.
  destruct ((state_eqb (sys_state (sys (mach w1))) STATE_IDLE
             || state_eqb (sys_state (sys (mach w1))) STATE_TOOL_CHANGE)
            && plan_get_current_block fw (env (mach w1))).
  - wp_step. apply wp_service_.
    destruct (set_state ext STATE_JOG (mach w1)) as [m|].
    + wp_run. rewrite ?mc_line_calls_app, ?soft_checks_app, Hc1, Hs1.
      repeat split. intros r w' Hd. injection Hd as <- _. reflexivity.
    + rewrite ?mc_line_calls_app, ?soft_checks_app, Hc1, Hs1.
      repeat split. intros r w' Hd. discriminate Hd.
  - wp_run. rewrite ?mc_line_calls_app, ?soft_checks_app, Hc1, Hs1.
    repeat split. intros r w' Hd. injection Hd as <- _. reflexivity.
Qed.

(** ** Probing *)

Lemma repeat_realtime_quiet n :
  mc_line_calls (repeat EvRealtime n) = [] /\ pushes (repeat EvRealtime n) = [].
Proof. induction n as [|n IH]; simpl; [auto|exact IH]. Qed.

Lemma protocol_buffer_synchronize_run fuel (w : world (xenv E0)) :
  wp (protocol_buffer_synchronize fuel)
     (fun evs o =>
        (exists n, evs = repeat EvRealtime n) /\
        match o with
        | Done ok w' =>
            ok = negb (ABORTED fw (sys (mach w'))) /\
            (ok = true ->
             plan_get_current_block fw (env (mach w')) = false /\
             sys_state (sys (mach w')) <> STATE_CYCLE)
        | Hang _ => True
        end) w.
Proof.
  unfold protocol_buffer_synchronize. apply wp_bind.
  eapply wp_conseq; [apply protocol_auto_cycle_start_frame|].
  intros evs0 o0 (-> & w0 & -> & _). cbn beta iota.
  eapply wp_conseq; [apply protocol_buffer_synchronize_loop_run|].
  intros evs o [(n & Hn & _) Ho]. split; [exists n; exact Hn|exact Ho].
Qed.

(** The wait for the end of the probing motion: checkpoints only; it
    ends in the idle state, or under abort. *)
Lemma probe_wait_run fuel (w : world (xenv E0)) :
  wp (probe_wait fuel)
     (fun evs o =>
        (exists n, evs = repeat EvRealtime n) /\
        match o with
        | Done true w' => sys_state (sys (mach w')) = STATE_IDLE
        | Done false w' => ABORTED fw (sys (mach w')) = true
        | Hang _ => True
        end) w.
Proof.
  revert w. induction fuel as [|fuel IH]; intros w; cbn [probe_wait].
  - wp_run. split; [exists 0%nat; reflexivity|exact I].
  - wp_step. eapply wp_conseq; [apply protocol_execute_realtime_run|].
    intros evs1 [[|] w1|w1] [-> Ho1]; cbn beta iota.
    + wp_run.
      destruct (state_eqb (sys_state (sys (mach w1))) STATE_IDLE) eqn:Hst; cbn [negb].
      * wp_run. split; [exists 1%nat; reflexivity|].
        apply state_eqb_eq. exact Hst.
      * eapply wp_conseq; [apply IH|]. intros evs2 o2 [(n & ->) Ho2].
        split; [exists (S n); reflexivity|exact Ho2].
    + wp_run. split; [exists 1%nat; reflexivity|].
      symmetry in Ho1. apply negb_false_iff in Ho1. exact Ho1.
    + split; [exists 1%nat; reflexivity|exact I].
Qed.

Lemma mc_probe_cycle_run fuel target pl away no_error (w : world (xenv E0)) :
  wp (mc_probe_cycle fuel target pl away no_error)
     (fun evs o =>
        forall r w', o = Done r w' ->
          match r with
          | GCProbe_CheckMode =>
              sys_state (sys (mach w)) = STATE_CHECK_MODE /\ evs = [] /\ w' = w
          | GCProbe_FailInit => mc_line_calls evs = [] /\ pushes evs = []
          | GCProbe_Abort =>
              (mc_line_calls evs = [] /\ pushes evs = [] /\
               sys_abort (sys (mach w')) = true) \/
              (mc_line_calls evs = [(target, pl)] /\
               ABORTED fw (sys (mach w')) = true)
          | GCProbe_Found | GCProbe_FailEnd =>
              mc_line_calls evs = [(target, pl)] /\
              (exists pre, evs = pre ++ [EvPlanSyncPosition]) /\
              sys_probe_succeeded (g_probe (glob (env (mach w')))) =
                match r with GCProbe_Found => true | _ => false end
          end) w.
Proof.
  unfold mc_probe_cycle. wp_run.
  destruct (state_eqb (sys_state (sys (mach w))) STATE_CHECK_MODE) eqn:Hst.
  { wp_run. intros r w' Hd. injection Hd as <- <-.
    apply state_eqb_eq in Hst. auto. }
  wp_step. eapply wp_conseq; [apply protocol_buffer_synchronize_run|].
  intros evs0 o0 [(n0 & ->) _].
  destruct (repeat_realtime_quiet n0) as [Hc0 Hp0].
  destruct o0 as [ok0 w0|w0]; [|intros r w' Hd; discriminate Hd].
  wp_run.
  destruct (sys_abort (sys (mach w0))) eqn:Hab.
  { wp_run. intros r w' Hd. injection Hd as <- <-.
    left. rewrite ?app_nil_r. auto. }
  wp_run.
  match goal with
  | |- wp (if ?b then _ else _) _ _ => destruct b
  end.
  - (* the probe is already triggered *)
    unfold system_set_exec_alarm. wp_run.
    eapply wp_conseq; [apply protocol_execute_realtime_run|].
    intros evs1 o1 [-> _]. destruct o1 as [ok1 w1|w1]; [|intros r w' Hd; discriminate Hd].
    wp_run. intros r w' Hd. injection Hd as <- <-.
    rewrite ?mc_line_calls_app, ?pushes_app, Hc0, Hp0. split; reflexivity.
  - wp_step. apply mc_line_one_call.
    2:{ intros evs1 w1 _ _ r w' Hd. discriminate Hd. }
    intros evs1 ok1 w1 Hc1 _.
    unfold system_set_exec_state_flag. wp_run.
    eapply wp_conseq; [apply probe_wait_run|].
    intros evs2 o2 [(n2 & ->) Ho2].
    destruct (repeat_realtime_quiet n2) as [Hc2 Hp2].
    destruct o2 as [[|] w2|w2]; cbn [negb]; [| |intros r w' Hd; discriminate Hd].
    2:{ wp_run. intros r w' Hd. injection Hd as <- <-.
        right. rewrite ?mc_line_calls_app, Hc0, Hc1, Hc2, ?app_nil_r. auto. }
    wp_run.
    assert (Hc012 : mc_line_calls (repeat EvRealtime n0) = [] /\
                    mc_line_calls evs1 = [(target, pl)] /\
                    mc_line_calls (repeat EvRealtime n2) = []) by auto.
    destruct (sys_probe_state (g_probe (glob (env (mach w2)))));
      [|destruct no_error; unfold system_set_exec_alarm];
      wp_run;
      (eapply wp_conseq; [apply protocol_execute_realtime_run|];
       intros evs3 o3 [-> _];
       destruct o3 as [ok3 w3|w3]; [|intros r w' Hd; discriminate Hd];
       wp_run;
       destruct (probe_coordinates settings_x); wp_run;
       (match goal with
        | |- forall r w', Done _ ?wf = _ -> _ => set (wF := wf)
        end;
        intros r w' Hd; clearbody wF; injection Hd as <- <-;
        destruct (sys_probe_succeeded (g_probe (glob (env (mach wF)))));
        ((split; [|split; [|reflexivity]]);
        [ cbn [app]; rewrite ?mc_line_calls_app, Hc0, Hc1, Hc2; reflexivity
        | cbn [app]; rewrite ?app_nil_r, ?app_assoc;
          match goal with
          | |- exists pre, ?l ++ [?x; ?y] = _ =>
              exists (l ++ [x]); rewrite <- !app_assoc; reflexivity
          end ]))).
Qed.

(** X24.  The ways in which [mc_probe_cycle] ends
    without probing.  It returns [GCProbe_CheckMode] exactly in check
    mode, and has then done nothing at all.  When it returns
    [GCProbe_FailInit] (the probe was triggered before the motion) it
    has not called [mc_line] and nothing has reached the planner.  When
    it returns [GCProbe_Abort], either [sys.abort] was found set after
    the buffer synchronization and no motion was commanded, or the
    probing move was issued and the system is aborted. *)
Theorem mc_probe_cycle_refused fuel target pl away no_error
    (w w' : world (xenv E0)) r :
  result (mc_probe_cycle fuel target pl away no_error w) = Done r w' ->
  let evs := events (mc_probe_cycle fuel target pl away no_error w) in
  (sys_state (sys (mach w)) = STATE_CHECK_MODE <-> r = GCProbe_CheckMode) /\
  (r = GCProbe_CheckMode -> evs = [] /\ w' = w) /\
  (r = GCProbe_FailInit -> mc_line_calls evs = [] /\ pushes evs = []) /\
  (r = GCProbe_Abort ->
   (mc_line_calls evs = [] /\ pushes evs = [] /\ sys_abort (sys (mach w')) = true) \/
   (mc_line_calls evs = [(target, pl)] /\ ABORTED fw (sys (mach w')) = true)).
Proof.
  intros Hd. cbv zeta.
  pose proof (mc_probe_cycle_run fuel target pl away no_error w r w' Hd) as H.
  split; [|split; [|split]].
  - split.
    + intros Hst. revert Hd. unfold mc_probe_cycle, bind, gets. cbn [fst snd].
      rewrite Hst. cbn [state_eqb state_code Z.eqb bit Z.shiftl Z.of_nat Pos.iter
                        Pos.eqb Pos.of_succ_nat Pos.succ].
      intros Hd. injection Hd as <- _. reflexivity.
    + intros ->. apply H.
  - intros ->. destruct H as (_ & He & Hw). auto.
  - intros ->. exact H.
  - intros ->. exact H.
Qed.


(** ** Override control *)

(** X26.  [mc_override_ctrl_update] first synchronizes the
    planner buffer, and does nothing else but run realtime checkpoints.
    When it returns and [sys.abort] is set, the override control state
    is left as it was after the synchronization; otherwise it is the
    new one, and then either the planner holds no block and no cycle is
    running, or the synchronization ended under an abort condition
    other than [sys.abort]. *)
Theorem mc_override_ctrl_update_result fuel override_state (w w' : world (xenv E0)) :
  result (mc_override_ctrl_update fuel override_state w) = Done tt w' ->
  (exists n, events (mc_override_ctrl_update fuel override_state w)
             = repeat EvRealtime n) /\
  exists ok w1,
    result (protocol_buffer_synchronize fuel w) = Done ok w1 /\
    (sys_abort (sys (mach w1)) = true -> w' = w1) /\
    (sys_abort (sys (mach w1)) = false ->
     g_override_control (glob (env (mach w'))) = override_state /\
     sys (mach w') = sys (mach w1) /\
     plant (env (mach w')) = plant (env (mach w1)) /\
     ((plan_get_current_block fw (env (mach w1)) = false /\
       sys_state (sys (mach w1)) <> STATE_CYCLE) \/
      ABORTED fw (sys (mach w1)) = true)).
Proof.
  unfold mc_override_ctrl_update. rewrite bind_events, bind_result.
  pose proof (protocol_buffer_synchronize_run fuel w) as Hs. unfold wp in Hs.
  destruct Hs as [(n & Hn) Ho]. rewrite Hn.
  destruct (result (protocol_buffer_synchronize fuel w)) as [ok w1|w1];
    [|intros Hd; discriminate Hd].
  destruct Ho as [Hok Hsync].
  unfold bind, gets. cbn [fst snd events result].
  destruct (sys_abort (sys (mach w1))) eqn:Hab; cbn [negb].
  - cbn [ret fst snd]. intros Hd. injection Hd as <-.
    split; [exists n; rewrite !app_nil_r; reflexivity|].
    exists ok, w1. split; [reflexivity|].
    split; [intros _; reflexivity|intros Hf; congruence].
  - unfold modify_glob, drive, modify_mach, modify. cbn [fst snd].
    intros Hd. injection Hd as <-.
    split; [exists n; rewrite !app_nil_r; reflexivity|].
    exists ok, w1. split; [reflexivity|].
    split; [intros Hf; congruence|]. intros _.
    cbn [mach set_mach env set_env glob plant sys set_override_control g_override_control].
    repeat split.
    destruct ok.
    + left. apply Hsync. reflexivity.
    + right. symmetry in Hok. apply negb_false_iff in Hok. exact Hok.
Qed.

(** ** Commands from outside the input stream *)

(** X27.  [protocol_enqueue_gcode] emits nothing and always
    returns.  A refused command changes nothing.  A command is accepted
    only when the slot [xcommand] is empty, the machine is idle, jogging
    or changing tools and no motion cancel is pending, and, while a file
    is run with the program running, only if it is not a jog command;
    it is then stored in the slot and nothing else changes.  Once a
    command that is not empty has been accepted, every further command
    is refused for as long as the slot is not emptied. *)
Theorem protocol_enqueue_gcode_slot gcode (w : world (xenv E0)) :
  exists ok w',
    protocol_enqueue_gcode gcode w = ([], Done ok w') /\
    (ok = false -> w' = w) /\
    (ok = true ->
     w' = set_mach (set_env {| glob := set_xcommand gcode (glob (env (mach w)));
                               plant := plant (env (mach w)) |} (mach w)) w /\
     g_xcommand (glob (env (mach w))) = [] /\
     (sys_state (sys (mach w)) = STATE_IDLE \/ sys_state (sys (mach w)) = STATE_JOG \/
      sys_state (sys (mach w)) = STATE_TOOL_CHANGE) /\
     bit_isfalse (sys_rt_exec_state (mach w)) EXEC_MOTION_CANCEL = true /\
     (gc_file_run (g_gc_state (glob (env (mach w)))) = true ->
      gc_program_flow (g_gc_state (glob (env (mach w)))) = ProgramFlow_Running ->
      is_jog_command gcode = false)) /\
    (ok = true -> gcode <> [] ->
     forall gcode2, protocol_enqueue_gcode gcode2 w' = ([], Done false w')).
Proof.
  unfold protocol_enqueue_gcode, bind, gets_glob, ask, gets, modify_glob, drive,
    modify_mach, modify, ret.
  cbn [fst snd app].
  set (x := g_xcommand (glob (env (mach w)))).
  set (st := sys_state (sys (mach w))).
  set (gc := g_gc_state (glob (env (mach w)))).
  set (c1 := match x with [] => true | _ => false end).
  set (c2 := state_eqb st STATE_IDLE || _).
  set (c3 := bit_isfalse _ _).
  assert (Hc1 : c1 = true -> x = []) by (unfold c1; destruct x; [auto|discriminate]).
  assert (Hc2 : c2 = true ->
                st = STATE_IDLE \/ st = STATE_JOG \/ st = STATE_TOOL_CHANGE).
  { unfold c2. destruct st; cbn; intros H; auto; discriminate H. }
  clearbody c1 c2 c3.
  destruct (c1 && c2 && c3) eqn:Hok.
  - apply andb_true_iff in Hok. destruct Hok as [Hok H3].
    apply andb_true_iff in Hok. destruct Hok as [H1 H2]. cbn [andb].
    destruct (gc_file_run gc) eqn:Hrun.
    + destruct (gc_program_flow gc) eqn:Hflow; cbn [orb].
      * destruct (is_jog_command gcode) eqn:Hjog; cbn [negb].
        -- eexists; eexists. split; [reflexivity|]. split; [auto|].
           split; intros Hf; discriminate Hf.
        -- eexists; eexists. split; [reflexivity|]. split; [intros Hf; discriminate Hf|].
           split.
           { intros _. repeat split; auto. }
           intros _ Hne gcode2. cbn [mach set_mach env set_env glob set_xcommand g_xcommand].
           destruct gcode as [|c0 gcode]; [contradiction|]. reflexivity.
      * eexists; eexists. split; [reflexivity|]. split; [intros Hf; discriminate Hf|].
        split.
        { intros _. repeat split; auto. intros _ Hf. discriminate Hf. }
        intros _ Hne gcode2. cbn [mach set_mach env set_env glob set_xcommand g_xcommand].
        destruct gcode as [|c0 gcode]; [contradiction|]. reflexivity.
    + eexists; eexists. split; [reflexivity|]. split; [intros Hf; discriminate Hf|].
      split.
      { intros _. repeat split; auto. intros Hf. discriminate Hf. }
      intros _ Hne gcode2. cbn [mach set_mach env set_env glob set_xcommand g_xcommand].
      destruct gcode as [|c0 gcode]; [contradiction|]. reflexivity.
  - cbn [andb]. eexists; eexists. split; [reflexivity|]. split; [auto|].
    split; intros Hf; discriminate Hf.
Qed.

(** ** Suspend *)

Lemma protocol_exec_rt_suspend_run fuel (w : world (xenv E0)) :
  wp (Protocol.protocol_exec_rt_suspend fuel)
     (fun evs o =>
        evs = [] /\
        forall w', o = Done tt w' ->
          sys_suspend (sys (mach w')) = false \/ sys_abort (sys (mach w')) = true) w.
Proof.
  revert w. induction fuel as [|fuel IH]; intros w;
    cbn [Protocol.protocol_exec_rt_suspend].
  - wp_run. split; [reflexivity|]. intros w' Hd. discriminate Hd.
  - wp_run. destruct (sys_suspend (sys (mach w))) eqn:Hsus.
    2:{ wp_run. split; [reflexivity|]. intros w' Hd. injection Hd as <-. auto. }
    destruct (sys_abort (sys (mach w))) eqn:Hab.
    { wp_run. split; [reflexivity|]. intros w' Hd. injection Hd as <-. auto. }
    unfold system_set_exec_state_flag.
    repeat first
      [ wp_step
      | match goal with
        | |- wp (service_ _) _ _ =>
            apply wp_service_;
            match goal with |- match ?x with _ => _ end => destruct x end
        | |- wp (service _) _ _ =>
            apply wp_service;
            match goal with |- match ?x with _ => _ end => destruct x as [[? ?]|] end
        | |- wp (if ?b then _ else _) _ _ => destruct b
        end ].
    all: try (eapply wp_conseq; [apply IH|]; intros evs o [-> Ho];
              split; [reflexivity|exact Ho]).
    all: split; [reflexivity|]; intros w' Hd; discriminate Hd.
Qed.

(** X28.  [protocol_exec_rt_suspend] emits nothing.  It does
    nothing at all when the system is not suspended.  It returns only
    when the system is no longer suspended or is aborted. *)
Theorem protocol_exec_rt_suspend_result fuel (w : world (xenv E0)) :
  events (Protocol.protocol_exec_rt_suspend fuel w) = [] /\
  (fuel <> O -> sys_suspend (sys (mach w)) = false ->
   Protocol.protocol_exec_rt_suspend fuel w = ([], Done tt w)) /\
  forall w', result (Protocol.protocol_exec_rt_suspend fuel w) = Done tt w' ->
             sys_suspend (sys (mach w')) = false \/ sys_abort (sys (mach w')) = true.
Proof.
  destruct (protocol_exec_rt_suspend_run fuel w) as [He Hr].
  split; [exact He|]. split; [|exact Hr].
  intros Hf Hs. destruct fuel as [|fuel]; [contradiction|].
  cbn [Protocol.protocol_exec_rt_suspend]. unfold bind, gets. cbn [fst snd].
  rewrite Hs. reflexivity.
Qed.

(** ** Canned drilling cycles *)

Lemma dr_line_halts fuel s (w : world (xenv E0)) :
  wp (dr_line fuel s) halts_on_failure w.
Proof. unfold dr_line. apply halts_emit_line. Qed.

Lemma dr_then_halts c k (w : world (xenv E0)) :
  wp c halts_on_failure w ->
  (forall s w', wp (k s) halts_on_failure w') ->
  wp (dr_then c k) halts_on_failure w.
Proof.
  intros Hc Hk. unfold dr_then.
  apply (halts_then c k (fun r => r)); [exact Hc|exact Hk|].
  intros r Hr. exact Hr.
Qed.

Ltac dr_halts :=
  repeat first
    [ apply dr_then_halts; [|intros ? ?]
    | apply dr_line_halts
    | apply halts_ret
    | apply halts_emit_line
    | apply halts_after;
      [ unfold gets_glob;
        repeat first
          [ apply mc_dwell_no_line
          | apply emits_only_if
          | apply emits_only_bind; [|intros ?]
          | apply emits_only_emit; reflexivity
          | apply emits_only_silent; intros ?;
            first [ reflexivity | apply events_service_ ] ]
      | intros ? ? ]
    | match goal with |- wp (if ?b then _ else _) _ _ => destruct b end
    | match goal with |- wp (match ?x with _ => _ end) _ _ => destruct x end
    | progress cbv zeta ].

Lemma drill_pecks_halts fuel n motion plane z s (w : world (xenv E0)) :
  wp (drill_pecks fuel n motion plane z s) halts_on_failure w.
Proof.
  revert z s w. induction n as [|n IH]; intros z s w; cbn [drill_pecks].
  - split; [intros pre post H; destruct pre; discriminate H|intros []].
  - unfold dr_skip. dr_halts. apply IH.
Qed.

Lemma drill_repeats_halts fuel motion plane repeats s (w : world (xenv E0)) :
  wp (drill_repeats fuel motion plane repeats s) halts_on_failure w.
Proof.
  revert s w. induction repeats as [|r IH]; intros s w; cbn [drill_repeats].
  - apply halts_ret.
  - unfold dr_skip. dr_halts; try apply drill_pecks_halts; apply IH.
Qed.

(** X29.  In every run of [mc_canned_drill], a call of
    [mc_line] that returns [false] is the last one: the cycle is
    abandoned without any further move. *)
Theorem mc_canned_drill_stops fuel motion target pl position plane repeats canned
    (w : world (xenv E0)) :
  stops_at_failure
    (events (mc_canned_drill fuel motion target pl position plane repeats canned w)).
Proof.
  unfold mc_canned_drill. cbv zeta. rewrite bind_events.
  match goal with
  | |- stops_at_failure (events (?c w) ++ _) =>
      assert (Hc : wp c halts_on_failure w)
  end.
  { unfold dr_skip. dr_halts; apply drill_repeats_halts. }
  destruct Hc as [Hs _].
  match goal with
  | |- stops_at_failure (_ ++ match ?r with _ => _ end) => destruct r
  end; cbn [ret events fst]; rewrite app_nil_r; exact Hs.
Qed.

Lemma length_vset i x v : length (vset i x v) = length v.
Proof.
  revert i. induction v as [|h t IH]; intros i; [destruct i; reflexivity|].
  destruct i; simpl; [reflexivity|]. rewrite IH. reflexivity.
Qed.

Lemma vget_vset i x v : (i < length v)%nat -> vget (vset i x v) i = x.
Proof.
  unfold vget. revert i. induction v as [|h t IH]; intros i Hi; simpl in Hi; [lia|].
  destruct i; simpl; [reflexivity|]. apply IH. lia.
Qed.

Lemma evens_nonempty {A} (l : list A) : l <> [] -> evens l <> [].
Proof. destruct l; [congruence|discriminate]. Qed.

Lemma last_cons_nonempty {A} (a : A) l d : l <> [] -> last (a :: l) d = last l d.
Proof. destruct l; [congruence|reflexivity]. Qed.

(** The peck loop: every drilling move is a feed move that does not go
    below the programmed depth; when the loop ends by itself, the last
    drilling move is not above it either. *)
Lemma drill_pecks_run fuel n motion plane z s (w : world (xenv E0)) :
  (axis_linear plane < length (dr_position s))%nat ->
  wp (drill_pecks fuel n motion plane z s)
     (fun evs o =>
        let calls := mc_line_calls evs in
        let lin := axis_linear plane in
        let bottom := vget (cn_xyz (dr_canned s)) lin in
        (forall c, In c (evens calls) ->
           rapid_motion (snd c) = false /\ (vget (fst c) lin <? bottom)%f32 = false) /\
        (forall s' w', o = Done (true, s') w' ->
           dr_canned s' = dr_canned s /\
           length (dr_position s') = length (dr_position s) /\
           Nat.Even (length calls) /\
           (calls = [] -> (z >? bottom)%f32 = false) /\
           (calls <> [] ->
            forall d, (vget (fst (last (evens calls) d)) lin >? bottom)%f32 = false))) w.
Proof.
  revert z s w. induction n as [|n IH]; intros z s w Hlin; cbn [drill_pecks].
  - wp_run. cbv zeta. split; [intros c []|]. intros s' w' Hd. discriminate Hd.
  - cbv zeta.
    set (lin := axis_linear plane) in *.
    set (bottom := vget (cn_xyz (dr_canned s)) lin).
    destruct (z >? bottom)%f32 eqn:Hz.
    2:{ unfold dr_skip. wp_run. split; [intros c []|].
        intros s' w' Hd. injection Hd as <- <-.
        split; [reflexivity|]. split; [reflexivity|].
        split; [exists 0%nat; reflexivity|].
        split; [intros _; reflexivity|]. intros Hne. exfalso. apply Hne. reflexivity. }
    set (z' := if (z - cn_delta (dr_canned s) <? bottom)%f32
               then bottom else (z - cn_delta (dr_canned s))%f32).
    assert (Hz' : (z' <? bottom)%f32 = false).
    { unfold z'. destruct (z - cn_delta (dr_canned s) <? bottom)%f32 eqn:Hlt.
      - apply SFltb_irrefl.
      - exact Hlt. }
    set (s1 := dr_set lin z' (dr_rapid false s)).
    assert (Hc1 : rapid_motion (dr_pl s1) = false /\
                  vget (dr_position s1) lin = z').
    { split; [reflexivity|]. unfold s1, dr_set, dr_rapid. cbn [dr_position].
      apply vget_vset. exact Hlin. }
    destruct Hc1 as [Hr1 Hp1].
    unfold dr_then at 1. wp_step. unfold dr_line at 1. wp_step.
    apply mc_line_one_call.
    2:{ intros evs1 w1 Hcalls _. rewrite Hcalls. cbn [evens length].
        split.
        - intros c [<-|[]]. cbn [fst snd]. rewrite Hr1, Hp1. auto.
        - intros s' w' Hd. discriminate Hd. }
    intros evs1 ok1 w1 Hcalls1 _. wp_run. cbn [fst snd].
    destruct ok1.
    2:{ wp_run. rewrite ?app_nil_r, Hcalls1. cbn [evens length].
        split.
        - intros c [<-|[]]. cbn [fst snd]. rewrite Hr1, Hp1. auto.
        - intros s' w' Hd. discriminate Hd. }
    (* the dwell and the spindle stop *)
    wp_step. apply wp_no_line.
    { apply emits_only_if; [apply mc_dwell_no_line|].
      apply emits_only_silent. reflexivity. }
    intros evs2 o2 Hcalls2 _. destruct o2 as [[] w2|w2].
    2:{ rewrite ?mc_line_calls_app, Hcalls1, Hcalls2. cbn [mc_line_calls app evens length].
        split.
        - intros c [<-|[]]. cbn [fst snd]. rewrite Hr1, Hp1. auto.
        - intros s' w' Hd. discriminate Hd. }
    wp_step. apply wp_no_line.
    { apply emits_only_if; [|apply emits_only_silent; reflexivity].
      apply emits_only_bind; [apply emits_only_silent; reflexivity|intros _].
      apply emits_only_emit. reflexivity. }
    intros evs3 o3 Hcalls3 _. destruct o3 as [[] w3|w3].
    2:{ rewrite ?mc_line_calls_app, Hcalls1, Hcalls2, Hcalls3. cbn [mc_line_calls app evens length].
        split.
        - intros c [<-|[]]. cbn [fst snd]. rewrite Hr1, Hp1. auto.
        - intros s' w' Hd. discriminate Hd. }
    (* the retract *)
    set (zr := if is_chip_break motion then _ else cn_retract_position (dr_canned s)).
    set (s2 := dr_rapid (cn_rapid_retract (dr_canned s)) (dr_set lin zr s1)).
    assert (Hs2 : dr_canned s2 = dr_canned s /\
                  length (dr_position s2) = length (dr_position s)).
    { split; [reflexivity|]. unfold s2, s1, dr_rapid, dr_set. cbn [dr_position].
      rewrite !length_vset. reflexivity. }
    destruct Hs2 as [Hcan2 Hlen2].
    unfold dr_then at 1. wp_step. unfold dr_line at 1. wp_step.
    apply mc_line_one_call.
    2:{ intros evs4 w4 Hcalls4 _.
        rewrite ?mc_line_calls_app, Hcalls1, Hcalls2, Hcalls3, Hcalls4.
        cbn [mc_line_calls app evens length]. split.
        - intros c [<-|[]]. cbn [fst snd]. rewrite Hr1, Hp1. auto.
        - intros s' w' Hd. discriminate Hd. }
    intros evs4 ok4 w4 Hcalls4 _. wp_run. cbn [fst snd].
    destruct ok4.
    2:{ wp_run. rewrite ?app_nil_r, ?mc_line_calls_app, Hcalls1, Hcalls2, Hcalls3, Hcalls4.
        cbn [mc_line_calls app evens length]. split.
        - intros c [<-|[]]. cbn [fst snd]. rewrite Hr1, Hp1. auto.
        - intros s' w' Hd. discriminate Hd. }
    wp_step. apply wp_no_line.
    { apply emits_only_if; [|apply emits_only_silent; reflexivity].
      apply emits_only_bind; [apply emits_only_silent; reflexivity|intros sp].
      apply emits_only_silent. intros w5. apply events_service_. }
    intros evs5 o5 Hcalls5 _. destruct o5 as [[] w5|w5].
    2:{ rewrite ?mc_line_calls_app, Hcalls1, Hcalls2, Hcalls3, Hcalls4, Hcalls5.
        cbn [mc_line_calls app evens length]. split.
        - intros c [<-|[]]. cbn [fst snd]. rewrite Hr1, Hp1. auto.
        - intros s' w' Hd. discriminate Hd. }
    eapply wp_conseq; [apply (IH z' s2 w5); rewrite Hlen2; exact Hlin|].
    cbv zeta. rewrite Hcan2. fold lin bottom.
    intros evs6 o6 [HA HB].
    rewrite ?mc_line_calls_app, Hcalls1, Hcalls2, Hcalls3, Hcalls4, Hcalls5.
    cbn [mc_line_calls app evens length]. split.
    + intros c [<-|Hin]; [cbn [fst snd]; rewrite Hr1, Hp1; auto|].
      apply HA. exact Hin.
    + intros s' w' Hd. destruct (HB s' w' Hd) as (Hcan & Hlen & Hev & Hnone & Hlast).
      split; [exact Hcan|]. split; [rewrite Hlen; exact Hlen2|].
      split.
      { destruct Hev as [k Hk]. exists (S k). rewrite Hk. lia. }
      split; [discriminate|]. intros _ d.
      destruct (mc_line_calls evs6) as [|c6 calls6] eqn:Hc6.
      * cbn [evens last fst]. rewrite Hp1. apply Hnone. reflexivity.
      * rewrite last_cons_nonempty by (apply evens_nonempty; discriminate).
        apply Hlast. discriminate.
Qed.

(** X30.  In the peck loop of [mc_canned_drill] the
    drilling moves are the first, third, fifth ... call of [mc_line].
    Each of them is a feed move whose depth is not below the programmed
    one.  When the loop ends by itself after at least one peck, every
    drilling move has had its retract and the last drilling move is not
    above the programmed depth either. *)
Theorem mc_canned_drill_peck_depth fuel n motion plane z s (w : world (xenv E0)) :
  (axis_linear plane < length (dr_position s))%nat ->
  let r := drill_pecks fuel n motion plane z s w in
  let calls := mc_line_calls (events r) in
  let lin := axis_linear plane in
  let bottom := vget (cn_xyz (dr_canned s)) lin in
  (forall c, In c (evens calls) ->
     rapid_motion (snd c) = false /\ (vget (fst c) lin <? bottom)%f32 = false) /\
  (forall s' w', result r = Done (true, s') w' -> calls <> [] ->
     Nat.Even (length calls) /\
     forall d, (vget (fst (last (evens calls) d)) lin >? bottom)%f32 = false).
Proof.
  intros Hlin. cbv zeta.
  pose proof (drill_pecks_run fuel n motion plane z s w Hlin) as H.
  unfold wp in H. cbv zeta in H. destruct H as [HA HB].
  split; [exact HA|]. intros s' w' Hd Hne.
  destruct (HB s' w' Hd) as (_ & _ & Hev & _ & Hlast).
  split; [exact Hev|]. apply Hlast. exact Hne.
Qed.

End Properties2.

(** * The rest of the code on the reference platform *)

Section Instances2.
#[local] Existing Instance BenchX.platformx0.

(** X20 on the reference platform: compensation on X
    only, all three directions negative, the tracker at the machine
    position. *)
Lemma mc_backlash_init_tracker_witness :
  (exists w', mc_backlash_init BenchX.idle = ([], Done tt w') /\
              backlash_enabled w' = 1 /\ dir_negative w' = 7) /\
  exists w',
    mc_backlash_init BenchX.idle = ([], Done tt w') /\
    mach w' = mach BenchX.idle /\
    (forall idx,
       Z.testbit (backlash_enabled w') (Z.of_nat idx) =
       (idx <? N_AXIS cfg)%nat
       && (vget (backlash settings) idx >? F32.tenthousandth)%f32) /\
    (forall idx,
       Z.testbit (dir_negative w') (Z.of_nat idx) =
       xorb (idx <? N_AXIS cfg)%nat
            (Z.testbit (homing_dir_mask settings) (Z.of_nat idx))) /\
    target_prev w' =
      vcopy (N_AXIS cfg)
            (system_convert_array_steps_to_mpos ext
               (sys_position (g_probe (glob (env (mach BenchX.idle))))))
            (target_prev BenchX.idle).
Proof.
  split.
  - eexists. split; [vm_compute; reflexivity|]. split; reflexivity.
  - refine (mc_backlash_init_tracker BenchX.idle _). vm_compute. lia.
Defined.

(** X21: after the initialization, a move to the machine
    position (1, 2, -3) is pushed without a backlash move. *)
Lemma mc_backlash_init_then_line_witness :
  let w' := final (result (mc_backlash_init BenchX.idle)) in
  let target := system_convert_array_steps_to_mpos ext [100; 200; -300] in
  pushes (events (mc_line 10 target Bench.feed600 w')) = [(target, Bench.feed600)] /\
  (pushes (events (mc_line 10 target Bench.feed600 w')) = [] \/
   pushes (events (mc_line 10 target Bench.feed600 w')) = [(target, Bench.feed600)]).
Proof.
  cbv zeta. split; [vm_compute; reflexivity|].
  refine (mc_backlash_init_then_line 10 _ Bench.feed600 BenchX.idle _ _ (or_intror (conj eq_refl _))).
  - vm_compute. reflexivity.
  - vm_compute. lia.
Defined.

(** X22: with soft limits enabled, a jog to X = 500 is
    outside the travel. *)
Lemma mc_jog_execute_travel_exceeded_witness :
  mc_jog_execute (PX := BenchX.platformx_soft) 10 pl_zero (F32.of_Z 600) 7
                 (Bench.v3 500 0 0) BenchX.idle =
    ([], Done (Status_TravelExceeded,
               set_line_number 7
                 (set_jog_motion true
                    (set_no_feed_override true (set_feed_rate (F32.of_Z 600) pl_zero))),
               Bench.v3 500 0 0) BenchX.idle).
Proof.
  refine (mc_jog_execute_travel_exceeded (PX := BenchX.platformx_soft) 10 pl_zero
            (F32.of_Z 600) 7 (Bench.v3 500 0 0) BenchX.idle eq_refl eq_refl _).
  vm_compute. reflexivity.
Defined.

(** X23: with soft limits disabled, the same jog goes to
    [mc_line] and returns [Status_OK]. *)
Lemma mc_jog_execute_line_witness :
  let pl' := set_line_number 7
               (set_jog_motion true
                  (set_no_feed_override true (set_feed_rate (F32.of_Z 600) pl_zero))) in
  let run := mc_jog_execute 10 pl_zero (F32.of_Z 600) 7 (Bench.v3 500 0 0) BenchX.idle in
  mc_line_calls (events run) = [(Bench.v3 500 0 0, pl')] /\
  soft_checks (events run) = [] /\
  jog_motion pl' = true /\ no_feed_override pl' = true /\
  feed_rate pl' = F32.of_Z 600 /\ line_number pl' = 7 /\
  forall r w', result run = Done r w' -> r = (Status_OK, pl', Bench.v3 500 0 0).
Proof.
  exact (mc_jog_execute_line 10 pl_zero (F32.of_Z 600) 7 (Bench.v3 500 0 0) BenchX.idle
           (or_intror (or_introl eq_refl))).
Defined.

(** X24 in check mode: nothing is done. *)
Lemma mc_probe_cycle_refused_witness :
  let w := BenchX.world0 STATE_CHECK_MODE 0 in
  let evs := events (mc_probe_cycle 10 (Bench.v3 0 0 (-5)) Bench.feed600 false false w) in
  (sys_state (sys (mach w)) = STATE_CHECK_MODE <-> GCProbe_CheckMode = GCProbe_CheckMode) /\
  (GCProbe_CheckMode = GCProbe_CheckMode -> evs = [] /\ w = w) /\
  (GCProbe_CheckMode = GCProbe_FailInit -> mc_line_calls evs = [] /\ pushes evs = []) /\
  (GCProbe_CheckMode = GCProbe_Abort ->
   (mc_line_calls evs = [] /\ pushes evs = [] /\ sys_abort (sys (mach w)) = true) \/
   (mc_line_calls evs = [(Bench.v3 0 0 (-5), Bench.feed600)] /\
    ABORTED fw (sys (mach w)) = true)).
Proof.
  exact (mc_probe_cycle_refused 10 (Bench.v3 0 0 (-5)) Bench.feed600 false false
           (BenchX.world0 STATE_CHECK_MODE 0) (BenchX.world0 STATE_CHECK_MODE 0)
           GCProbe_CheckMode eq_refl).
Defined.


(** X25 without a workpiece, contact being required:
    the cycle ends with [GCProbe_FailEnd]. *)
Lemma mc_probe_cycle_no_contact :
  result (mc_probe_cycle 10 (Bench.v3 0 0 (-5)) Bench.feed600 false false BenchX.idle)
    = Done GCProbe_FailEnd
        (final (result (mc_probe_cycle 10 (Bench.v3 0 0 (-5)) Bench.feed600
                          false false BenchX.idle))).
Proof. vm_compute. reflexivity. Qed.

(** X26 on the idle machine: the new control state is
    stored. *)
Lemma mc_override_ctrl_update_result_witness :
  let run := mc_override_ctrl_update 10 5 BenchX.idle in
  g_override_control (glob (env (mach (final (result run))))) = 5 /\
  (exists n, events run = repeat EvRealtime n) /\
  exists ok w1,
    result (protocol_buffer_synchronize 10 BenchX.idle) = Done ok w1 /\
    (sys_abort (sys (mach w1)) = true -> final (result run) = w1) /\
    (sys_abort (sys (mach w1)) = false ->
     g_override_control (glob (env (mach (final (result run))))) = 5 /\
     sys (mach (final (result run))) = sys (mach w1) /\
     plant (env (mach (final (result run)))) = plant (env (mach w1)) /\
     ((plan_get_current_block fw (env (mach w1)) = false /\
       sys_state (sys (mach w1)) <> STATE_CYCLE) \/
      ABORTED fw (sys (mach w1)) = true)).
Proof.
  cbv zeta. split; [vm_compute; reflexivity|].
  refine (mc_override_ctrl_update_result 10 5 BenchX.idle _ _).
  vm_compute. reflexivity.
Defined.

(** X30 on three pecks from Z = 0 to Z = -3: six calls, the
    drilling moves to Z = -1, -2 and -3. *)
Lemma mc_canned_drill_peck_depth_witness :
  let r := drill_pecks 10 10 (MotionMode_CannedCycle 83) Bench.plane_xy F32.zero
             BenchX.drill0 BenchX.idle in
  let calls := mc_line_calls (events r) in
  map (fun c => vget (fst c) Z_AXIS) (evens calls)
    = [F32.of_Z (-1); F32.of_Z (-2); F32.of_Z (-3)] /\
  length calls = 6%nat /\
  (exists s' w', result r = Done (true, s') w') /\
  (forall c, In c (evens calls) ->
     rapid_motion (snd c) = false /\
     (vget (fst c) Z_AXIS <? F32.of_Z (-3))%f32 = false) /\
  (forall s' w', result r = Done (true, s') w' -> calls <> [] ->
     Nat.Even (length calls) /\
     forall d, (vget (fst (last (evens calls) d)) Z_AXIS >? F32.of_Z (-3))%f32 = false).
Proof.
  cbv zeta. split; [vm_compute; reflexivity|].
  split; [vm_compute; reflexivity|].
  split; [vm_compute; eexists; eexists; reflexivity|].
  refine (mc_canned_drill_peck_depth 10 10 (MotionMode_CannedCycle 83) Bench.plane_xy
            F32.zero BenchX.drill0 BenchX.idle _).
  vm_compute. lia.
Defined.

(** X29 on the peck cycle with [sys.abort] set: the first
    move fails and is the only call. *)
Lemma mc_canned_drill_stops_witness :
  let aborted := set_mach (set_sys (Bench.sys0 STATE_IDLE true) (mach BenchX.idle))
                          BenchX.idle in
  let evs := events (mc_canned_drill 10 (MotionMode_CannedCycle 83) (Bench.v3 5 5 0)
                       Bench.feed600 (Bench.v3 0 0 1) Bench.plane_xy 1 BenchX.pecks3
                       aborted) in
  mc_line_returns evs = [false] /\
  length (mc_line_calls evs) = 1%nat /\
  stops_at_failure evs.
Proof.
  cbv zeta. split; [vm_compute; reflexivity|]. split; [vm_compute; reflexivity|].
  exact (mc_canned_drill_stops 10 (MotionMode_CannedCycle 83) (Bench.v3 5 5 0)
           Bench.feed600 (Bench.v3 0 0 1) Bench.plane_xy 1 BenchX.pecks3
           (set_mach (set_sys (Bench.sys0 STATE_IDLE true) (mach BenchX.idle))
                     BenchX.idle)).
Defined.

(** X27 on the idle machine: [$J=X1] is accepted and stored. *)
Lemma protocol_enqueue_gcode_slot_witness :
  fst (protocol_enqueue_gcode [36; 74; 61; 88; 49] BenchX.idle) = [] /\
  (exists w', result (protocol_enqueue_gcode [36; 74; 61; 88; 49] BenchX.idle)
              = Done true w' /\
              g_xcommand (glob (env (mach w'))) = [36; 74; 61; 88; 49]) /\
  exists ok w',
    protocol_enqueue_gcode [36; 74; 61; 88; 49] BenchX.idle = ([], Done ok w') /\
    (ok = false -> w' = BenchX.idle) /\
    (ok = true ->
     w' = set_mach (set_env {| glob := set_xcommand [36; 74; 61; 88; 49]
                                         (glob (env (mach BenchX.idle)));
                               plant := plant (env (mach BenchX.idle)) |}
                            (mach BenchX.idle)) BenchX.idle /\
     g_xcommand (glob (env (mach BenchX.idle))) = [] /\
     (sys_state (sys (mach BenchX.idle)) = STATE_IDLE \/
      sys_state (sys (mach BenchX.idle)) = STATE_JOG \/
      sys_state (sys (mach BenchX.idle)) = STATE_TOOL_CHANGE) /\
     bit_isfalse (sys_rt_exec_state (mach BenchX.idle)) EXEC_MOTION_CANCEL = true /\
     (gc_file_run (g_gc_state (glob (env (mach BenchX.idle)))) = true ->
      gc_program_flow (g_gc_state (glob (env (mach BenchX.idle)))) = ProgramFlow_Running ->
      is_jog_command [36; 74; 61; 88; 49] = false)) /\
    (ok = true -> [36; 74; 61; 88; 49] <> [] ->
     forall gcode2, protocol_enqueue_gcode gcode2 w' = ([], Done false w')).
Proof.
  split; [vm_compute; reflexivity|].
  split; [eexists; split; vm_compute; reflexivity|].
  exact (protocol_enqueue_gcode_slot [36; 74; 61; 88; 49] BenchX.idle).
Defined.

End Instances2.
